(** * Supply Chain Data Assistant: the natural-language-to-SQL pipeline

    A shallow embedding of [data_assistant.py] (class [DataAssistant]) and the
    properties of its safety gate, fence stripping, prompt builder, schema
    cache, constructor and result envelope.

    Python [str] values are sequences of Unicode code points, modelled as
    [list N].  The string methods the program uses ([upper], [strip],
    [startswith], [in], [replace], [join]) are defined on that type.  The
    external collaborators (warehouse, language-model providers, process
    environment) are oracles that may answer differently on every call: they
    receive the history of external calls made so far. *)

From Stdlib Require Import Ascii String.
From Stdlib Require Import List NArith ZArith Bool Lia.
From Stdlib Require Import Numbers.DecimalString.
From Equations Require Import Equations.
Import ListNotations.

(** ** Python strings *)

Module PyStr.

Definition char := N.
Definition str := list char.

(** A literal of the source, read code point by code point. *)
Definition py (s : string) : str := map N_of_ascii (list_ascii_of_string s).

Definition nl : str := [10%N].

Definition char_eqb (a b : char) : bool := N.eqb a b.

Fixpoint str_eqb (a b : str) : bool :=
  match a, b with
  | [], [] => true
  | x :: a', y :: b' => char_eqb x y && str_eqb a' b'
  | _, _ => false
  end.

(** [s.startswith(prefix)] *)
Fixpoint startswith (prefix s : str) : bool :=
  match prefix, s with
  | [], _ => true
  | _ :: _, [] => false
  | p :: prefix', c :: s' => char_eqb p c && startswith prefix' s'
  end.

(** [sub in s]: plain substring search. *)
Fixpoint contains (sub s : str) : bool :=
  match s with
  | [] => startswith sub []
  | _ :: s' => startswith sub s || contains sub s'
  end.

(** [str.isspace] on one code point: the ASCII white space
    (TAB..CR, FS..US, SPACE) and the Unicode white space characters. *)
Definition isspace (c : char) : bool :=
  ((9 <=? c) && (c <=? 13) || (28 <=? c) && (c <=? 32)
   || (c =? 133) || (c =? 160) || (c =? 5760)
   || (8192 <=? c) && (c <=? 8202)
   || (c =? 8232) || (c =? 8233) || (c =? 8239) || (c =? 8287)
   || (c =? 12288))%N.

Fixpoint lstrip (s : str) : str :=
  match s with
  | [] => []
  | c :: s' => if isspace c then lstrip s' else s
  end.

Definition rstrip (s : str) : str := rev (lstrip (rev s)).

(** [s.strip()] with no argument. *)
Definition strip (s : str) : str := rstrip (lstrip s).

(** [sep.join(parts)] *)
Fixpoint join (sep : str) (parts : list str) : str :=
  match parts with
  | [] => []
  | [p] => p
  | p :: rest => p ++ sep ++ join sep rest
  end.

(** [s.replace(old, new)] for a non-empty [old]: occurrences are found from
    the left and do not overlap. *)
Equations? replace_scan (old new s : str) : str by wf (length s) lt :=
  replace_scan old new [] := [];
  replace_scan old new (c :: s') with startswith old (c :: s') => {
    | true := new ++ replace_scan old new (skipn (Nat.pred (length old)) s');
    | false := c :: replace_scan old new s' }.
Proof.
  all: simpl; try rewrite length_skipn; lia.
Qed.

(** [s.replace(old, new)]; an empty [old] matches before every character
    and at the end. *)
Definition replace (old new s : str) : str :=
  match old with
  | [] => new ++ flat_map (fun c => c :: new) s
  | _ :: _ => replace_scan old new s
  end.

(** [str.upper] on one code point.  ASCII letters are mapped here; for the
    other code points the Unicode database decides (one code point may
    become several), and it is a parameter. *)
Definition upper_char (unicode_upper : char -> str) (c : char) : str :=
  if ((97 <=? c) && (c <=? 122))%N then [(c - 32)%N]
  else if (c <? 128)%N then [c]
  else unicode_upper c.

Definition upper (unicode_upper : char -> str) (s : str) : str :=
  flat_map (upper_char unicode_upper) s.

(** The database restricted to the identity: enough for text whose
    non-ASCII characters are caseless. *)
Definition caseless : char -> str := fun c => [c].

End PyStr.

Import PyStr.

(** ** Values, dictionaries, exceptions *)

(** Cell values a warehouse row holds. *)
Inductive value :=
| VNone
| VBool (b : bool)
| VInt (z : Z)
| VStr (s : str).

(** [f"{v}"] *)
Definition format_value (v : value) : str :=
  match v with
  | VNone => py "None"
  | VBool true => py "True"
  | VBool false => py "False"
  | VInt z => py (NilZero.string_of_int (Z.to_int z))
  | VStr s => s
  end.

(** [f"{x}"] for an attribute read with [os.getenv]: a string or [None]. *)
Definition format_opt (o : option str) : str :=
  match o with
  | Some s => s
  | None => py "None"
  end.

(** Truth value of a string-or-[None]: [None] and the empty string are
    false. *)
Definition truthy (o : option str) : bool :=
  match o with
  | Some (_ :: _) => true
  | _ => false
  end.

(** A Python [dict] with string keys: insertion ordered, one entry per key. *)
Module PyDict.

Definition dict (V : Type) := list (str * V).

(** [d[k] = v] *)
Fixpoint set_item {V} (k : str) (v : V) (d : dict V) : dict V :=
  match d with
  | [] => [(k, v)]
  | (k', v') :: d' =>
      if str_eqb k k' then (k', v) :: d' else (k', v') :: set_item k v d'
  end.

(** [d.get(k)] *)
Fixpoint get {V} (k : str) (d : dict V) : option V :=
  match d with
  | [] => None
  | (k', v') :: d' => if str_eqb k k' then Some v' else get k d'
  end.

Definition keys {V} (d : dict V) : list str := map fst d.

(** [dict(pairs)] *)
Definition of_pairs {V} (pairs : list (str * V)) : dict V :=
  fold_left (fun d kv => set_item (fst kv) (snd kv) d) pairs [].

End PyDict.

(** The exception classes the program tells apart. *)
Inductive exn_class :=
| ValueError
| IndexError
| AttributeError
| AuthenticationError
| RateLimitError
| APIError
| OtherException.

(** A raised exception: its class and [str(e)]. *)
Record exn := Exn { exn_kind : exn_class; exn_str : str }.

Definition outcome (A : Type) := (exn + A)%type.

(** ** External collaborators *)

(** Calls that leave the program (the sampling temperature of the chat
    call is not recorded). *)
Inductive event :=
| OpenAISetKey (api_key : str)
| GenaiConfigure (api_key : str)
| GenaiModel (model : str)
| SqlConnect (server_hostname http_path access_token : str)
| CursorExecute (operation : str)
| OpenAIChat (model system_content user_content : str) (max_tokens : N)
| GeminiGenerate (prompt : str).

(** Calls that go over the network. *)
Definition is_network (e : event) : bool :=
  match e with
  | SqlConnect _ _ _ | CursorExecute _ | OpenAIChat _ _ _ _
  | GeminiGenerate _ => true
  | _ => false
  end.

(** A DESCRIBE statement sent to the warehouse. *)
Definition is_describe (e : event) : bool :=
  match e with
  | CursorExecute op => startswith (py "DESCRIBE TABLE ") op
  | _ => false
  end.

(** What a cursor holds after [execute]: the first item of every entry of
    [cursor.description] and the rows of [fetchall()]. *)
Record result_set := ResultSet {
  rs_columns : list str;
  rs_rows : list (list value)
}.

(** The world outside: every oracle sees the calls made so far (the call it
    answers is the last one), so its answers may change from call to call. *)
Record World := {
  os_environ : str -> option str;
  load_dotenv : (str -> option str) -> str -> option str;
  unicode_upper : char -> str;
  sql_connect : list event -> option exn;
  cursor_run : list event -> outcome result_set;
  chat_completions_create : list event -> outcome str;
  generate_content : list event -> outcome str
}.

(** ** The assistant *)

(** Attributes of a [DataAssistant] instance.  An attribute that
    [_initialize_llm] sets only for one provider is [None] while unset. *)
Record DataAssistant := {
  llm_provider : str;
  server_hostname : option str;
  http_path : option str;
  access_token : option str;
  catalog_name : option str;
  schema_name : option str;
  table_name : option str;
  openai_api_key : option str;
  openai_model : option str;
  gemini_api_key : option str;
  gemini_model : option str;
  gemini_client : option str;
  _table_schema : option str
}.

Definition set_table_schema (t : option str) (a : DataAssistant) :=
  {| llm_provider := llm_provider a;
     server_hostname := server_hostname a;
     http_path := http_path a;
     access_token := access_token a;
     catalog_name := catalog_name a;
     schema_name := schema_name a;
     table_name := table_name a;
     openai_api_key := openai_api_key a;
     openai_model := openai_model a;
     gemini_api_key := gemini_api_key a;
     gemini_model := gemini_model a;
     gemini_client := gemini_client a;
     _table_schema := t |}.

(** A method runs on the instance and the history of external calls; it
    returns or raises, and leaves both possibly changed. *)
Record state := State { self : DataAssistant; history : list event }.

Definition M (A : Type) := state -> outcome A * state.

Definition ret {A} (a : A) : M A := fun st => (inr a, st).

Definition raise {A} (e : exn) : M A := fun st => (inl e, st).

Definition bind {A B} (m : M A) (k : A -> M B) : M B :=
  fun st =>
    match m st with
    | (inr a, st') => k a st'
    | (inl e, st') => (inl e, st')
    end.

(** [try: m except Exception as e: h e] *)
Definition try_except {A} (m : M A) (h : exn -> M A) : M A :=
  fun st =>
    match m st with
    | (inr a, st') => (inr a, st')
    | (inl e, st') => h e st'
    end.

Definition get_self : M DataAssistant := fun st => (inr (self st), st).

Definition put_self (a : DataAssistant) : M unit :=
  fun st => (inr tt, State a (history st)).

(** An external call: it is recorded, then the oracle answers. *)
Definition call {A} (e : event) (oracle : list event -> outcome A) : M A :=
  fun st =>
    let h := history st ++ [e] in
    (oracle h, State (self st) h).

Definition lift {A} (o : outcome A) : M A := fun st => (o, st).

Declare Scope py_scope.
Delimit Scope py_scope with py_m.
Notation "x <- c ;; k" := (bind c (fun x => k))
  (at level 61, c at next level, right associativity) : py_scope.
Notation "c ;;; k" := (bind c (fun _ => k))
  (at level 61, right associativity) : py_scope.

(** The sixteen entries of [dangerous_operations]. *)
Definition dangerous_operations : list str :=
  map py ["DROP "; "DELETE "; "TRUNCATE "; "INSERT "; "UPDATE ";
          "CREATE "; "ALTER "; "GRANT "; "REVOKE "; "EXEC ";
          "EXECUTE "; "--"; "/*"; "*/"; "xp_"; "sp_"]%string.

Definition dangerous_message (operation : str) : str :=
  py "SQL query contains potentially dangerous operation: '"
  ++ strip operation ++ py "'. "
  ++ py "Only SELECT queries are allowed for safety.".

Definition not_select_message : str :=
  py "Only SELECT queries are allowed. Query must start with SELECT.".

(** The loop [for operation in dangerous_operations]: it raises at the first
    entry found in [sql_upper]. *)
Fixpoint check_operations (operations : list str) (sql_upper : str)
  : outcome unit :=
  match operations with
  | [] => inr tt
  | operation :: rest =>
      if contains operation sql_upper
      then inl (Exn ValueError (dangerous_message operation))
      else check_operations rest sql_upper
  end.

(** [DataAssistant.validate_sql_query]; it reads nothing of the instance but
    the case mapping of the platform. *)
Definition validate_sql_query (up : char -> str) (sql_query : str)
  : outcome bool :=
  let sql_upper := upper up sql_query in
  match check_operations dangerous_operations sql_upper with
  | inl e => inl e
  | inr _ =>
      if negb (startswith (py "SELECT") (strip sql_upper))
      then inl (Exn ValueError not_select_message)
      else inr true
  end.

(** The clean-up both providers apply to the model's answer: every sql
    fence is replaced by nothing, then every bare fence, and the result is
    stripped. *)
Definition strip_fences (s : str) : str :=
  strip (replace (py "```") [] (replace (py "```sql") [] s)).

(** The answer is stripped once before the clean-up. *)
Definition clean_response (content : str) : str :=
  strip_fences (strip content).

(** The f-string of [generate_sql_prompt]. *)
Definition prompt_text (full_table_name table_schema question : str) : str :=
  py "You are a SQL expert. Convert the following natural language query into a SQL query for a Databricks Unity Catalog table."
  ++ nl ++ nl
  ++ py "Table: " ++ full_table_name ++ nl ++ nl
  ++ py "Table Schema:" ++ nl
  ++ table_schema ++ nl ++ nl
  ++ py "Natural Language Query: " ++ question ++ nl ++ nl
  ++ py "Important Guidelines:" ++ nl
  ++ py "1. Generate ONLY the SQL query without any explanation or markdown formatting" ++ nl
  ++ py "2. Use the exact table name: " ++ full_table_name ++ nl
  ++ py "3. Use proper SQL syntax compatible with Databricks SQL" ++ nl
  ++ py "4. Include appropriate WHERE, GROUP BY, ORDER BY, and LIMIT clauses as needed" ++ nl
  ++ py "5. Make sure column names match exactly as shown in the schema" ++ nl
  ++ py "6. Return only the SQL query, nothing else" ++ nl ++ nl
  ++ py "SQL Query:".

(** [f"{self.catalog_name}.{self.schema_name}.{self.table_name}"] *)
Definition full_table_name (a : DataAssistant) : str :=
  format_opt (catalog_name a) ++ py "." ++ format_opt (schema_name a)
  ++ py "." ++ format_opt (table_name a).

(** [f"  - {col[0]}: {col[1]}"]; a row with fewer than two cells raises. *)
Definition schema_line (col : list value) : outcome str :=
  match col with
  | col_name :: col_type :: _ =>
      inr (py "  - " ++ format_value col_name ++ py ": "
           ++ format_value col_type)
  | _ => inl (Exn IndexError (py "tuple index out of range"))
  end.

Fixpoint schema_lines (columns : list (list value)) : outcome (list str) :=
  match columns with
  | [] => inr []
  | col :: rest =>
      match schema_line col with
      | inl e => inl e
      | inr line =>
          match schema_lines rest with
          | inl e => inl e
          | inr lines => inr (line :: lines)
          end
      end
  end.

(** One row as [dict(zip(columns, row))]. *)
Definition row_dict (columns : list str) (row : list value)
  : PyDict.dict value :=
  PyDict.of_pairs (combine columns row).

(** Values stored in the envelope [query] returns. *)
Inductive field :=
| FStr (s : str)
| FRows (rows : list (PyDict.dict value)).

Definition system_content : str :=
  py "You are a SQL expert that converts natural language to SQL queries.".

(** [all([self.server_hostname, self.http_path, self.access_token])] *)
Definition connection_ready (a : DataAssistant) : bool :=
  truthy (server_hostname a) && truthy (http_path a)
  && truthy (access_token a).

Definition settings_incomplete : exn :=
  Exn ValueError
    (py "Databricks configuration incomplete. Check environment variables.").

Definition openai_key_missing : exn :=
  Exn ValueError (py "OPENAI_API_KEY not found in environment variables").

Definition gemini_key_missing : exn :=
  Exn ValueError (py "GEMINI_API_KEY not found in environment variables").

Section Assistant.

Variable W : World.

Local Open Scope py_scope.

(** [os.getenv(name)] once [load_dotenv()] has run. *)
Definition getenv (name : string) : option str :=
  load_dotenv W (os_environ W) (py name).

(** [os.getenv(name, default)] *)
Definition getenv_default (name : string) (default : string) : str :=
  match getenv name with
  | Some v => v
  | None => py default
  end.

Definition get_databricks_connection : M unit :=
  a <- get_self ;;
  if negb (connection_ready a) then raise settings_incomplete
  else
    fun st =>
      let h := history st
                 ++ [SqlConnect (format_opt (server_hostname a))
                                (format_opt (http_path a))
                                (format_opt (access_token a))] in
      match sql_connect W h with
      | Some e => (inl e, State (self st) h)
      | None => (inr tt, State (self st) h)
      end.

Definition get_table_schema : M str :=
  a <- get_self ;;
  if truthy (_table_schema a) then ret (format_opt (_table_schema a))
  else
    let full := full_table_name a in
    get_databricks_connection ;;;
    rs <- call (CursorExecute (py "DESCRIBE TABLE " ++ full)) (cursor_run W) ;;
    schema_info <- lift (schema_lines (rs_rows rs)) ;;
    let text := join nl schema_info in
    put_self (set_table_schema (Some text) a) ;;;
    ret text.

Definition generate_sql_prompt (natural_language_query : str) : M str :=
  table_schema <- get_table_schema ;;
  a <- get_self ;;
  ret (prompt_text (full_table_name a) table_schema natural_language_query).

(** The [except] clauses of [generate_sql_with_openai], in their order. *)
Definition openai_error (e : exn) : exn :=
  match exn_kind e with
  | AuthenticationError =>
      Exn ValueError
        (py "OpenAI authentication failed. Please check your API key: "
         ++ exn_str e)
  | RateLimitError =>
      Exn ValueError
        (py "OpenAI rate limit exceeded. Please try again later: "
         ++ exn_str e)
  | APIError => Exn ValueError (py "OpenAI API error: " ++ exn_str e)
  | _ =>
      Exn ValueError (py "Unexpected error calling OpenAI API: " ++ exn_str e)
  end.

Definition missing_attribute (name : string) : exn :=
  Exn AttributeError
    (py "'DataAssistant' object has no attribute '" ++ py name ++ py "'").

Definition generate_sql_with_openai (prompt : str) : M str :=
  try_except
    (a <- get_self ;;
     match openai_model a with
     | None => raise (missing_attribute "openai_model")
     | Some model =>
         content <- call (OpenAIChat model system_content prompt 500)
                         (chat_completions_create W) ;;
         ret (clean_response content)
     end)
    (fun e => raise (openai_error e)).

Definition gemini_error (e : exn) : exn :=
  Exn ValueError
    (py "Gemini API error: " ++ exn_str e
     ++ py ". Please check your API key and rate limits.").

Definition generate_sql_with_gemini (prompt : str) : M str :=
  try_except
    (a <- get_self ;;
     match gemini_client a with
     | None => raise (missing_attribute "gemini_client")
     | Some _ =>
         text <- call (GeminiGenerate prompt) (generate_content W) ;;
         ret (clean_response text)
     end)
    (fun e => raise (gemini_error e)).

Definition unsupported_provider (provider : str) : exn :=
  Exn ValueError (py "Unsupported LLM provider: " ++ provider).

Definition natural_language_to_sql (natural_language_query : str) : M str :=
  prompt <- generate_sql_prompt natural_language_query ;;
  a <- get_self ;;
  if str_eqb (llm_provider a) (py "openai")
  then generate_sql_with_openai prompt
  else if str_eqb (llm_provider a) (py "gemini")
  then generate_sql_with_gemini prompt
  else raise (unsupported_provider (llm_provider a)).

Definition execute_sql (sql_query : str) : M (list (PyDict.dict value)) :=
  lift (validate_sql_query (unicode_upper W) sql_query) ;;;
  get_databricks_connection ;;;
  rs <- call (CursorExecute sql_query) (cursor_run W) ;;
  ret (map (row_dict (rs_columns rs)) (rs_rows rs)).

Definition envelope := PyDict.dict field.

Definition query (natural_language_query : str) (execute : bool)
  : M envelope :=
  sql_query <- natural_language_to_sql natural_language_query ;;
  let result :=
    [(py "natural_language_query", FStr natural_language_query);
     (py "sql_query", FStr sql_query)] in
  if execute then
    try_except
      (results <- execute_sql sql_query ;;
       ret (PyDict.set_item (py "status") (FStr (py "success"))
              (PyDict.set_item (py "results") (FRows results) result)))
      (fun e =>
         ret (PyDict.set_item (py "error") (FStr (exn_str e))
                (PyDict.set_item (py "status") (FStr (py "error")) result)))
  else ret result.

(** [llm_provider or os.getenv('LLM_PROVIDER', 'openai')] *)
Definition select_provider (llm_provider_arg : option str) : str :=
  if truthy llm_provider_arg then format_opt llm_provider_arg
  else getenv_default "LLM_PROVIDER" "openai".

(** [__init__] followed by [_initialize_llm]: the new instance, or the error
    raised, with the external calls made on the way. *)
Definition init (llm_provider_arg : option str) (h : list event)
  : outcome DataAssistant * list event :=
  let provider := select_provider llm_provider_arg in
  let base key_o model_o key_g model_g client :=
    {| llm_provider := provider;
       server_hostname := getenv "DATABRICKS_SERVER_HOSTNAME";
       http_path := getenv "DATABRICKS_HTTP_PATH";
       access_token := getenv "DATABRICKS_ACCESS_TOKEN";
       catalog_name := getenv "CATALOG_NAME";
       schema_name := getenv "SCHEMA_NAME";
       table_name := getenv "TABLE_NAME";
       openai_api_key := key_o;
       openai_model := model_o;
       gemini_api_key := key_g;
       gemini_model := model_g;
       gemini_client := client;
       _table_schema := None |} in
  if str_eqb provider (py "openai") then
    let key := getenv "OPENAI_API_KEY" in
    let model := getenv_default "OPENAI_MODEL" "gpt-4" in
    if negb (truthy key)
    then (inl openai_key_missing, h)
    else (inr (base key (Some model) None None None),
          h ++ [OpenAISetKey (format_opt key)])
  else if str_eqb provider (py "gemini") then
    let key := getenv "GEMINI_API_KEY" in
    let model := getenv_default "GEMINI_MODEL" "gemini-pro" in
    if negb (truthy key)
    then (inl gemini_key_missing, h)
    else (inr (base None None key (Some model) (Some model)),
          h ++ [GenaiConfigure (format_opt key); GenaiModel model])
  else (inl (unsupported_provider provider), h).

End Assistant.

(** ** Vocabulary of the properties *)

(** [sub] occurs in [s]. *)
Definition substring (sub s : str) : Prop :=
  exists l r, s = l ++ sub ++ r.

Definition backtick : char := 96%N.

(** The bare markdown fence. *)
Definition fence : str := [backtick; backtick; backtick].

(** The gate seen from its caller: [validate_sql_query] returns [True] and
    [execute_sql] goes on with the very string it passed in. *)
Definition validated (up : char -> str) (sql_query : str) : option str :=
  match validate_sql_query up sql_query with
  | inr _ => Some sql_query
  | inl _ => None
  end.

(** Some entry of the denylist occurs in the text. *)
Definition denylisted (sql_upper : str) : bool :=
  existsb (fun operation => contains operation sql_upper) dangerous_operations.

(** The text starts with SELECT once leading white space is dropped. *)
Definition select_prefixed (sql_upper : str) : bool :=
  startswith (py "SELECT") (lstrip sql_upper).

(** [sub] occurs in [s] when case is ignored: both are uppercased. *)
Definition contains_ignoring_case (up : char -> str) (sub s : str) : bool :=
  contains (upper up sub) (upper up s).

(** The entries of the denylist that are written in upper case (all but the
    last two). *)
Definition uppercase_entries : list str := firstn 14 dangerous_operations.

Definition is_ascii_lower (c : char) : bool := ((97 <=? c) && (c <=? 122))%N.

(** The case mapping of the non-ASCII characters yields no ASCII lower-case
    letter (as that of Unicode does). *)
Definition yields_no_ascii_lower (up : char -> str) : Prop :=
  forall c, forallb (fun d => negb (is_ascii_lower d)) (up c) = true.

Definition connect_event (a : DataAssistant) : event :=
  SqlConnect (format_opt (server_hostname a)) (format_opt (http_path a))
             (format_opt (access_token a)).

Definition describe_event (a : DataAssistant) : event :=
  CursorExecute (py "DESCRIBE TABLE " ++ full_table_name a).

(** What [execute_sql] does with a query the gate lets through: the
    statement handed to the cursor is the query itself. *)
Definition run_verbatim (W : World) (sql_query : str)
  : M (list (PyDict.dict value)) :=
  fun st =>
    match get_databricks_connection W st with
    | (inl e, st1) => (inl e, st1)
    | (inr _, st1) =>
        let h := history st1 ++ [CursorExecute sql_query] in
        match cursor_run W h with
        | inl e => (inl e, State (self st1) h)
        | inr rs =>
            (inr (map (row_dict (rs_columns rs)) (rs_rows rs)),
             State (self st1) h)
        end
    end.

(** Number of DESCRIBE statements sent to the warehouse. *)
Definition describe_calls (h : list event) : nat :=
  length (filter is_describe h).

(** [get_table_schema()] called [n + 1] times in a row; the last result is
    returned. *)
Fixpoint get_table_schema_times (W : World) (n : nat) : M str :=
  match n with
  | 0 => get_table_schema W
  | S k => bind (get_table_schema W) (fun _ => get_table_schema_times W k)
  end.

(** The three shapes of the dictionary [query] returns. *)
Definition envelope_plain (q sql : str) : envelope :=
  [(py "natural_language_query", FStr q); (py "sql_query", FStr sql)].

Definition envelope_success (q sql : str) (rows : list (PyDict.dict value))
  : envelope :=
  envelope_plain q sql
  ++ [(py "results", FRows rows); (py "status", FStr (py "success"))].

Definition envelope_error (q sql message : str) : envelope :=
  envelope_plain q sql
  ++ [(py "status", FStr (py "error")); (py "error", FStr message)].

(** The envelope holds nothing but the question and the generated SQL. *)
Definition plain_shape (env : envelope) : Prop :=
  PyDict.keys env = [py "natural_language_query"; py "sql_query"]
  /\ PyDict.get (py "status") env = None
  /\ PyDict.get (py "results") env = None
  /\ PyDict.get (py "error") env = None.

(** The envelope holds exactly one outcome of the execution: rows with
    status [success] and no error, or an error text with status [error] and
    no results. *)
Definition executed_shape (env : envelope) : Prop :=
  (exists rows,
      PyDict.get (py "results") env = Some (FRows rows)
      /\ PyDict.get (py "status") env = Some (FStr (py "success"))
      /\ PyDict.get (py "error") env = None)
  \/ (exists message,
        PyDict.get (py "error") env = Some (FStr message)
        /\ PyDict.get (py "status") env = Some (FStr (py "error"))
        /\ PyDict.get (py "results") env = None).

(** Where a failure of [execute_sql] comes from: the gate, the check of the
    connection settings, or the warehouse (on connecting or on executing). *)
Inductive failure_origin (W : World) (e : exn) : Prop :=
| FromGate (s : str) (H : validate_sql_query (unicode_upper W) s = inl e)
| FromSettings (H : e = settings_incomplete)
| FromConnect (h : list event) (H : sql_connect W h = Some e)
| FromCursor (h : list event) (H : cursor_run W h = inl e).

(** ** Sample worlds

    The settings of the repository's unit tests, with warehouses and
    providers that answer in a fixed way. *)

Definition environ_of (vars : list (string * string)) (name : str)
  : option str :=
  PyDict.get name (map (fun kv => (py (fst kv), py (snd kv))) vars).

Definition databricks_vars : list (string * string) :=
  [("DATABRICKS_SERVER_HOSTNAME", "test.databricks.com");
   ("DATABRICKS_HTTP_PATH", "/sql/1.0/warehouses/test");
   ("DATABRICKS_ACCESS_TOKEN", "test-token");
   ("CATALOG_NAME", "test_catalog");
   ("SCHEMA_NAME", "test_schema");
   ("TABLE_NAME", "test_table")]%string.

Definition last_event (h : list event) : option event :=
  last (map Some h) None.

(** A world with the given environment and no [.env] file, whose warehouse
    answers a DESCRIBE with [columns] and any other statement with [run],
    and whose providers answer [answer]. *)
Definition sample_world (vars : list (string * string))
    (columns : list (list value)) (run : outcome result_set) (answer : str)
  : World :=
  {| os_environ := environ_of vars;
     load_dotenv := fun environ => environ;
     unicode_upper := caseless;
     sql_connect := fun _ => None;
     cursor_run := fun h =>
       match last_event h with
       | Some e =>
           if is_describe e
           then inr (ResultSet [py "col_name"; py "data_type"; py "comment"]
                       columns)
           else run
       | None => run
       end;
     chat_completions_create := fun _ => inr answer;
     generate_content := fun _ => inr answer |}.

Definition two_columns : list (list value) :=
  [[VStr (py "col1"); VStr (py "string"); VNone];
   [VStr (py "col2"); VStr (py "int"); VNone]].

Definition one_row : outcome result_set :=
  inr (ResultSet [py "n"] [[VInt 42]]).

Definition fenced_answer : str :=
  py "```sql" ++ nl ++ py "SELECT COUNT(*) AS n FROM test_catalog.test_schema.test_table"
  ++ nl ++ py "```".

(** The tests' OpenAI configuration. *)
Definition openai_world : World :=
  sample_world (("OPENAI_API_KEY", "test-key") :: databricks_vars)%string
    two_columns one_row fenced_answer.

(** The same with a table that has no column. *)
Definition empty_table_world : World :=
  sample_world (("OPENAI_API_KEY", "test-key") :: databricks_vars)%string
    [] one_row fenced_answer.

(** The same with a warehouse that fails without a message when the query
    is executed. *)
Definition silent_failure_world : World :=
  sample_world (("OPENAI_API_KEY", "test-key") :: databricks_vars)%string
    two_columns (inl (Exn OtherException [])) fenced_answer.

(** A provider key and nothing else: no warehouse settings. *)
Definition unconfigured_world : World :=
  sample_world [("OPENAI_API_KEY", "test-key")]%string
    two_columns one_row fenced_answer.

(** The same with a provider that answers with a destructive statement. *)
Definition unsafe_answer_world : World :=
  sample_world (("OPENAI_API_KEY", "test-key") :: databricks_vars)%string
    two_columns one_row (py "DROP TABLE test_table").

(** No provider key at all. *)
Definition keyless_world : World :=
  sample_world databricks_vars two_columns one_row fenced_answer.

(** The instance [DataAssistant()] builds in a world, or [None] when the
    constructor raises. *)
Definition fresh (W : World) : option state :=
  match init W None [] with
  | (inr a, h) => Some (State a h)
  | (inl _, _) => None
  end.

(** The instance the tests build, before any call. *)
Definition test_assistant : DataAssistant :=
  {| llm_provider := py "openai";
     server_hostname := Some (py "test.databricks.com");
     http_path := Some (py "/sql/1.0/warehouses/test");
     access_token := Some (py "test-token");
     catalog_name := Some (py "test_catalog");
     schema_name := Some (py "test_schema");
     table_name := Some (py "test_table");
     openai_api_key := Some (py "test-key");
     openai_model := Some (py "gpt-4");
     gemini_api_key := None;
     gemini_model := None;
     gemini_client := None;
     _table_schema := None |}.

Definition test_state : state :=
  State test_assistant [OpenAISetKey (py "test-key")].

(** ** Vocabulary of the further properties *)

(** A setting read from the environment is missing: unset, or set to the
    empty string. *)
Definition setting_missing (o : option str) : Prop :=
  o = None \/ o = Some [].

(** The statement [get_table_schema] sends for an instance. *)
Definition describe_statement (a : DataAssistant) : str :=
  py "DESCRIBE TABLE " ++ full_table_name a.

(** The gate let the statement through. *)
Definition accepted (up : char -> str) (sql_query : str) : bool :=
  match validate_sql_query up sql_query with
  | inr _ => true
  | inl _ => false
  end.

(** A call the pipeline may make for an instance: any call but the
    execution of a statement, which has to be the DESCRIBE of the
    instance's table or a statement the gate let through. *)
Definition permitted (up : char -> str) (a : DataAssistant) (e : event)
  : bool :=
  match e with
  | CursorExecute op => str_eqb op (describe_statement a) || accepted up op
  | _ => true
  end.

(** Two instances differ at most in the schema cache. *)
Definition same_settings (a b : DataAssistant) : Prop :=
  exists cache, b = set_table_schema cache a.

(** What a method leaves behind: the settings as they were, and the history
    extended by calls of an allowed kind. *)
Definition footprint_by (allowed : DataAssistant -> event -> bool)
    (st st' : state) : Prop :=
  same_settings (self st) (self st')
  /\ exists added,
       history st' = history st ++ added
       /\ forallb (allowed (self st)) added = true.

Definition footprint (up : char -> str) : state -> state -> Prop :=
  footprint_by (permitted up).

(** A statement handed to a cursor. *)
Definition is_statement (e : event) : bool :=
  match e with
  | CursorExecute _ => true
  | _ => false
  end.

(** A call that executes nothing but the DESCRIBE of the instance's
    table. *)
Definition quiet (a : DataAssistant) (e : event) : bool :=
  match e with
  | CursorExecute op => str_eqb op (describe_statement a)
  | _ => true
  end.

(** A call to one of the two providers. *)
Definition is_provider_call (e : event) : bool :=
  match e with
  | OpenAIChat _ _ _ _ | GeminiGenerate _ => true
  | _ => false
  end.

(** The tests' OpenAI configuration with a provider that refuses the call. *)
Definition rate_limited_world : World :=
  {| os_environ := os_environ openai_world;
     load_dotenv := load_dotenv openai_world;
     unicode_upper := caseless;
     sql_connect := sql_connect openai_world;
     cursor_run := cursor_run openai_world;
     chat_completions_create :=
       fun _ => inl (Exn RateLimitError (py "Error code: 429"));
     generate_content :=
       fun _ => inl (Exn OtherException (py "quota exceeded")) |}.

(** The instance [DataAssistant(llm_provider='gemini')] builds when the
    tests' settings hold a Gemini key. *)
Definition gemini_assistant : DataAssistant :=
  {| llm_provider := py "gemini";
     server_hostname := Some (py "test.databricks.com");
     http_path := Some (py "/sql/1.0/warehouses/test");
     access_token := Some (py "test-token");
     catalog_name := Some (py "test_catalog");
     schema_name := Some (py "test_schema");
     table_name := Some (py "test_table");
     openai_api_key := None;
     openai_model := None;
     gemini_api_key := Some (py "test-key");
     gemini_model := Some (py "gemini-pro");
     gemini_client := Some (py "gemini-pro");
     _table_schema := None |}.

(** The tests' instance once the schema is in the cache. *)
Definition cached_state : state :=
  State (set_table_schema (Some (py "  - col1: string")) test_assistant) [].

(** The text holds no backtick. *)
Definition no_backtick (s : str) : bool :=
  forallb (fun c => negb (char_eqb backtick c)) s.

(** The instance can be served by [natural_language_to_sql]: its provider
    is one of the two and the attribute that provider's adapter reads is
    set. *)
Definition dispatchable (a : DataAssistant) : Prop :=
  (llm_provider a = py "openai" /\ openai_model a <> None)
  \/ (llm_provider a = py "gemini" /\ gemini_client a <> None).

(** A row of the DESCRIBE answer has the two cells the schema text needs. *)
Definition has_two_cells (col : list value) : bool :=
  match col with
  | _ :: _ :: _ => true
  | _ => false
  end.

(** The line of the schema text for a name and a type. *)
Definition column_line (col_name col_type : value) : str :=
  py "  - " ++ format_value col_name ++ py ": " ++ format_value col_type.

(** The answer of the warehouse to the DESCRIBE of an instance's table,
    when the connection was opened at history [h]. *)
Definition describe_answer (W : World) (a : DataAssistant) (h : list event)
  : outcome result_set :=
  cursor_run W (h ++ [connect_event a; describe_event a]).

(** A warehouse whose DESCRIBE answer has a row with one cell only. *)
Definition short_row_world : World :=
  sample_world (("OPENAI_API_KEY", "test-key") :: databricks_vars)%string
    [[VStr (py "col1"); VStr (py "string")]; [VStr (py "col2")]]
    one_row fenced_answer.

(** The tests' settings with an LLM_PROVIDER that is set but empty. *)
Definition empty_provider_world : World :=
  sample_world (("LLM_PROVIDER", EmptyString) :: ("OPENAI_API_KEY", "test-key")
                :: databricks_vars)%string
    two_columns one_row fenced_answer.

(** The tests' settings for Gemini, with LLM_PROVIDER naming OpenAI. *)
Definition gemini_world : World :=
  sample_world (("LLM_PROVIDER", "openai") :: ("GEMINI_API_KEY", "test-key")
                :: databricks_vars)%string
    two_columns one_row fenced_answer.

(** The tests' instance with an HTTP path that is set but empty. *)
Definition empty_path_assistant : DataAssistant :=
  {| llm_provider := py "openai";
     server_hostname := Some (py "test.databricks.com");
     http_path := Some [];
     access_token := Some (py "test-token");
     catalog_name := Some (py "test_catalog");
     schema_name := Some (py "test_schema");
     table_name := Some (py "test_table");
     openai_api_key := Some (py "test-key");
     openai_model := Some (py "gpt-4");
     gemini_api_key := None;
     gemini_model := None;
     gemini_client := None;
     _table_schema := None |}.

(** The tests' OpenAI configuration with a warehouse that refuses the
    connection. *)
Definition unreachable_world : World :=
  {| os_environ := os_environ openai_world;
     load_dotenv := load_dotenv openai_world;
     unicode_upper := caseless;
     sql_connect := fun _ => Some (Exn OtherException (py "connection refused"));
     cursor_run := cursor_run openai_world;
     chat_completions_create := chat_completions_create openai_world;
     generate_content := generate_content openai_world |}.

(** The same with a warehouse that accepts the connection and refuses every
    statement. *)
Definition missing_table_world : World :=
  {| os_environ := os_environ openai_world;
     load_dotenv := load_dotenv openai_world;
     unicode_upper := caseless;
     sql_connect := fun _ => None;
     cursor_run :=
       fun _ => inl (Exn OtherException (py "TABLE_OR_VIEW_NOT_FOUND"));
     chat_completions_create := chat_completions_create openai_world;
     generate_content := generate_content openai_world |}.

(** The instance of a world without warehouse settings. *)
Definition unconfigured_state : state :=
  match fresh unconfigured_world with
  | Some st => st
  | None => test_state
  end.

(** ** The command-line front end *)

(** What [main] needs of Python besides the above: [str.lower] on a text
    that is not plain ASCII, and the text [print] shows for a row dictionary
    and for a list of rows. *)
Record Runtime := {
  unicode_lower : str -> str;
  repr_row : PyDict.dict value -> str;
  repr_rows : list (PyDict.dict value) -> str
}.

Definition is_ascii (c : char) : bool := (c <? 128)%N.

Definition ascii_lower (c : char) : char :=
  if ((65 <=? c) && (c <=? 90))%N then (c + 32)%N else c.

(** [s.lower()] *)
Definition lower (R : Runtime) (s : str) : str :=
  if forallb is_ascii s then map ascii_lower s else unicode_lower R s.

(** The terminal: the lines [input()] has still to read, and the texts
    written so far, one for each [print] and each prompt. *)
Record console := Console { stdin : list str; stdout : list str }.

(** What [input()] raises at the end of the input. *)
Definition eof_error : exn :=
  Exn OtherException (py "EOF when reading a line").

(** [s * n] *)
Definition repeat_str (s : str) (n : nat) : str := concat (repeat s n).

(** [f"{n}"] for a count *)
Definition format_nat (n : nat) : str :=
  py (NilZero.string_of_uint (Nat.to_uint n)).

(** [d[k]]; a missing key raises [KeyError], whose text is the key in
    quotes (the class is not told apart from other exceptions: [main] only
    prints the text). *)
Definition getitem {V} (k : str) (d : PyDict.dict V) : outcome V :=
  match PyDict.get k d with
  | Some v => inr v
  | None => inl (Exn OtherException (py "'" ++ k ++ py "'"))
  end.

(** [f"{x}"] for a value of the envelope *)
Definition format_field (R : Runtime) (f : field) : str :=
  match f with
  | FStr s => s
  | FRows rows => repr_rows R rows
  end.

(** [x == s] for a value of the envelope and a string *)
Definition field_is (f : field) (s : str) : bool :=
  match f with
  | FStr t => str_eqb t s
  | FRows _ => false
  end.

(** [len(x)] *)
Definition field_len (f : field) : nat :=
  match f with
  | FStr t => length t
  | FRows rows => length rows
  end.

(** What [print] shows for each item of [x], in order. *)
Definition field_items (R : Runtime) (f : field) : list str :=
  match f with
  | FStr t => map (fun c => [c]) t
  | FRows rows => map (repr_row R) rows
  end.

Definition check_mark : str := [10003%N].

Definition cross_mark : str := [10007%N].

Definition example_queries : list str :=
  map py ["Show me the top 10 products by quantity";
          "What is the total revenue by region?";
          "Find all orders from the last 30 days"]%string.

Definition exit_words : list str := map py ["exit"; "quit"; "q"]%string.

Definition question_prompt : str := nl ++ py "Enter your question: ".

Definition execute_prompt : str := nl ++ py "Execute this query? (y/n): ".

(** The loop over [example_queries], numbered from [i]. *)
Fixpoint run_examples (W : World) (R : Runtime) (i : nat)
    (queries : list str) (st : state) (out : list str)
  : state * list str :=
  match queries with
  | [] => (st, out)
  | q :: rest =>
      let out1 :=
        out ++ [nl ++ format_nat i ++ py ". Natural Language: " ++ q] in
      match query W q false st with
      | (inr result, st1) =>
          match getitem (py "sql_query") result with
          | inr sql =>
              run_examples W R (S i) rest st1
                (out1 ++ [py "   SQL Query: " ++ format_field R sql])
          | inl e =>
              run_examples W R (S i) rest st1
                (out1 ++ [py "   Error: " ++ exn_str e])
          end
      | (inl e, st1) =>
          run_examples W R (S i) rest st1
            (out1 ++ [py "   Error: " ++ exn_str e])
      end
  end.

(** What is printed for the envelope of an executed query; a missing key
    raises after what was printed before it. *)
Definition report (R : Runtime) (result : envelope) (out : list str)
  : outcome unit * list str :=
  match getitem (py "status") result with
  | inl e => (inl e, out)
  | inr status =>
      if field_is status (py "success") then
        match getitem (py "results") result with
        | inl e => (inl e, out)
        | inr results =>
            let out1 :=
              out ++ [nl ++ py "Results: " ++ format_nat (field_len results)
                      ++ py " rows returned"] in
            let out2 := out1 ++ firstn 5 (field_items R results) in
            if 5 <? field_len results
            then (inr tt,
                  out2 ++ [py "... and "
                           ++ format_nat (field_len results - 5)
                           ++ py " more rows"])
            else (inr tt, out2)
        end
      else
        match getitem (py "error") result with
        | inl e => (inl e, out)
        | inr err =>
            (inr tt,
             out ++ [nl ++ py "Error executing query: " ++ format_field R err])
        end
  end.

Definition error_line (e : exn) : str := nl ++ py "Error: " ++ exn_str e.

(** The [while True] loop of [main] on the lines still to be read.  It
    ends when an exit word is read, or with [EOFError] when a question is
    asked for and no line is left. *)
Fixpoint interactive (W : World) (R : Runtime) (lines : list str)
    (st : state) (out : list str) : outcome unit * state * console :=
  let out1 := out ++ [question_prompt] in
  match lines with
  | [] => (inl eof_error, st, Console [] out1)
  | line :: rest =>
      let user_query := strip line in
      if existsb (str_eqb (lower R user_query)) exit_words
      then (inr tt, st, Console rest (out1 ++ [py "Goodbye!"]))
      else
        match user_query with
        | [] => interactive W R rest st out1
        | _ :: _ =>
            match query W user_query false st with
            | (inl e, st1) => interactive W R rest st1 (out1 ++ [error_line e])
            | (inr result, st1) =>
                match getitem (py "sql_query") result with
                | inl e => interactive W R rest st1 (out1 ++ [error_line e])
                | inr sql =>
                    let out2 :=
                      out1 ++ [nl ++ py "Generated SQL:" ++ nl
                               ++ format_field R sql; execute_prompt] in
                    match rest with
                    | [] =>
                        interactive W R rest st1
                          (out2 ++ [error_line eof_error])
                    | answer :: rest' =>
                        if str_eqb (lower R (strip answer)) (py "y") then
                          match query W user_query true st1 with
                          | (inl e, st2) =>
                              interactive W R rest' st2 (out2 ++ [error_line e])
                          | (inr result2, st2) =>
                              match report R result2 out2 with
                              | (inl e, out3) =>
                                  interactive W R rest' st2
                                    (out3 ++ [error_line e])
                              | (inr _, out3) =>
                                  interactive W R rest' st2 out3
                              end
                          end
                        else interactive W R rest' st1 out2
                    end
                end
            end
        end
  end.

(** [main()]: what it returns or raises, the calls made, and the terminal
    at the end.  An interrupt from the keyboard is not modelled. *)
Definition main (W : World) (R : Runtime) (h : list event)
    (lines : list str) : outcome unit * list event * console :=
  let out := [py "Supply Chain Data Assistant"; repeat_str (py "=") 50] in
  match init W None h with
  | (inl e, h1) =>
      (inr tt, h1,
       Console lines
         (out ++ [cross_mark ++ py " Error initializing assistant: "
                  ++ exn_str e]))
  | (inr assistant, h1) =>
      let out1 :=
        out ++ [check_mark ++ py " Initialized with "
                ++ upper (unicode_upper W) (llm_provider assistant)
                ++ py " LLM provider";
                check_mark ++ py " Connected to table: "
                ++ full_table_name assistant;
                nl ++ py "Example Queries:";
                repeat_str (py "-") 50] in
      let '(st1, out2) :=
        run_examples W R 1 example_queries (State assistant h1) out1 in
      let out3 :=
        out2 ++ [nl ++ repeat_str (py "=") 50;
                 py "Interactive Mode (type 'exit' to quit)";
                 repeat_str (py "=") 50] in
      match interactive W R lines st1 out3 with
      | (result, st2, c) => (result, history st2, c)
      end
  end.

(** A runtime for texts in plain ASCII, with rows shown as a mark. *)
Definition plain_runtime : Runtime :=
  {| unicode_lower := fun s => s;
     repr_row := fun _ => py "<row>";
     repr_rows := fun _ => py "<rows>" |}.

Definition provider_calls (h : list event) : nat :=
  length (filter is_provider_call h).

(** The lines of [lines] that answer [y], whatever the question. *)
Definition says_yes (R : Runtime) (line : str) : bool :=
  str_eqb (lower R (strip line)) (py "y").

(** The tests' world with a provider whose second answer differs from its
    first. *)
Definition fickle_world : World :=
  {| os_environ := os_environ openai_world;
     load_dotenv := load_dotenv openai_world;
     unicode_upper := caseless;
     sql_connect := sql_connect openai_world;
     cursor_run := cursor_run openai_world;
     chat_completions_create :=
       fun h =>
         if Nat.eqb (provider_calls h) 1
         then inr (py "SELECT 1")
         else inr (py "SELECT 2");
     generate_content := generate_content openai_world |}.

(** * Properties *)

(** ** Strings *)

Lemma char_eqb_eq a b : char_eqb a b = true <-> a = b.
Proof. apply N.eqb_eq. Qed.

Lemma str_eqb_eq a b : str_eqb a b = true <-> a = b.
Proof.
  revert b. induction a as [|x a IH]; intros [|y b]; simpl;
    try (split; [discriminate | congruence]); try tauto.
  rewrite andb_true_iff, char_eqb_eq, IH. split.
  - intros [-> ->]. reflexivity.
  - intros H. inversion H. tauto.
Qed.

Lemma str_eqb_refl a : str_eqb a a = true.
Proof. apply str_eqb_eq. reflexivity. Qed.

Lemma startswith_iff p s : startswith p s = true <-> exists r, s = p ++ r.
Proof.
  revert s. induction p as [|x p IH]; intros s; simpl.
  - split; [intros _; exists s; reflexivity | reflexivity].
  - destruct s as [|c s].
    + split; [discriminate | intros [r Hr]; discriminate].
    + rewrite andb_true_iff, char_eqb_eq, IH. split.
      * intros [-> [r ->]]. exists r. reflexivity.
      * intros [r Hr]. inversion Hr. split; [reflexivity | eauto].
Qed.

Lemma startswith_cons x p c s :
  startswith (x :: p) (c :: s) = char_eqb x c && startswith p s.
Proof. reflexivity. Qed.

Lemma startswith_app p r : startswith p (p ++ r) = true.
Proof. apply startswith_iff. eauto. Qed.

Lemma contains_iff sub s : contains sub s = true <-> substring sub s.
Proof.
  unfold substring. induction s as [|c s IH].
  - simpl. rewrite startswith_iff. split.
    + intros [r Hr]. exists [], r. exact Hr.
    + intros [l [r Hr]]. destruct l; [eauto | discriminate].
  - cbn [contains]. rewrite orb_true_iff, startswith_iff, IH. split.
    + intros [[r Hr] | [l [r Hr]]].
      * exists [], r. exact Hr.
      * exists (c :: l), r. rewrite Hr. reflexivity.
    + intros [[|x l] [r Hr]].
      * left. exists r. exact Hr.
      * right. inversion Hr. eauto.
Qed.

Lemma contains_app l sub r : contains sub (l ++ sub ++ r) = true.
Proof. apply contains_iff. exists l, r. reflexivity. Qed.

Lemma substring_trans a b c : substring a b -> substring b c -> substring a c.
Proof.
  intros [l1 [r1 ->]] [l2 [r2 ->]]. exists (l2 ++ l1), (r1 ++ r2).
  repeat rewrite <- app_assoc. reflexivity.
Qed.

Lemma contains_false_mono a b c :
  substring b c -> contains a c = false -> contains a b = false.
Proof.
  intros Hbc Hc. destruct (contains a b) eqn:E; [|reflexivity].
  assert (contains a c = true) as Ht.
  { apply contains_iff. eapply substring_trans; [|exact Hbc].
    apply contains_iff. exact E. }
  congruence.
Qed.

Lemma substring_refl s : substring s s.
Proof. exists [], []. rewrite app_nil_r. reflexivity. Qed.

(** *** White space *)

Lemma lstrip_split s :
  exists ws, s = ws ++ lstrip s /\ forallb isspace ws = true.
Proof.
  induction s as [|c s [ws [Hs Hws]]]; simpl.
  - exists []. split; reflexivity.
  - destruct (isspace c) eqn:E.
    + exists (c :: ws). simpl. rewrite E, Hws. split; [congruence | reflexivity].
    + exists []. split; reflexivity.
Qed.

Lemma lstrip_idem s : lstrip (lstrip s) = lstrip s.
Proof.
  induction s as [|c s IH]; simpl; [reflexivity|].
  destruct (isspace c) eqn:E; [exact IH|]. simpl. rewrite E. reflexivity.
Qed.

Lemma lstrip_head s :
  match lstrip s with
  | [] => True
  | c :: _ => isspace c = false
  end.
Proof.
  induction s as [|c s IH]; simpl; [exact I|].
  destruct (isspace c) eqn:E; [exact IH | exact E].
Qed.

Lemma lstrip_fixed c s : isspace c = false -> lstrip (c :: s) = c :: s.
Proof. intros E. simpl. rewrite E. reflexivity. Qed.

Lemma rstrip_split s :
  exists ws, s = rstrip s ++ ws /\ forallb isspace ws = true.
Proof.
  unfold rstrip. destruct (lstrip_split (rev s)) as [ws [Hs Hws]].
  exists (rev ws). split.
  - rewrite <- rev_app_distr, <- Hs, rev_involutive. reflexivity.
  - rewrite forallb_forall in *. intros x Hx. apply Hws.
    apply in_rev. exact Hx.
Qed.

Lemma rstrip_idem s : rstrip (rstrip s) = rstrip s.
Proof. unfold rstrip. rewrite rev_involutive, lstrip_idem. reflexivity. Qed.

(** Trimming on the right leaves a left-trimmed text left-trimmed. *)
Lemma lstrip_rstrip_lstrip s : lstrip (rstrip (lstrip s)) = rstrip (lstrip s).
Proof.
  pose proof (lstrip_head s) as Hh.
  destruct (rstrip_split (lstrip s)) as [ws [Hs _]].
  destruct (rstrip (lstrip s)) as [|c u] eqn:E; [reflexivity|].
  rewrite Hs in Hh. simpl in Hh. apply lstrip_fixed. exact Hh.
Qed.

Lemma strip_idem s : strip (strip s) = strip s.
Proof.
  unfold strip. rewrite lstrip_rstrip_lstrip. apply rstrip_idem.
Qed.

Lemma strip_substring s : substring (strip s) s.
Proof.
  unfold strip.
  destruct (lstrip_split s) as [ws1 [H1 _]].
  destruct (rstrip_split (lstrip s)) as [ws2 [H2 _]].
  exists ws1, ws2. rewrite <- H2. exact H1.
Qed.

(** For a prefix that ends in a visible character it does not matter
    whether the text is trimmed on both sides or on the left only. *)
Lemma startswith_strip p s :
  match rev p with
  | [] => False
  | c :: _ => isspace c = false
  end ->
  startswith p (strip s) = startswith p (lstrip s).
Proof.
  intros Hp. unfold strip.
  destruct (rstrip_split (lstrip s)) as [ws [Hs Hws]].
  destruct (startswith p (lstrip s)) eqn:E.
  - apply startswith_iff in E. destruct E as [r Hr].
    apply startswith_iff.
    (* the trimmed text is [p ++ r'] for the part [r'] of [r] that is left *)
    unfold rstrip. rewrite Hr, rev_app_distr.
    destruct (rev p) as [|c q] eqn:Ep; [contradiction|].
    assert (exists t, lstrip (rev r ++ c :: q) = t ++ c :: q) as [t Ht].
    { clear - Hp. induction (rev r) as [|x l IH]; simpl.
      - rewrite Hp. exists []. reflexivity.
      - destruct (isspace x); [exact IH|]. exists (x :: l). reflexivity. }
    rewrite Ht, rev_app_distr. exists (rev t).
    rewrite <- Ep, rev_involutive. reflexivity.
  - destruct (startswith p (rstrip (lstrip s))) eqn:E'; [|reflexivity].
    apply startswith_iff in E'. destruct E' as [r Hr].
    assert (startswith p (lstrip s) = true) as Ht; [|congruence].
    apply startswith_iff. exists (r ++ ws). rewrite app_assoc, <- Hr. exact Hs.
Qed.

(** *** Replacement *)

Lemma replace_scan_cons old new c s :
  replace_scan old new (c :: s) =
  if startswith old (c :: s)
  then new ++ replace_scan old new (skipn (Nat.pred (length old)) s)
  else c :: replace_scan old new s.
Proof.
  simp replace_scan. destruct (startswith old (c :: s)); reflexivity.
Qed.

(** A text without the pattern is left as it is. *)
Lemma replace_scan_absent old new s :
  contains old s = false -> replace_scan old new s = s.
Proof.
  induction s as [|c s IH]; intros H.
  - simp replace_scan. reflexivity.
  - cbn [contains] in H. apply orb_false_iff in H. destruct H as [H1 H2].
    rewrite replace_scan_cons, H1, (IH H2). reflexivity.
Qed.

Lemma replace_absent old new s :
  old <> [] -> contains old s = false -> replace old new s = s.
Proof.
  intros Hold H. destruct old as [|x old]; [congruence|].
  apply replace_scan_absent. exact H.
Qed.

Lemma fence_literal : py "```" = fence.
Proof. reflexivity. Qed.

Lemma sql_fence_literal : py "```sql" = fence ++ py "sql".
Proof. reflexivity. Qed.

(** Removing fences never lets the result begin with more backticks than
    the text did, for one backtick... *)
Lemma remove_fence_head1 s :
  startswith [backtick] (replace_scan fence [] s) = true ->
  startswith [backtick] s = true.
Proof.
  destruct s as [|c s]; [simp replace_scan; discriminate|].
  rewrite replace_scan_cons. destruct (startswith fence (c :: s)) eqn:E.
  - intros _. apply startswith_iff in E. destruct E as [r ->]. reflexivity.
  - simpl. rewrite andb_true_r. tauto.
Qed.

(** ... and for two. *)
Lemma remove_fence_head2 s :
  startswith [backtick; backtick] (replace_scan fence [] s) = true ->
  startswith [backtick; backtick] s = true.
Proof.
  destruct s as [|c s]; [simp replace_scan; discriminate|].
  rewrite replace_scan_cons. destruct (startswith fence (c :: s)) eqn:E.
  - intros _. apply startswith_iff in E. destruct E as [r ->]. reflexivity.
  - cbn [startswith]. rewrite !andb_true_iff. intros [Hc Hs].
    split; [exact Hc|]. apply remove_fence_head1 in Hs.
    destruct s as [|d s]; [discriminate|]. exact Hs.
Qed.

(** Once the fences are removed no fence is left: backticks next to a
    removed fence cannot join into a new one. *)
Lemma remove_fence_clean s : contains fence (replace_scan fence [] s) = false.
Proof.
  remember (length s) as n eqn:Hn. revert s Hn.
  induction n as [n IH] using lt_wf_ind. intros s Hn.
  destruct s as [|c s]; [simp replace_scan; reflexivity|].
  rewrite replace_scan_cons. destruct (startswith fence (c :: s)) eqn:E.
  - change (contains fence (replace_scan fence [] (skipn 2 s)) = false).
    apply (IH (length (skipn 2 s))); [|reflexivity].
    subst n. rewrite length_skipn. simpl. lia.
  - cbn [contains]. apply orb_false_iff. split.
    + destruct (startswith fence (c :: replace_scan fence [] s)) eqn:E';
        [|reflexivity].
      unfold fence in E', E. rewrite startswith_cons in E', E.
      apply andb_true_iff in E'. destruct E' as [Hc Hs].
      apply remove_fence_head2 in Hs.
      rewrite Hc in E. cbn [andb] in E. congruence.
    + eapply IH; [|reflexivity]. subst n. simpl. lia.
Qed.

(** ** Fence stripping *)

Lemma strip_fences_clean s : contains fence (strip_fences s) = false.
Proof.
  unfold strip_fences. rewrite fence_literal.
  eapply contains_false_mono; [apply strip_substring|].
  apply remove_fence_clean.
Qed.

Lemma strip_fences_trimmed s : strip (strip_fences s) = strip_fences s.
Proof. apply strip_idem. Qed.

(** A trimmed text without a fence is a fixed point of the clean-up. *)
Lemma strip_fences_fixed t :
  contains fence t = false -> strip t = t -> strip_fences t = t.
Proof.
  intros Hf Ht. unfold strip_fences.
  assert (contains (py "```sql") t = false) as Hsql.
  { destruct (contains (py "```sql") t) eqn:E; [|reflexivity].
    apply contains_iff in E. destruct E as [l [r E]].
    assert (contains fence t = true) as Hc; [|congruence].
    apply contains_iff. exists l, (py "sql" ++ r).
    rewrite E, sql_fence_literal, <- app_assoc. reflexivity. }
  rewrite (replace_absent (py "```sql") [] t); [|discriminate|exact Hsql].
  rewrite fence_literal.
  rewrite (replace_absent fence [] t); [exact Ht|discriminate|exact Hf].
Qed.

(** C7.  The clean-up applied to provider responses (remove every
    [```sql], then every [```], then trim) is idempotent: cleaning a cleaned
    text changes nothing; the same holds for the whole normalisation the
    providers apply (which trims once before), and the fenced answer
    [```sql\nSELECT 1\n```] becomes [SELECT 1]. *)
Theorem strip_fences_idempotent :
  (forall s, strip_fences (strip_fences s) = strip_fences s)
  /\ (forall s, clean_response (clean_response s) = clean_response s)
  /\ strip_fences (py "```sql" ++ nl ++ py "SELECT 1" ++ nl ++ py "```")
     = py "SELECT 1".
Proof.
  assert (forall s, strip_fences (strip_fences s) = strip_fences s) as Hidem.
  { intros s. apply strip_fences_fixed.
    - apply strip_fences_clean.
    - apply strip_fences_trimmed. }
  split; [exact Hidem|]. split; [|reflexivity].
  intros s. unfold clean_response.
  rewrite strip_fences_trimmed. apply Hidem.
Qed.

(** ** The safety gate *)

Lemma select_prefixed_strip t :
  startswith (py "SELECT") (strip t) = select_prefixed t.
Proof. apply startswith_strip. reflexivity. Qed.

Lemma check_operations_ok ops t :
  existsb (fun operation => contains operation t) ops = false ->
  check_operations ops t = inr tt.
Proof.
  induction ops as [|op ops IH]; simpl; [reflexivity|].
  intros H. apply orb_false_iff in H. destruct H as [H1 H2].
  rewrite H1. apply IH. exact H2.
Qed.

(** The loop raises for the first entry, in the order of the list, that
    occurs in the text. *)
Lemma check_operations_first before operation after t :
  existsb (fun o => contains o t) before = false ->
  contains operation t = true ->
  check_operations (before ++ operation :: after) t
  = inl (Exn ValueError (dangerous_message operation)).
Proof.
  induction before as [|o before IH]; simpl; intros Hb Hop.
  - rewrite Hop. reflexivity.
  - apply orb_false_iff in Hb. destruct Hb as [H1 H2]. rewrite H1.
    apply IH; assumption.
Qed.

Lemma existsb_first {A} (f : A -> bool) l :
  existsb f l = true ->
  exists before x after,
    l = before ++ x :: after /\ existsb f before = false /\ f x = true.
Proof.
  induction l as [|a l IH]; simpl; [discriminate|].
  destruct (f a) eqn:E.
  - intros _. exists [], a, l. auto.
  - simpl. intros H. destruct (IH H) as [b [x [r [-> [Hb Hx]]]]].
    exists (a :: b), x, r. simpl. rewrite E. auto.
Qed.

(** What the gate does on every input: a denylist entry found in the
    uppercased text raises, naming the first such entry, whether or not the
    text starts with SELECT; otherwise a text that does not start with
    SELECT raises the other message; otherwise the gate returns [True]. *)
Lemma validate_sql_query_cases up s :
  let t := upper up s in
  (denylisted t = true ->
   exists before operation after,
     dangerous_operations = before ++ operation :: after
     /\ existsb (fun o => contains o t) before = false
     /\ contains operation t = true
     /\ validate_sql_query up s
        = inl (Exn ValueError (dangerous_message operation)))
  /\ (denylisted t = false -> select_prefixed t = false ->
      validate_sql_query up s = inl (Exn ValueError not_select_message))
  /\ (denylisted t = false -> select_prefixed t = true ->
      validate_sql_query up s = inr true).
Proof.
  intros t. unfold validate_sql_query. fold t. repeat split.
  - intros H. destruct (existsb_first _ _ H) as [b [op [r [Hl [Hb Hop]]]]].
    exists b, op, r. repeat split; try assumption.
    rewrite Hl, (check_operations_first _ _ _ _ Hb Hop). reflexivity.
  - intros H Hs. rewrite (check_operations_ok _ _ H).
    rewrite select_prefixed_strip, Hs. reflexivity.
  - intros H Hs. rewrite (check_operations_ok _ _ H).
    rewrite select_prefixed_strip, Hs. reflexivity.
Qed.

(** The two messages differ. *)
Lemma messages_distinct operation :
  dangerous_message operation <> not_select_message.
Proof. unfold dangerous_message, not_select_message. discriminate. Qed.

(** No ASCII lower-case letter survives [upper]. *)
Lemma upper_no_ascii_lower up s :
  yields_no_ascii_lower up ->
  forallb (fun d => negb (is_ascii_lower d)) (upper up s) = true.
Proof.
  intros Hup. unfold upper. induction s as [|c s IH]; simpl; [reflexivity|].
  rewrite forallb_app, IH, andb_true_r. unfold upper_char.
  destruct ((97 <=? c) && (c <=? 122))%N eqn:E.
  - simpl. rewrite andb_true_r. unfold is_ascii_lower.
    apply andb_true_iff in E. destruct E as [E1 E2].
    apply N.leb_le in E1, E2. apply negb_true_iff, andb_false_iff.
    left. apply N.leb_gt. lia.
  - destruct (c <? 128)%N; [|apply Hup].
    simpl. unfold is_ascii_lower. rewrite E. reflexivity.
Qed.

(** The entries [xp_] and [sp_] are written in lower case and are looked for
    in the uppercased text: they are never found. *)
Lemma lowercase_entries_dead up s operation :
  yields_no_ascii_lower up ->
  operation = py "xp_" \/ operation = py "sp_" ->
  contains operation (upper up s) = false.
Proof.
  intros Hup Hop. pose proof (upper_no_ascii_lower up s Hup) as Hall.
  destruct (contains operation (upper up s)) eqn:E; [|reflexivity].
  apply contains_iff in E. destruct E as [l [r E]]. rewrite E in Hall.
  rewrite !forallb_app in Hall.
  apply andb_true_iff in Hall. destruct Hall as [_ Hall].
  apply andb_true_iff in Hall. destruct Hall as [Hall _].
  destruct Hop as [-> | ->]; vm_compute in Hall; discriminate.
Qed.

Lemma denylisted_true t operation :
  In operation dangerous_operations -> contains operation t = true ->
  denylisted t = true.
Proof.
  intros Hin Hc. apply existsb_exists. exists operation. auto.
Qed.

(** The fourteen entries written in upper case are matched whatever the case
    of the query: a query that contains one of them, case ignored, is
    rejected. *)
Lemma validate_rejects_uppercase_entries up s operation :
  In operation uppercase_entries ->
  contains_ignoring_case up operation s = true ->
  exists e, validate_sql_query up s = inl e /\ exn_kind e = ValueError.
Proof.
  intros Hin Hc.
  assert (upper up operation = operation) as Hup.
  { unfold uppercase_entries in Hin. cbn in Hin.
    repeat (destruct Hin as [<- | Hin]; [reflexivity|]). contradiction. }
  unfold contains_ignoring_case in Hc. rewrite Hup in Hc.
  assert (In operation dangerous_operations) as Hin'.
  { rewrite <- (firstn_skipn 14 dangerous_operations).
    apply in_or_app. left. exact Hin. }
  destruct (validate_sql_query_cases up s) as [Hbad _].
  destruct (Hbad (denylisted_true _ _ Hin' Hc)) as [b [op [r [_ [_ [_ Hv]]]]]].
  eexists. split; [exact Hv | reflexivity].
Qed.

(** C1 (where the code is at odds with the claim).  The denylist is not
    matched case-insensitively for all sixteen entries: the queries
    [SELECT * FROM sp_tables] and [SELECT xp_cmdshell FROM t] contain the
    denylisted [sp_] and [xp_] (as written, and so also when case is
    ignored), yet the gate returns [True] for both, whatever the case
    mapping of non-ASCII characters is. *)
Theorem validate_misses_lowercase_entries :
  In (py "sp_") dangerous_operations
  /\ In (py "xp_") dangerous_operations
  /\ contains (py "sp_") (py "SELECT * FROM sp_tables") = true
  /\ contains (py "xp_") (py "SELECT xp_cmdshell FROM t") = true
  /\ (forall up,
        contains_ignoring_case up (py "sp_") (py "SELECT * FROM sp_tables")
        = true
        /\ validate_sql_query up (py "SELECT * FROM sp_tables") = inr true)
  /\ (forall up,
        contains_ignoring_case up (py "xp_") (py "SELECT xp_cmdshell FROM t")
        = true
        /\ validate_sql_query up (py "SELECT xp_cmdshell FROM t") = inr true).
Proof.
  repeat split.
  - unfold dangerous_operations. apply in_map. simpl. tauto.
  - unfold dangerous_operations. apply in_map. simpl. tauto.
Qed.

Example fresh_openai_world : fresh openai_world = Some test_state.
Proof. reflexivity. Qed.

Example validate_examples :
  validate_sql_query caseless
    (py "SELECT * FROM catalog.schema.table LIMIT 10") = inr true
  /\ validate_sql_query caseless (py "DROP TABLE x")
     = inl (Exn ValueError
              (py "SQL query contains potentially dangerous operation: 'DROP'. Only SELECT queries are allowed for safety."))
  /\ validate_sql_query caseless (py "  select 1") = inr true
  /\ validate_sql_query caseless (py "SHOW TABLES")
     = inl (Exn ValueError not_select_message)
  /\ validate_sql_query caseless (py "drop table x; -- bye")
     = inl (Exn ValueError (dangerous_message (py "DROP "))).
Proof. repeat split. Qed.

Lemma validated_idempotent up s t :
  validated up s = Some t -> t = s /\ validated up t = Some t.
Proof.
  unfold validated. destruct (validate_sql_query up s) eqn:E; [discriminate|].
  intros H. injection H as <-. rewrite E. auto.
Qed.

Lemma execute_sql_unfold W s st :
  execute_sql W s st =
  match validate_sql_query (unicode_upper W) s with
  | inl e => (inl e, st)
  | inr _ => run_verbatim W s st
  end.
Proof.
  unfold execute_sql, run_verbatim, bind, lift, call, ret.
  destruct (validate_sql_query (unicode_upper W) s); [reflexivity|].
  destruct (get_databricks_connection W st) as [[e|u] st1]; [reflexivity|].
  destruct (cursor_run W (history st1 ++ [CursorExecute s])); reflexivity.
Qed.

(** C2.  A query whose uppercased text starts with SELECT (leading white
    space apart) and contains no denylist entry passes the gate; the gate
    hands back nothing but [True], so the validated query is the query
    itself, validating it again gives the same, and [execute_sql] sends
    exactly that string to the warehouse. *)
Theorem validate_accepts_verbatim W s :
  denylisted (upper (unicode_upper W) s) = false ->
  select_prefixed (upper (unicode_upper W) s) = true ->
  validate_sql_query (unicode_upper W) s = inr true
  /\ validated (unicode_upper W) s = Some s
  /\ (forall t, validated (unicode_upper W) s = Some t ->
                validated (unicode_upper W) t = Some t)
  /\ (forall st, execute_sql W s st = run_verbatim W s st).
Proof.
  intros Hd Hs.
  destruct (validate_sql_query_cases (unicode_upper W) s) as [_ [_ Hok]].
  specialize (Hok Hd Hs).
  split; [exact Hok|]. split; [unfold validated; rewrite Hok; reflexivity|].
  split.
  - intros t Ht. apply (validated_idempotent _ _ _ Ht).
  - intros st. rewrite execute_sql_unfold, Hok. reflexivity.
Qed.

Lemma validate_accepts_verbatim_witness :
  let s := py "  select * FROM test_catalog.test_schema.test_table LIMIT 10" in
  let up := unicode_upper openai_world in
  denylisted (upper up s) = false
  /\ select_prefixed (upper up s) = true
  /\ validate_sql_query up s = inr true
  /\ validated up s = Some s
  /\ (forall st, execute_sql openai_world s st = run_verbatim openai_world s st).
Proof.
  intros s up.
  assert (denylisted (upper up s) = false) as Hd by (vm_compute; reflexivity).
  assert (select_prefixed (upper up s) = true) as Hs
    by (vm_compute; reflexivity).
  destruct (validate_accepts_verbatim openai_world s Hd Hs)
    as [H1 [H2 [_ H4]]].
  auto.
Defined.

(** ** The schema cache *)

Lemma get_databricks_connection_unfold W st :
  get_databricks_connection W st =
  if connection_ready (self st)
  then
    let h := history st ++ [connect_event (self st)] in
    match sql_connect W h with
    | Some e => (inl e, State (self st) h)
    | None => (inr tt, State (self st) h)
    end
  else (inl settings_incomplete, st).
Proof.
  unfold get_databricks_connection, bind, get_self, raise.
  destruct (connection_ready (self st)); reflexivity.
Qed.

Lemma get_databricks_connection_self W st :
  self (snd (get_databricks_connection W st)) = self st.
Proof.
  rewrite get_databricks_connection_unfold.
  destruct (connection_ready (self st)); [|reflexivity].
  cbv zeta. destruct (sql_connect W _); reflexivity.
Qed.

(** The two paths of [get_table_schema]: the cached text when the cache is
    true, else one connection, one DESCRIBE, and the rendered text stored. *)
Lemma get_table_schema_unfold W st :
  get_table_schema W st =
  if truthy (_table_schema (self st))
  then (inr (format_opt (_table_schema (self st))), st)
  else
    match get_databricks_connection W st with
    | (inl e, st1) => (inl e, st1)
    | (inr _, st1) =>
        let h := history st1 ++ [describe_event (self st)] in
        match cursor_run W h with
        | inl e => (inl e, State (self st1) h)
        | inr rs =>
            match schema_lines (rs_rows rs) with
            | inl e => (inl e, State (self st1) h)
            | inr schema_info =>
                (inr (join nl schema_info),
                 State (set_table_schema (Some (join nl schema_info))
                          (self st)) h)
            end
        end
    end.
Proof.
  unfold get_table_schema, bind, get_self, ret, call, lift, put_self.
  destruct (truthy (_table_schema (self st))); [reflexivity|].
  destruct (get_databricks_connection W st) as [[e|u] st1]; [reflexivity|].
  unfold describe_event. cbv zeta.
  destruct (cursor_run W _) as [e|rs]; [reflexivity|].
  destruct (schema_lines (rs_rows rs)); reflexivity.
Qed.

Lemma get_table_schema_cached W st :
  truthy (_table_schema (self st)) = true ->
  get_table_schema W st = (inr (format_opt (_table_schema (self st))), st).
Proof. intros H. rewrite get_table_schema_unfold, H. reflexivity. Qed.

Lemma describe_event_counts a : is_describe (describe_event a) = true.
Proof. unfold describe_event, is_describe. apply startswith_app. Qed.

Lemma describe_calls_app h1 h2 :
  describe_calls (h1 ++ h2) = describe_calls h1 + describe_calls h2.
Proof. unfold describe_calls. rewrite filter_app, length_app. reflexivity. Qed.

(** A first call that returns has made exactly one DESCRIBE call and has
    stored what it returns. *)
Lemma get_table_schema_first W st t st1 :
  truthy (_table_schema (self st)) = false ->
  get_table_schema W st = (inr t, st1) ->
  history st1 = history st ++ [connect_event (self st);
                               describe_event (self st)]
  /\ describe_calls (history st1) = S (describe_calls (history st))
  /\ self st1 = set_table_schema (Some t) (self st).
Proof.
  intros Hc. rewrite get_table_schema_unfold, Hc.
  rewrite get_databricks_connection_unfold.
  destruct (connection_ready (self st)); [|discriminate].
  cbv zeta. destruct (sql_connect W _); [discriminate|].
  cbn [history self]. destruct (cursor_run W _) as [e|rs]; [discriminate|].
  destruct (schema_lines (rs_rows rs)) as [e|lines]; [discriminate|].
  intros H. injection H as <- <-. cbn [history self].
  rewrite <- app_assoc. split; [reflexivity|]. split; [|reflexivity].
  rewrite describe_calls_app. unfold describe_calls at 2.
  cbn [filter app connect_event is_describe].
  rewrite describe_event_counts. simpl. lia.
Qed.

(** Memoization of a non-empty schema text: every later call returns it and
    leaves the instance and the history of calls as they are. *)
Lemma get_table_schema_memoized W st t st1 :
  get_table_schema W st = (inr t, st1) ->
  t <> [] ->
  forall n, get_table_schema_times W n st1 = (inr t, st1).
Proof.
  intros H Ht.
  assert (get_table_schema W st1 = (inr t, st1)) as Hagain.
  { destruct (truthy (_table_schema (self st))) eqn:Hc.
    - rewrite (get_table_schema_cached _ _ Hc) in H.
      injection H as <- <-. apply get_table_schema_cached. exact Hc.
    - destruct (get_table_schema_first _ _ _ _ Hc H) as [_ [_ Hself]].
      rewrite get_table_schema_unfold, Hself. cbn [_table_schema set_table_schema].
      destruct t; [congruence|]. reflexivity. }
  induction n as [|n IH]; simpl; [exact Hagain|].
  unfold bind. rewrite Hagain. exact IH.
Qed.

(** C4 as stated fails for the empty schema text.  On a table without
    columns the first call renders the empty text and stores it, but the
    cache test [if self._table_schema:] takes the empty text for no text:
    the second call on the same instance asks the warehouse again, two
    DESCRIBE calls in all. *)
Lemma get_table_schema_empty_refetch :
  fresh empty_table_world = Some test_state
  /\ (let first := get_table_schema empty_table_world test_state in
      let second := get_table_schema empty_table_world (snd first) in
      fst first = inr []
      /\ _table_schema (self (snd first)) = Some []
      /\ describe_calls (history (snd first)) = 1
      /\ fst second = inr []
      /\ describe_calls (history (snd second)) = 2).
Proof. vm_compute. repeat split. Qed.

(** C4, amended.  On an instance without a cached schema, a call of
    [get_table_schema] that returns a non-empty text has sent exactly one
    DESCRIBE and has stored the text in the cache; every later call on the
    instance returns that text and sends nothing: the instance and the
    history of calls stay as the first call left them.  In particular two
    calls in a row send one DESCRIBE. *)
Theorem get_table_schema_memoizes W st schema st1 :
  truthy (_table_schema (self st)) = false ->
  get_table_schema W st = (inr schema, st1) ->
  schema <> [] ->
  _table_schema (self st1) = Some schema
  /\ describe_calls (history st1) = S (describe_calls (history st))
  /\ (forall n, get_table_schema_times W n st1 = (inr schema, st1))
  /\ get_table_schema_times W 1 st = (inr schema, st1).
Proof.
  intros Hc H Ht.
  destruct (get_table_schema_first _ _ _ _ Hc H) as [_ [Hd Hself]].
  pose proof (get_table_schema_memoized _ _ _ _ H Ht) as Hn.
  split; [rewrite Hself; reflexivity|]. split; [exact Hd|].
  split; [exact Hn|].
  simpl. unfold bind. rewrite H. exact (Hn 0).
Qed.

Lemma get_table_schema_memoizes_witness :
  let W := openai_world in
  let schema := py "  - col1: string" ++ nl ++ py "  - col2: int" in
  let st1 := snd (get_table_schema W test_state) in
  get_table_schema W test_state = (inr schema, st1)
  /\ describe_calls (history st1) = 1
  /\ get_table_schema_times W 1 test_state = (inr schema, st1)
  /\ get_table_schema_times W 5 st1 = (inr schema, st1).
Proof.
  intros W schema st1.
  assert (get_table_schema W test_state = (inr schema, st1)) as H
    by (vm_compute; reflexivity).
  destruct (get_table_schema_memoizes W test_state schema st1)
    as [_ [Hd [Hn H2]]];
    [reflexivity | exact H | discriminate |].
  split; [exact H|]. split; [exact Hd|]. split; [exact H2 | exact (Hn 5)].
Defined.

Example get_table_schema_two_columns :
  let first := get_table_schema openai_world test_state in
  let second := get_table_schema openai_world (snd first) in
  fst first = inr (py "  - col1: string" ++ nl ++ py "  - col2: int")
  /\ second = first
  /\ describe_calls (history (snd second)) = 1.
Proof. vm_compute. repeat split. Qed.

(** ** The prompt builder *)

Lemma contains_here x r : contains x (x ++ r) = true.
Proof. apply (contains_app [] x r). Qed.

Lemma contains_later x l r : contains x r = true -> contains x (l ++ r) = true.
Proof.
  intros H. apply contains_iff in H. destruct H as [l' [r' ->]].
  apply contains_iff. exists (l ++ l'), r'. rewrite app_assoc. reflexivity.
Qed.

Ltac find_segment :=
  repeat first [ apply contains_here | apply contains_later ].

Lemma prompt_text_contains name schema q :
  contains name (prompt_text name schema q) = true
  /\ contains schema (prompt_text name schema q) = true
  /\ contains q (prompt_text name schema q) = true.
Proof. unfold prompt_text. repeat split; find_segment. Qed.

(** [generate_sql_prompt] is the schema fetch followed by the template: it
    fails when and as the fetch fails, and adds no call and no change of its
    own. *)
Lemma generate_sql_prompt_unfold W q st :
  generate_sql_prompt W q st =
  match get_table_schema W st with
  | (inl e, st1) => (inl e, st1)
  | (inr t, st1) => (inr (prompt_text (full_table_name (self st1)) t q), st1)
  end.
Proof.
  unfold generate_sql_prompt, bind, get_self, ret.
  destruct (get_table_schema W st) as [[e|t] st1]; reflexivity.
Qed.

(** The schema fetch changes nothing of the instance but the cache. *)
Lemma get_table_schema_frame W st :
  exists cache,
    self (snd (get_table_schema W st)) = set_table_schema cache (self st).
Proof.
  rewrite get_table_schema_unfold.
  assert (self st = set_table_schema (_table_schema (self st)) (self st)) as Hsame
    by (destruct (self st); reflexivity).
  destruct (truthy (_table_schema (self st))); [eauto|].
  pose proof (get_databricks_connection_self W st) as Hs.
  destruct (get_databricks_connection W st) as [[e|u] st1]; simpl in Hs.
  - exists (_table_schema (self st)). simpl. congruence.
  - cbv zeta. destruct (cursor_run W _) as [e|rs].
    + exists (_table_schema (self st)). simpl. congruence.
    + destruct (schema_lines (rs_rows rs)).
      * exists (_table_schema (self st)). simpl. congruence.
      * eexists. reflexivity.
Qed.

Lemma get_table_schema_table_name W st :
  full_table_name (self (snd (get_table_schema W st)))
  = full_table_name (self st).
Proof.
  destruct (get_table_schema_frame W st) as [cache ->]. reflexivity.
Qed.

(** C6.  The prompt contains the fully-qualified table name, that is the
    catalog name, a dot, the schema name, a dot and the table name, the
    schema text and the question, each verbatim, for every question (empty
    or not).  The name is spelled out here from the three settings of the
    instance: with all three set it is [catalog ++ "." ++ schema ++ "." ++
    table]; a setting that is not there is printed as [None], as an
    f-string prints it.  The schema text is the one [get_table_schema]
    returned, and the prompt is produced exactly when that call returns. *)
Theorem prompt_contains_inputs W q st :
  match generate_sql_prompt W q st with
  | (inr prompt, st1) =>
      exists schema,
        get_table_schema W st = (inr schema, st1)
        /\ (forall catalog schema_name_ table,
              catalog_name (self st) = Some catalog ->
              schema_name (self st) = Some schema_name_ ->
              table_name (self st) = Some table ->
              contains (catalog ++ py "." ++ schema_name_ ++ py "." ++ table)
                       prompt = true)
        /\ contains
             (match catalog_name (self st) with
              | Some catalog => catalog
              | None => py "None"
              end
              ++ py "."
              ++ match schema_name (self st) with
                 | Some schema_name_ => schema_name_
                 | None => py "None"
                 end
              ++ py "."
              ++ match table_name (self st) with
                 | Some table => table
                 | None => py "None"
                 end)
             prompt = true
        /\ contains schema prompt = true
        /\ contains q prompt = true
  | (inl e, st1) => get_table_schema W st = (inl e, st1)
  end.
Proof.
  rewrite generate_sql_prompt_unfold.
  pose proof (get_table_schema_table_name W st) as Hname.
  destruct (get_table_schema W st) as [[e|t] st1]; [reflexivity|].
  simpl in Hname. rewrite Hname. exists t. split; [reflexivity|].
  destruct (prompt_text_contains (full_table_name (self st)) t q)
    as (Hn & Hs & Hq).
  split; [|split; [exact Hn|split; assumption]].
  intros catalog schema_name_ table Hc Hsch Ht.
  replace (catalog ++ py "." ++ schema_name_ ++ py "." ++ table)
    with (full_table_name (self st)); [exact Hn|].
  unfold full_table_name. rewrite Hc, Hsch, Ht. reflexivity.
Qed.

Example prompt_example :
  let st := State (set_table_schema
                     (Some (py "col1: string" ++ nl ++ py "col2: int"))
                     test_assistant) [] in
  match generate_sql_prompt openai_world (py "Show me all records") st with
  | (inr prompt, st1) =>
      contains (py "test_catalog.test_schema.test_table") prompt = true
      /\ contains (py "col1: string") prompt = true
      /\ contains (py "col2: int") prompt = true
      /\ contains (py "Show me all records") prompt = true
      /\ st1 = st
  | (inl _, _) => False
  end.
Proof. vm_compute. repeat split. Qed.

(** C5 as stated does not hold of [generate_sql_prompt]: on a new instance
    without warehouse settings it raises, and on a new instance with them it
    calls the warehouse and fills the cache. *)
Lemma generate_sql_prompt_not_pure :
  match fresh unconfigured_world with
  | Some st =>
      generate_sql_prompt unconfigured_world (py "count rows") st
      = (inl settings_incomplete, st)
  | None => False
  end
  /\ (let out := generate_sql_prompt openai_world (py "count rows") test_state in
      history (snd out)
      = history test_state
          ++ [connect_event test_assistant; describe_event test_assistant]
      /\ _table_schema (self (snd out)) <> _table_schema (self test_state)).
Proof. vm_compute. repeat split. discriminate. Qed.

(** C5, amended.  Prompt building has no failure and no effect of its own:
    it fails exactly when fetching the schema fails, with that error, and
    leaves the instance and the history of calls as the fetch left them; the
    prompt is a function of the question, the table name and the schema
    text.  On an instance whose cache holds a non-empty schema text it
    therefore never fails, calls nothing and changes nothing. *)
Theorem generate_sql_prompt_pure_when_cached W q st :
  truthy (_table_schema (self st)) = true ->
  generate_sql_prompt W q st
  = (inr (prompt_text (full_table_name (self st))
            (format_opt (_table_schema (self st))) q), st)
  /\ (forall st0,
        generate_sql_prompt W q st0 =
        match get_table_schema W st0 with
        | (inl e, st1) => (inl e, st1)
        | (inr t, st1) =>
            (inr (prompt_text (full_table_name (self st0)) t q), st1)
        end).
Proof.
  intros Hc. split.
  - rewrite generate_sql_prompt_unfold, (get_table_schema_cached _ _ Hc).
    reflexivity.
  - intros st0. rewrite generate_sql_prompt_unfold.
    pose proof (get_table_schema_table_name W st0) as Hname.
    destruct (get_table_schema W st0) as [[e|t] st1]; [reflexivity|].
    simpl in Hname. rewrite Hname. reflexivity.
Qed.

Lemma generate_sql_prompt_pure_when_cached_witness :
  let st := State (set_table_schema (Some (py "  - col1: string"))
                     test_assistant) [] in
  truthy (_table_schema (self st)) = true
  /\ generate_sql_prompt openai_world (py "count rows") st
     = (inr (prompt_text (full_table_name (self st))
               (format_opt (_table_schema (self st))) (py "count rows")), st).
Proof.
  intros st. split; [reflexivity|].
  apply (generate_sql_prompt_pure_when_cached openai_world (py "count rows") st).
  reflexivity.
Defined.

(** ** The result envelope *)

(** [query] step by step: an error of the generation is raised again; with
    [execute] false the plain envelope is returned; with [execute] true the
    outcome of [execute_sql] is stored in the envelope, as rows or as the
    text of the error. *)
Lemma query_unfold W q execute st :
  query W q execute st =
  match natural_language_to_sql W q st with
  | (inl e, st1) => (inl e, st1)
  | (inr sql, st1) =>
      if execute then
        match execute_sql W sql st1 with
        | (inr rows, st2) => (inr (envelope_success q sql rows), st2)
        | (inl e, st2) => (inr (envelope_error q sql (exn_str e)), st2)
        end
      else (inr (envelope_plain q sql), st1)
  end.
Proof.
  unfold query, bind, try_except, ret.
  destruct (natural_language_to_sql W q st) as [[e|sql] st1]; [reflexivity|].
  destruct execute; [|reflexivity].
  destruct (execute_sql W sql st1) as [[e|rows] st2]; reflexivity.
Qed.

Lemma check_operations_error ops t e :
  check_operations ops t = inl e ->
  exists operation,
    In operation ops /\ e = Exn ValueError (dangerous_message operation).
Proof.
  induction ops as [|op ops IH]; simpl; [discriminate|].
  destruct (contains op t).
  - intros H. injection H as <-. eauto.
  - intros H. destruct (IH H) as [o [Hin He]]. eauto.
Qed.

(** Every message of the gate is non-empty. *)
Lemma validate_error_message up s e :
  validate_sql_query up s = inl e -> exn_str e <> [].
Proof.
  unfold validate_sql_query.
  destruct (check_operations dangerous_operations (upper up s)) eqn:E.
  - intros H. injection H as <-.
    destruct (check_operations_error _ _ _ E) as [op [_ ->]]. discriminate.
  - destruct (negb _); [|discriminate].
    intros H. injection H as <-. discriminate.
Qed.

Lemma execute_sql_failure W s st e st2 :
  execute_sql W s st = (inl e, st2) -> failure_origin W e.
Proof.
  rewrite execute_sql_unfold.
  destruct (validate_sql_query (unicode_upper W) s) eqn:Hv.
  - intros H. injection H as <- <-. eapply FromGate. exact Hv.
  - unfold run_verbatim. rewrite get_databricks_connection_unfold.
    destruct (connection_ready (self st)).
    + cbv zeta. destruct (sql_connect W _) eqn:Hc.
      * intros H. injection H as <- <-. eapply FromConnect. exact Hc.
      * cbn [history self]. destruct (cursor_run W _) eqn:Hr; [|discriminate].
        intros H. injection H as <- <-. eapply FromCursor. exact Hr.
    + intros H. injection H as <- <-. apply FromSettings. reflexivity.
Qed.

(** C3 as stated fails where the warehouse raises an error without a
    message: the envelope is returned with status [error], but its error
    text is empty. *)
Lemma query_error_message_may_be_empty :
  let W := silent_failure_world in
  let q := py "count rows" in
  let sql :=
    py "SELECT COUNT(*) AS n FROM test_catalog.test_schema.test_table" in
  fresh W = Some test_state
  /\ fst (natural_language_to_sql W q test_state) = inr sql
  /\ fst (query W q true test_state) = inr (envelope_error q sql [])
  /\ PyDict.get (py "error") (envelope_error q sql []) = Some (FStr []).
Proof. vm_compute. repeat split. Qed.

(** C3, amended.  When generation succeeds and the validation or execution
    step fails, [query] returns instead of raising: the envelope has status
    [error], the error text is the failure's own, and the generated SQL is
    still there.  The text is non-empty for every rejection by the gate and
    for incomplete connection settings; a warehouse error brings its own
    text, whatever it is. *)
Theorem query_captures_failure W q st sql st1 e st2 :
  natural_language_to_sql W q st = (inr sql, st1) ->
  execute_sql W sql st1 = (inl e, st2) ->
  query W q true st = (inr (envelope_error q sql (exn_str e)), st2)
  /\ PyDict.get (py "status") (envelope_error q sql (exn_str e))
     = Some (FStr (py "error"))
  /\ PyDict.get (py "error") (envelope_error q sql (exn_str e))
     = Some (FStr (exn_str e))
  /\ PyDict.get (py "sql_query") (envelope_error q sql (exn_str e))
     = Some (FStr sql)
  /\ (exn_str e = [] ->
      (exists h, sql_connect W h = Some e)
      \/ (exists h, cursor_run W h = inl e)).
Proof.
  intros Hg He. rewrite query_unfold, Hg, He.
  repeat split.
  intros Hempty. destruct (execute_sql_failure _ _ _ _ _ He) as [s H|H|h H|h H].
  - exfalso. exact (validate_error_message _ _ _ H Hempty).
  - subst e. discriminate.
  - left. eauto.
  - right. eauto.
Qed.

Lemma query_captures_failure_witness :
  let W := unsafe_answer_world in
  let q := py "remove everything" in
  let gen := natural_language_to_sql W q test_state in
  let sql := py "DROP TABLE test_table" in
  let e := Exn ValueError (dangerous_message (py "DROP ")) in
  gen = (inr sql, snd gen)
  /\ execute_sql W sql (snd gen) = (inl e, snd gen)
  /\ query W q true test_state
     = (inr (envelope_error q sql (exn_str e)), snd gen).
Proof.
  intros W q gen sql e.
  assert (gen = (inr sql, snd gen)) as Hg by (vm_compute; reflexivity).
  assert (execute_sql W sql (snd gen) = (inl e, snd gen)) as He
    by (vm_compute; reflexivity).
  split; [exact Hg|]. split; [exact He|].
  exact (proj1 (query_captures_failure W q test_state sql (snd gen) e
                  (snd gen) Hg He)).
Defined.

(** C9.  [query] returns an envelope exactly when the generation of the SQL
    succeeds (else it raises the generation's error), and the envelope then
    holds the question and the generated SQL.  Without [execute] it holds
    nothing else: no status, no results, no error.  With [execute] it holds
    exactly one of two outcomes: the rows with status [success] and no
    error, or an error text with status [error] and no results. *)
Theorem query_envelope_shape W q execute st :
  match natural_language_to_sql W q st with
  | (inl e, st1) => query W q execute st = (inl e, st1)
  | (inr sql, st1) =>
      exists env st2,
        query W q execute st = (inr env, st2)
        /\ PyDict.get (py "natural_language_query") env = Some (FStr q)
        /\ PyDict.get (py "sql_query") env = Some (FStr sql)
        /\ if execute then executed_shape env else plain_shape env
  end.
Proof.
  rewrite query_unfold.
  destruct (natural_language_to_sql W q st) as [[e|sql] st1]; [reflexivity|].
  destruct execute.
  - destruct (execute_sql W sql st1) as [[e|rows] st2];
      eexists; eexists; (split; [reflexivity|]); repeat split.
    + right. exists (exn_str e). repeat split.
    + left. exists rows. repeat split.
  - eexists. eexists. split; [reflexivity|]. repeat split.
Qed.

Example query_examples :
  let q := py "count rows" in
  let sql :=
    py "SELECT COUNT(*) AS n FROM test_catalog.test_schema.test_table" in
  fst (query openai_world q false test_state) = inr (envelope_plain q sql)
  /\ fst (query openai_world q true test_state)
     = inr (envelope_success q sql [[(py "n", VInt 42)]])
  /\ fst (query unsafe_answer_world q true test_state)
     = inr (envelope_error q (py "DROP TABLE test_table")
              (dangerous_message (py "DROP ")))
  /\ match fresh unconfigured_world with
     | Some st => fst (query unconfigured_world q true st)
                  = inl settings_incomplete
     | None => False
     end.
Proof. vm_compute. repeat split. Qed.

(** ** Construction *)

(** Construction itself never goes over the network: what it adds to the
    history of calls are the settings of the provider's client. *)
Lemma init_no_network W arg h :
  exists added,
    snd (init W arg h) = h ++ added
    /\ forallb (fun e => negb (is_network e)) added = true.
Proof.
  unfold init.
  destruct (str_eqb (select_provider W arg) (py "openai")).
  - destruct (negb (truthy (getenv W "OPENAI_API_KEY"))).
    + exists []. rewrite app_nil_r. auto.
    + eexists. split; reflexivity.
  - destruct (str_eqb (select_provider W arg) (py "gemini")).
    + destruct (negb (truthy (getenv W "GEMINI_API_KEY"))).
      * exists []. rewrite app_nil_r. auto.
      * eexists. split; reflexivity.
    + exists []. rewrite app_nil_r. auto.
Qed.

(** C8.  Construction raises, and has made no external call by then (the
    history of calls is what it was, so no network call either): when the
    selected provider is openai and OPENAI_API_KEY is absent (unset or
    empty), when it is gemini and GEMINI_API_KEY is absent, and when it is
    neither of the two, in which case the message names the selector. *)
Theorem init_rejects_bad_configuration W arg h :
  (select_provider W arg = py "openai" ->
   truthy (getenv W "OPENAI_API_KEY") = false ->
   init W arg h = (inl openai_key_missing, h))
  /\ (select_provider W arg = py "gemini" ->
      truthy (getenv W "GEMINI_API_KEY") = false ->
      init W arg h = (inl gemini_key_missing, h))
  /\ (select_provider W arg <> py "openai" ->
      select_provider W arg <> py "gemini" ->
      init W arg h
      = (inl (Exn ValueError
                (py "Unsupported LLM provider: " ++ select_provider W arg)), h)
      /\ contains (select_provider W arg)
           (py "Unsupported LLM provider: " ++ select_provider W arg) = true).
Proof.
  unfold init. repeat split.
  - intros Hp Hk. rewrite Hp, Hk. reflexivity.
  - intros Hp Hk. rewrite Hp, Hk. reflexivity.
  - destruct (str_eqb (select_provider W arg) (py "openai")) eqn:E1;
      [apply str_eqb_eq in E1; contradiction|].
    destruct (str_eqb (select_provider W arg) (py "gemini")) eqn:E2;
      [apply str_eqb_eq in E2; contradiction|]. reflexivity.
  - apply contains_later.
    rewrite <- (app_nil_r (select_provider W arg)) at 2.
    apply contains_here.
Qed.

Lemma init_rejects_bad_configuration_witness :
  init keyless_world (Some (py "openai")) [] = (inl openai_key_missing, [])
  /\ init keyless_world (Some (py "gemini")) [] = (inl gemini_key_missing, [])
  /\ init keyless_world (Some (py "unsupported")) []
     = (inl (Exn ValueError (py "Unsupported LLM provider: unsupported")), []).
Proof.
  split; [|split].
  - apply (proj1 (init_rejects_bad_configuration keyless_world
                    (Some (py "openai")) [])); reflexivity.
  - apply (proj1 (proj2 (init_rejects_bad_configuration keyless_world
                           (Some (py "gemini")) []))); reflexivity.
  - apply (proj2 (proj2 (init_rejects_bad_configuration keyless_world
                           (Some (py "unsupported")) [])));
      vm_compute; discriminate.
Defined.

(** C10.  With no provider argument and no LLM_PROVIDER in the environment
    the selector is [openai]: construction then raises when OPENAI_API_KEY is
    absent and succeeds, with provider [openai], when it is present, whatever
    else the environment holds. *)
Theorem init_defaults_to_openai W h :
  getenv W "LLM_PROVIDER" = None ->
  select_provider W None = py "openai"
  /\ (truthy (getenv W "OPENAI_API_KEY") = false ->
      init W None h = (inl openai_key_missing, h))
  /\ (truthy (getenv W "OPENAI_API_KEY") = true ->
      exists a,
        init W None h
        = (inr a, h ++ [OpenAISetKey (format_opt (getenv W "OPENAI_API_KEY"))])
        /\ llm_provider a = py "openai"
        /\ openai_api_key a = getenv W "OPENAI_API_KEY"
        /\ _table_schema a = None).
Proof.
  intros Henv.
  assert (select_provider W None = py "openai") as Hp.
  { unfold select_provider, getenv_default. rewrite Henv. reflexivity. }
  split; [exact Hp|]. unfold init. rewrite Hp. split.
  - intros Hk. rewrite Hk. reflexivity.
  - intros Hk. rewrite Hk. eexists. repeat split.
Qed.

Lemma init_defaults_to_openai_witness :
  getenv keyless_world "LLM_PROVIDER" = None
  /\ select_provider keyless_world None = py "openai"
  /\ init keyless_world None [] = (inl openai_key_missing, [])
  /\ getenv openai_world "LLM_PROVIDER" = None
  /\ fst (init openai_world None []) = inr test_assistant.
Proof.
  assert (getenv keyless_world "LLM_PROVIDER" = None) as H1 by reflexivity.
  assert (getenv openai_world "LLM_PROVIDER" = None) as H2 by reflexivity.
  destruct (init_defaults_to_openai keyless_world [] H1) as [Hp [Hfail _]].
  destruct (init_defaults_to_openai openai_world [] H2) as [_ [_ Hok]].
  split; [exact H1|]. split; [exact Hp|].
  split; [apply Hfail; reflexivity|]. split; [exact H2|].
  destruct Hok as [a [Ha _]]; [reflexivity|]. rewrite Ha.
  vm_compute in Ha. injection Ha as <-. reflexivity.
Defined.

(** * Further properties of the code *)

(** ** The safety gate, case by case *)

Lemma upper_app up a b : upper up (a ++ b) = upper up a ++ upper up b.
Proof. apply flat_map_app. Qed.

(** X1.  A query whose uppercased text holds a denylist entry is rejected
    with the message of the first such entry in the order of the list, also
    when the query starts with SELECT: the denylist is looked at before the
    prefix. *)
Theorem validate_names_first_match up s :
  denylisted (upper up s) = true ->
  exists before operation after,
    dangerous_operations = before ++ operation :: after
    /\ existsb (fun o => contains o (upper up s)) before = false
    /\ contains operation (upper up s) = true
    /\ validate_sql_query up s
       = inl (Exn ValueError (dangerous_message operation)).
Proof.
  intros H. destruct (validate_sql_query_cases up s) as [Hbad _].
  exact (Hbad H).
Qed.

Lemma validate_names_first_match_witness :
  let s := py "SELECT 1; drop table t -- bye" in
  denylisted (upper caseless s) = true
  /\ select_prefixed (upper caseless s) = true
  /\ validate_sql_query caseless s
     = inl (Exn ValueError (dangerous_message (py "DROP ")))
  /\ exists before operation after,
       dangerous_operations = before ++ operation :: after
       /\ existsb (fun o => contains o (upper caseless s)) before = false
       /\ contains operation (upper caseless s) = true
       /\ validate_sql_query caseless s
          = inl (Exn ValueError (dangerous_message operation)).
Proof.
  intros s.
  assert (denylisted (upper caseless s) = true) as H by (vm_compute; reflexivity).
  split; [exact H|]. split; [vm_compute; reflexivity|].
  split; [vm_compute; reflexivity|].
  exact (validate_names_first_match caseless s H).
Defined.

Lemma validate_returns_iff up s b :
  validate_sql_query up s = inr b <->
  b = true
  /\ denylisted (upper up s) = false
  /\ select_prefixed (upper up s) = true.
Proof.
  destruct (validate_sql_query_cases up s) as [Hbad [Hpre Hok]].
  split.
  - intros H. destruct (denylisted (upper up s)) eqn:Hd.
    + destruct (Hbad eq_refl) as [x [op [y [_ [_ [_ Hv]]]]]]. congruence.
    + destruct (select_prefixed (upper up s)) eqn:Hs.
      * rewrite (Hok eq_refl eq_refl) in H. injection H as <-. auto.
      * rewrite (Hpre eq_refl eq_refl) in H. discriminate.
  - intros [-> [Hd Hs]]. apply Hok; assumption.
Qed.

(** X2.  The gate returns exactly when the uppercased text holds no
    denylist entry and starts with SELECT after leading white space, and
    what it returns is always [True]: there is no query for which it returns
    [False]. *)
Theorem validate_accepts_iff up s b :
  validate_sql_query up s = inr b <->
  b = true
  /\ denylisted (upper up s) = false
  /\ select_prefixed (upper up s) = true.
Proof. apply validate_returns_iff. Qed.

(** X3.  Whatever the letter case in which a denylist entry is written in
    the query, the query is rejected: if the query contains a text whose
    uppercase form is an entry of the list, the gate raises [ValueError]. *)
Theorem validate_rejects_any_case up s w operation :
  In operation dangerous_operations ->
  upper up w = operation ->
  substring w s ->
  exists e, validate_sql_query up s = inl e /\ exn_kind e = ValueError.
Proof.
  intros Hin Hw [l [r ->]].
  assert (contains operation (upper up (l ++ w ++ r)) = true) as Hc.
  { rewrite !upper_app, Hw. apply contains_app. }
  destruct (validate_sql_query_cases up (l ++ w ++ r)) as [Hbad _].
  destruct (Hbad (denylisted_true _ _ Hin Hc))
    as [x [op [y [_ [_ [_ Hv]]]]]].
  eexists. split; [exact Hv | reflexivity].
Qed.

Lemma validate_rejects_any_case_witness :
  let s := py "select id from t; dElEtE from t" in
  In (py "DELETE ") dangerous_operations
  /\ upper caseless (py "dElEtE ") = py "DELETE "
  /\ substring (py "dElEtE ") s
  /\ exists e, validate_sql_query caseless s = inl e
               /\ exn_kind e = ValueError.
Proof.
  intros s.
  assert (In (py "DELETE ") dangerous_operations) as Hin.
  { unfold dangerous_operations. apply in_map. simpl. tauto. }
  assert (upper caseless (py "dElEtE ") = py "DELETE ") as Hw by reflexivity.
  assert (substring (py "dElEtE ") s) as Hs.
  { exists (py "select id from t; "), (py "from t"). reflexivity. }
  split; [exact Hin|]. split; [exact Hw|]. split; [exact Hs|].
  exact (validate_rejects_any_case caseless s _ _ Hin Hw Hs).
Defined.

(** ** Nothing unvalidated is executed *)

Lemma get_databricks_connection_history W st :
  self (snd (get_databricks_connection W st)) = self st
  /\ (history (snd (get_databricks_connection W st)) = history st
      \/ history (snd (get_databricks_connection W st))
         = history st ++ [connect_event (self st)]).
Proof.
  rewrite get_databricks_connection_unfold.
  destruct (connection_ready (self st)); [|auto].
  cbv zeta. destruct (sql_connect W _); auto.
Qed.

(** X4.  [execute_sql] only adds calls to the history, and the only
    statement it ever hands to a cursor is its argument, after the gate has
    let it through; a query the gate rejects raises the gate's error with
    no call made at all, not even a connection. *)
Theorem execute_sql_sends_only_validated W s st :
  exists added,
    history (snd (execute_sql W s st)) = history st ++ added
    /\ (forall op, In (CursorExecute op) added ->
          op = s /\ validate_sql_query (unicode_upper W) s = inr true)
    /\ (forall e, validate_sql_query (unicode_upper W) s = inl e ->
          execute_sql W s st = (inl e, st) /\ added = []).
Proof.
  rewrite execute_sql_unfold.
  destruct (validate_sql_query (unicode_upper W) s) as [e|b] eqn:Hv.
  - exists []. rewrite app_nil_r. split; [reflexivity|]. split.
    + intros op [].
    + intros e' H. injection H as <-. auto.
  - assert (b = true) as -> by (apply (validate_returns_iff _ _ _) in Hv; tauto).
    unfold run_verbatim. rewrite get_databricks_connection_unfold.
    destruct (connection_ready (self st)).
    + cbv zeta. destruct (sql_connect W _).
      * exists [connect_event (self st)]. split; [reflexivity|]. split.
        -- intros op [H|[]]. discriminate.
        -- intros e' H. discriminate.
      * cbn [history self].
        exists [connect_event (self st); CursorExecute s].
        split.
        -- destruct (cursor_run W _); cbn [snd history];
             rewrite <- app_assoc; reflexivity.
        -- split.
           ++ intros op [H|[H|[]]]; [discriminate|]. injection H as <-. auto.
           ++ intros e' H. discriminate.
    + exists []. rewrite app_nil_r. split; [reflexivity|]. split.
      * intros op [].
      * intros e' H. discriminate.
Qed.

Lemma same_settings_refl a : same_settings a a.
Proof. exists (_table_schema a). destruct a; reflexivity. Qed.

Lemma same_settings_trans a b c :
  same_settings a b -> same_settings b c -> same_settings a c.
Proof. intros [x ->] [y ->]. exists y. reflexivity. Qed.

Lemma forallb_pointwise {A} (f g : A -> bool) l :
  (forall x, f x = g x) -> forallb f l = forallb g l.
Proof.
  intros H. induction l as [|x l IH]; simpl; [reflexivity|].
  rewrite H, IH. reflexivity.
Qed.

(** The OpenAI adapter step by step: without a model attribute it raises at
    once; else it makes one chat call with the fixed system message, the
    prompt as the user message and at most 500 tokens, and returns the
    cleaned answer or raises the error the call raised, wrapped. *)
Lemma generate_sql_with_openai_unfold W prompt st :
  generate_sql_with_openai W prompt st =
  match openai_model (self st) with
  | None => (inl (openai_error (missing_attribute "openai_model")), st)
  | Some model =>
      let h := history st ++ [OpenAIChat model system_content prompt 500] in
      match chat_completions_create W h with
      | inl cause => (inl (openai_error cause), State (self st) h)
      | inr content => (inr (clean_response content), State (self st) h)
      end
  end.
Proof.
  unfold generate_sql_with_openai, try_except, bind, get_self, call, ret, raise.
  destruct (openai_model (self st)); [|reflexivity].
  cbv zeta. destruct (chat_completions_create W _); reflexivity.
Qed.

Lemma generate_sql_with_gemini_unfold W prompt st :
  generate_sql_with_gemini W prompt st =
  match gemini_client (self st) with
  | None => (inl (gemini_error (missing_attribute "gemini_client")), st)
  | Some _ =>
      let h := history st ++ [GeminiGenerate prompt] in
      match generate_content W h with
      | inl cause => (inl (gemini_error cause), State (self st) h)
      | inr text => (inr (clean_response text), State (self st) h)
      end
  end.
Proof.
  unfold generate_sql_with_gemini, try_except, bind, get_self, call, ret, raise.
  destruct (gemini_client (self st)); [|reflexivity].
  cbv zeta. destruct (generate_content W _); reflexivity.
Qed.

Lemma natural_language_to_sql_unfold W q st :
  natural_language_to_sql W q st =
  match generate_sql_prompt W q st with
  | (inl e, st1) => (inl e, st1)
  | (inr prompt, st1) =>
      if str_eqb (llm_provider (self st1)) (py "openai")
      then generate_sql_with_openai W prompt st1
      else if str_eqb (llm_provider (self st1)) (py "gemini")
      then generate_sql_with_gemini W prompt st1
      else (inl (unsupported_provider (llm_provider (self st1))), st1)
  end.
Proof.
  unfold natural_language_to_sql, bind, get_self, raise.
  destruct (generate_sql_prompt W q st) as [[e|p] st1]; [reflexivity|].
  destruct (str_eqb (llm_provider (self st1)) (py "openai")); [reflexivity|].
  destruct (str_eqb (llm_provider (self st1)) (py "gemini")); reflexivity.
Qed.

(** The calls of the generation, for any kind of call that is allowed
    whatever the cache holds, allows every call that executes no statement,
    and allows the DESCRIBE of the instance's table. *)
Section Footprint.

Variable allowed : DataAssistant -> event -> bool.

Hypothesis allowed_settings :
  forall a cache e, allowed (set_table_schema cache a) e = allowed a e.

Hypothesis allowed_other :
  forall a e, is_statement e = false -> allowed a e = true.

Hypothesis allowed_describe : forall a, allowed a (describe_event a) = true.

Lemma footprint_by_refl st : footprint_by allowed st st.
Proof.
  split; [apply same_settings_refl|]. exists []. rewrite app_nil_r. auto.
Qed.

Lemma footprint_by_trans st1 st2 st3 :
  footprint_by allowed st1 st2 -> footprint_by allowed st2 st3 ->
  footprint_by allowed st1 st3.
Proof.
  intros [Hs1 [a1 [Hh1 Hp1]]] [Hs2 [a2 [Hh2 Hp2]]]. split.
  - eapply same_settings_trans; eassumption.
  - exists (a1 ++ a2). rewrite Hh2, Hh1, app_assoc. split; [reflexivity|].
    rewrite forallb_app, Hp1. simpl.
    rewrite <- Hp2. apply forallb_pointwise. intros e.
    destruct Hs1 as [c ->]. symmetry. apply allowed_settings.
Qed.

(** A step that changes nothing of the instance and adds one call. *)
Lemma footprint_by_call st e :
  allowed (self st) e = true ->
  footprint_by allowed st (State (self st) (history st ++ [e])).
Proof.
  intros H. split; [apply same_settings_refl|]. exists [e].
  simpl. rewrite H. auto.
Qed.

Lemma get_databricks_connection_footprint W st :
  footprint_by allowed st (snd (get_databricks_connection W st)).
Proof.
  rewrite get_databricks_connection_unfold.
  destruct (connection_ready (self st)); [|apply footprint_by_refl].
  cbv zeta. destruct (sql_connect W _); apply footprint_by_call;
    apply allowed_other; reflexivity.
Qed.

Lemma get_table_schema_footprint W st :
  footprint_by allowed st (snd (get_table_schema W st)).
Proof.
  rewrite get_table_schema_unfold.
  destruct (truthy (_table_schema (self st))); [apply footprint_by_refl|].
  pose proof (get_databricks_connection_footprint W st) as Hc.
  pose proof (get_databricks_connection_self W st) as Hself.
  destruct (get_databricks_connection W st) as [[e|u] st1];
    simpl in Hc, Hself; [exact Hc|].
  assert (footprint_by allowed st
            (State (self st1) (history st1 ++ [describe_event (self st)])))
    as Hd.
  { eapply footprint_by_trans; [exact Hc|]. apply footprint_by_call.
    rewrite Hself. apply allowed_describe. }
  cbv zeta. destruct (cursor_run W _) as [e|rs]; [exact Hd|].
  destruct (schema_lines (rs_rows rs)); [exact Hd|].
  cbn [snd]. destruct Hd as [_ Hh]. split; [|exact Hh].
  eexists. reflexivity.
Qed.

Lemma generate_sql_prompt_footprint W q st :
  footprint_by allowed st (snd (generate_sql_prompt W q st)).
Proof.
  rewrite generate_sql_prompt_unfold.
  pose proof (get_table_schema_footprint W st) as H.
  destruct (get_table_schema W st) as [[e|t] st1]; exact H.
Qed.

Lemma generate_sql_with_openai_footprint W p st :
  footprint_by allowed st (snd (generate_sql_with_openai W p st)).
Proof.
  rewrite generate_sql_with_openai_unfold.
  destruct (openai_model (self st)); [|apply footprint_by_refl].
  cbv zeta. destruct (chat_completions_create W _);
    apply footprint_by_call; apply allowed_other; reflexivity.
Qed.

Lemma generate_sql_with_gemini_footprint W p st :
  footprint_by allowed st (snd (generate_sql_with_gemini W p st)).
Proof.
  rewrite generate_sql_with_gemini_unfold.
  destruct (gemini_client (self st)); [|apply footprint_by_refl].
  cbv zeta. destruct (generate_content W _);
    apply footprint_by_call; apply allowed_other; reflexivity.
Qed.

Lemma natural_language_to_sql_footprint W q st :
  footprint_by allowed st (snd (natural_language_to_sql W q st)).
Proof.
  rewrite natural_language_to_sql_unfold.
  pose proof (generate_sql_prompt_footprint W q st) as H.
  destruct (generate_sql_prompt W q st) as [[e|p] st1]; [exact H|].
  simpl in H. eapply footprint_by_trans; [exact H|].
  destruct (str_eqb (llm_provider (self st1)) (py "openai"));
    [apply generate_sql_with_openai_footprint|].
  destruct (str_eqb (llm_provider (self st1)) (py "gemini"));
    [apply generate_sql_with_gemini_footprint | apply footprint_by_refl].
Qed.

End Footprint.

Lemma permitted_settings up a cache e :
  permitted up (set_table_schema cache a) e = permitted up a e.
Proof. reflexivity. Qed.

Lemma permitted_other up a e : is_statement e = false -> permitted up a e = true.
Proof. destruct e; simpl; try reflexivity; discriminate. Qed.

Lemma permitted_describe up a : permitted up a (describe_event a) = true.
Proof.
  unfold permitted, describe_event, describe_statement.
  rewrite str_eqb_refl. reflexivity.
Qed.

Lemma quiet_settings a cache e : quiet (set_table_schema cache a) e = quiet a e.
Proof. reflexivity. Qed.

Lemma quiet_other a e : is_statement e = false -> quiet a e = true.
Proof. destruct e; simpl; try reflexivity; discriminate. Qed.

Lemma quiet_describe a : quiet a (describe_event a) = true.
Proof.
  unfold quiet, describe_event, describe_statement. apply str_eqb_refl.
Qed.

Lemma execute_sql_footprint W s st :
  footprint (unicode_upper W) st (snd (execute_sql W s st)).
Proof.
  set (up := unicode_upper W). unfold footprint.
  pose proof (footprint_by_refl (permitted up)) as Hrefl.
  pose proof (footprint_by_trans (permitted up) (permitted_settings up))
    as Htrans.
  rewrite execute_sql_unfold. fold up.
  destruct (validate_sql_query up s) eqn:Hv; [apply Hrefl|].
  unfold run_verbatim.
  pose proof (get_databricks_connection_footprint (permitted up)
                (permitted_other up) W st) as Hc.
  pose proof (get_databricks_connection_self W st) as Hself.
  destruct (get_databricks_connection W st) as [[e|u] st1];
    simpl in Hc, Hself; [exact Hc|].
  assert (footprint_by (permitted up) st
            (State (self st1) (history st1 ++ [CursorExecute s]))) as Hd.
  { eapply Htrans; [exact Hc|]. apply footprint_by_call.
    unfold permitted, accepted. rewrite Hv. apply orb_true_r. }
  cbv zeta. destruct (cursor_run W _); exact Hd.
Qed.

Lemma query_footprint W q execute st :
  footprint (unicode_upper W) st (snd (query W q execute st)).
Proof.
  set (up := unicode_upper W). unfold footprint.
  rewrite query_unfold.
  pose proof (natural_language_to_sql_footprint (permitted up)
                (permitted_settings up) (permitted_other up)
                (permitted_describe up) W q st) as H.
  destruct (natural_language_to_sql W q st) as [[e|sql] st1]; [exact H|].
  destruct execute; [|exact H].
  pose proof (execute_sql_footprint W sql st1) as He. simpl in H.
  destruct (execute_sql W sql st1) as [[e|rows] st2];
    exact (footprint_by_trans (permitted up) (permitted_settings up)
             _ _ _ H He).
Qed.

(** Without execution no statement but the DESCRIBE is sent. *)
Lemma query_plain_quiet W q st :
  footprint_by quiet st (snd (query W q false st)).
Proof.
  rewrite query_unfold.
  pose proof (natural_language_to_sql_footprint quiet quiet_settings
                quiet_other quiet_describe W q st) as H.
  destruct (natural_language_to_sql W q st) as [[e|sql] st1]; exact H.
Qed.

(** X5.  Whatever the question, the flag and the answers of the outside
    world, [query] only adds calls to the history, and every statement it
    has a cursor execute is either the DESCRIBE of the instance's table or a
    statement that passed the gate: no generated text reaches the warehouse
    unvalidated. *)
Theorem query_executes_only_validated W q execute st :
  exists added,
    history (snd (query W q execute st)) = history st ++ added
    /\ forall op, In (CursorExecute op) added ->
         op = describe_statement (self st)
         \/ validate_sql_query (unicode_upper W) op = inr true.
Proof.
  destruct (query_footprint W q execute st) as [_ [added [Hh Hp]]].
  exists added. split; [exact Hh|]. intros op Hin.
  rewrite forallb_forall in Hp. specialize (Hp _ Hin).
  unfold permitted in Hp. apply orb_true_iff in Hp. destruct Hp as [Hp|Hp].
  - left. apply str_eqb_eq. exact Hp.
  - right. unfold accepted in Hp.
    destruct (validate_sql_query (unicode_upper W) op) as [e|b] eqn:Hv;
      [discriminate|].
    apply (validate_returns_iff _ _ _) in Hv. destruct Hv as [-> _].
    reflexivity.
Qed.

(** X6.  [query] never changes the configuration of the instance: provider,
    keys, models, connection settings and table names are after the call
    what they were before; the schema cache is the only attribute that can
    change. *)
Theorem query_keeps_settings W q execute st :
  exists cache,
    self (snd (query W q execute st)) = set_table_schema cache (self st).
Proof. exact (proj1 (query_footprint W q execute st)). Qed.

(** ** One DESCRIBE for many queries *)

Lemma describe_calls_snoc h e :
  is_describe e = false -> describe_calls (h ++ [e]) = describe_calls h.
Proof.
  intros H. rewrite describe_calls_app. unfold describe_calls at 2.
  simpl. rewrite H. simpl. lia.
Qed.

(** A statement the gate lets through is not a DESCRIBE. *)
Lemma accepted_not_describe up s :
  validate_sql_query up s = inr true ->
  startswith (py "DESCRIBE TABLE ") s = false.
Proof.
  intros Hv. apply (validate_returns_iff _ _ _) in Hv.
  destruct Hv as [_ [_ Hs]].
  destruct (startswith (py "DESCRIBE TABLE ") s) eqn:E; [|reflexivity].
  apply startswith_iff in E. destruct E as [r ->].
  rewrite upper_app in Hs. vm_compute in Hs. discriminate.
Qed.

Lemma execute_sql_no_describe W s st :
  describe_calls (history (snd (execute_sql W s st)))
  = describe_calls (history st).
Proof.
  rewrite execute_sql_unfold.
  destruct (validate_sql_query (unicode_upper W) s) as [e|b] eqn:Hv;
    [reflexivity|].
  assert (b = true) as -> by (apply (validate_returns_iff _ _ _) in Hv; tauto).
  unfold run_verbatim. rewrite get_databricks_connection_unfold.
  destruct (connection_ready (self st)); [|reflexivity].
  cbv zeta.
  assert (describe_calls (history st ++ [connect_event (self st)])
          = describe_calls (history st)) as Hc
    by (apply describe_calls_snoc; reflexivity).
  destruct (sql_connect W _); [exact Hc|].
  cbn [history self].
  assert (describe_calls
            ((history st ++ [connect_event (self st)]) ++ [CursorExecute s])
          = describe_calls (history st)) as Hd.
  { rewrite describe_calls_snoc; [exact Hc|].
    apply (accepted_not_describe _ _ Hv). }
  destruct (cursor_run W _); exact Hd.
Qed.

Lemma provider_no_describe W q st :
  truthy (_table_schema (self st)) = true ->
  describe_calls (history (snd (natural_language_to_sql W q st)))
  = describe_calls (history st).
Proof.
  intros Hc. rewrite natural_language_to_sql_unfold.
  rewrite generate_sql_prompt_unfold, (get_table_schema_cached _ _ Hc).
  destruct (str_eqb (llm_provider (self st)) (py "openai")).
  - rewrite generate_sql_with_openai_unfold.
    destruct (openai_model (self st)); [|reflexivity].
    cbv zeta. destruct (chat_completions_create W _);
      apply describe_calls_snoc; reflexivity.
  - destruct (str_eqb (llm_provider (self st)) (py "gemini")); [|reflexivity].
    rewrite generate_sql_with_gemini_unfold.
    destruct (gemini_client (self st)); [|reflexivity].
    cbv zeta. destruct (generate_content W _);
      apply describe_calls_snoc; reflexivity.
Qed.

(** X7.  On an instance whose cache holds a non-empty schema text, [query]
    sends no DESCRIBE, with or without execution: the statement it executes
    has passed the gate and so is not one, and the schema is not fetched
    again. *)
Theorem query_cached_no_describe W q execute st :
  truthy (_table_schema (self st)) = true ->
  describe_calls (history (snd (query W q execute st)))
  = describe_calls (history st).
Proof.
  intros Hc. rewrite query_unfold.
  pose proof (provider_no_describe W q st Hc) as H.
  destruct (natural_language_to_sql W q st) as [[e|sql] st1]; [exact H|].
  destruct execute; [|exact H].
  pose proof (execute_sql_no_describe W sql st1) as He. simpl in H.
  destruct (execute_sql W sql st1) as [[e|rows] st2];
    simpl in *; congruence.
Qed.

Lemma query_cached_no_describe_witness :
  truthy (_table_schema (self cached_state)) = true
  /\ describe_calls
       (history (snd (query openai_world (py "count rows") true cached_state)))
     = 0
  /\ length
       (history (snd (query openai_world (py "count rows") true cached_state)))
     = 3.
Proof.
  split; [reflexivity|]. split; [|vm_compute; reflexivity].
  exact (query_cached_no_describe openai_world (py "count rows") true
           cached_state eq_refl).
Defined.

(** ** The providers *)

Lemma get_table_schema_settings W st :
  same_settings (self st) (self (snd (get_table_schema W st))).
Proof. exact (get_table_schema_frame W st). Qed.

(** X8.  With the provider [openai] and the schema at hand,
    [natural_language_to_sql] makes exactly one call after the schema
    fetch, a chat completion with the configured model, the fixed system
    message, the prompt for the question as the user message and a limit of
    500 tokens; it returns the cleaned answer, or raises the wrapped error
    of that one call: no second attempt and no call to the other
    provider. *)
Theorem natural_language_to_sql_openai W q st schema st1 model :
  get_table_schema W st = (inr schema, st1) ->
  llm_provider (self st) = py "openai" ->
  openai_model (self st) = Some model ->
  natural_language_to_sql W q st =
  let h := history st1
           ++ [OpenAIChat model system_content
                 (prompt_text (full_table_name (self st)) schema q) 500] in
  match chat_completions_create W h with
  | inr content => (inr (clean_response content), State (self st1) h)
  | inl cause => (inl (openai_error cause), State (self st1) h)
  end.
Proof.
  intros Hs Hp Hm.
  pose proof (get_table_schema_settings W st) as [c Hc].
  pose proof (get_table_schema_table_name W st) as Hn.
  rewrite Hs in Hc, Hn. simpl in Hc, Hn.
  rewrite natural_language_to_sql_unfold, generate_sql_prompt_unfold, Hs.
  rewrite Hn.
  assert (llm_provider (self st1) = py "openai") as Hp1 by (rewrite Hc; exact Hp).
  assert (openai_model (self st1) = Some model) as Hm1 by (rewrite Hc; exact Hm).
  rewrite Hp1, str_eqb_refl, generate_sql_with_openai_unfold, Hm1.
  cbv zeta. destruct (chat_completions_create W _); reflexivity.
Qed.

Lemma natural_language_to_sql_openai_witness :
  let q := py "count rows" in
  let schema := py "  - col1: string" ++ nl ++ py "  - col2: int" in
  let st1 := snd (get_table_schema openai_world test_state) in
  let h := history st1
           ++ [OpenAIChat (py "gpt-4") system_content
                 (prompt_text (full_table_name test_assistant) schema q) 500] in
  get_table_schema openai_world test_state = (inr schema, st1)
  /\ natural_language_to_sql openai_world q test_state
     = (inr (py "SELECT COUNT(*) AS n FROM test_catalog.test_schema.test_table"),
        State (self st1) h).
Proof.
  intros q schema st1 h.
  assert (get_table_schema openai_world test_state = (inr schema, st1)) as Hs
    by (vm_compute; reflexivity).
  split; [exact Hs|].
  rewrite (natural_language_to_sql_openai openai_world q test_state schema st1
             (py "gpt-4") Hs eq_refl eq_refl).
  reflexivity.
Defined.

(** X9.  The same for the provider [gemini]: one call of the client with
    the prompt for the question, the cleaned text returned or the wrapped
    error raised, and no call to OpenAI. *)
Theorem natural_language_to_sql_gemini W q st schema st1 client :
  get_table_schema W st = (inr schema, st1) ->
  llm_provider (self st) = py "gemini" ->
  gemini_client (self st) = Some client ->
  natural_language_to_sql W q st =
  let h := history st1
           ++ [GeminiGenerate
                 (prompt_text (full_table_name (self st)) schema q)] in
  match generate_content W h with
  | inr text => (inr (clean_response text), State (self st1) h)
  | inl cause => (inl (gemini_error cause), State (self st1) h)
  end.
Proof.
  intros Hs Hp Hm.
  pose proof (get_table_schema_settings W st) as [c Hc].
  pose proof (get_table_schema_table_name W st) as Hn.
  rewrite Hs in Hc, Hn. simpl in Hc, Hn.
  rewrite natural_language_to_sql_unfold, generate_sql_prompt_unfold, Hs.
  rewrite Hn.
  assert (llm_provider (self st1) = py "gemini") as Hp1 by (rewrite Hc; exact Hp).
  assert (gemini_client (self st1) = Some client) as Hm1
    by (rewrite Hc; exact Hm).
  rewrite Hp1. change (str_eqb (py "gemini") (py "openai")) with false.
  rewrite str_eqb_refl, generate_sql_with_gemini_unfold, Hm1.
  cbv zeta. destruct (generate_content W _); reflexivity.
Qed.

Lemma natural_language_to_sql_gemini_witness :
  let q := py "count rows" in
  let st := State gemini_assistant [] in
  let schema := py "  - col1: string" ++ nl ++ py "  - col2: int" in
  let st1 := snd (get_table_schema rate_limited_world st) in
  get_table_schema rate_limited_world st = (inr schema, st1)
  /\ fst (natural_language_to_sql rate_limited_world q st)
     = inl (Exn ValueError
              (py "Gemini API error: quota exceeded. Please check your API key and rate limits.")).
Proof.
  intros q st schema st1.
  assert (get_table_schema rate_limited_world st = (inr schema, st1)) as Hs
    by (vm_compute; reflexivity).
  split; [exact Hs|].
  rewrite (natural_language_to_sql_gemini rate_limited_world q st schema st1
             (py "gemini-pro") Hs eq_refl eq_refl).
  reflexivity.
Defined.

(** X10.  Whatever goes wrong inside a provider adapter, the caller sees a
    [ValueError] whose message is built from the message of the error that
    was caught, in the way of the adapter that caught it.

    The error caught is the one the provider's call raised for the request
    just recorded, or, on an instance set up for the other provider, the
    [AttributeError] of the attribute that is not there (and then no call
    is made).  [generate_sql_with_openai] puts in front of its message the
    opening of the first [except] clause that matches its class:
    authentication, rate limit, other API error, anything else.
    [generate_sql_with_gemini] puts it between one fixed opening and one
    fixed ending, whatever its class. *)
Theorem provider_errors_are_value_errors W prompt st :
  (forall e st',
      generate_sql_with_openai W prompt st = (inl e, st') ->
      exists cause,
        (match openai_model (self st) with
         | Some model =>
             st' = State (self st)
                     (history st
                      ++ [OpenAIChat model system_content prompt 500])
             /\ chat_completions_create W (history st') = inl cause
         | None =>
             st' = st
             /\ cause
                = Exn AttributeError
                    (py "'DataAssistant' object has no attribute 'openai_model'")
         end)
        /\ e = Exn ValueError
                 (match exn_kind cause with
                  | AuthenticationError =>
                      py "OpenAI authentication failed. Please check your API key: "
                  | RateLimitError =>
                      py "OpenAI rate limit exceeded. Please try again later: "
                  | APIError => py "OpenAI API error: "
                  | ValueError | IndexError | AttributeError
                  | OtherException =>
                      py "Unexpected error calling OpenAI API: "
                  end
                  ++ exn_str cause))
  /\ (forall e st',
         generate_sql_with_gemini W prompt st = (inl e, st') ->
         exists cause,
           (match gemini_client (self st) with
            | Some _ =>
                st' = State (self st) (history st ++ [GeminiGenerate prompt])
                /\ generate_content W (history st') = inl cause
            | None =>
                st' = st
                /\ cause
                   = Exn AttributeError
                       (py "'DataAssistant' object has no attribute 'gemini_client'")
            end)
           /\ e = Exn ValueError
                    (py "Gemini API error: " ++ exn_str cause
                     ++ py ". Please check your API key and rate limits.")).
Proof.
  split; intros e st' H.
  - rewrite generate_sql_with_openai_unfold in H.
    destruct (openai_model (self st)) as [model|].
    + cbv zeta in H.
      destruct (chat_completions_create W _) as [cause|c] eqn:Hcall;
        [|discriminate].
      injection H as <- <-. exists cause.
      split; [split; [reflexivity|exact Hcall]|].
      unfold openai_error. destruct (exn_kind cause); reflexivity.
    + injection H as <- <-. eexists.
      split; [split; reflexivity|]. reflexivity.
  - rewrite generate_sql_with_gemini_unfold in H.
    destruct (gemini_client (self st)) as [client|].
    + cbv zeta in H.
      destruct (generate_content W _) as [cause|c] eqn:Hcall; [|discriminate].
      injection H as <- <-. exists cause.
      split; [split; [reflexivity|exact Hcall]|]. reflexivity.
    + injection H as <- <-. eexists.
      split; [split; reflexivity|]. reflexivity.
Qed.

(** With a provider that refuses every call: the OpenAI adapter reports the
    rate limit in its own words, the Gemini adapter the quota in its own. *)
Lemma provider_errors_are_value_errors_witness :
  fst (generate_sql_with_openai rate_limited_world (py "prompt") test_state)
  = inl (Exn ValueError
           (py "OpenAI rate limit exceeded. Please try again later: Error code: 429"))
  /\ fst (generate_sql_with_gemini rate_limited_world (py "prompt")
            (State gemini_assistant []))
     = inl (Exn ValueError
              (py "Gemini API error: quota exceeded. Please check your API key and rate limits.")).
Proof.
  split.
  - destruct (generate_sql_with_openai rate_limited_world (py "prompt")
                test_state) as [[e|sql] st'] eqn:H; [|discriminate H].
    destruct (proj1 (provider_errors_are_value_errors rate_limited_world
                       (py "prompt") test_state) e st' H)
      as (cause & [_ Hcall] & ->).
    injection Hcall as <-. reflexivity.
  - destruct (generate_sql_with_gemini rate_limited_world (py "prompt")
                (State gemini_assistant [])) as [[e|sql] st'] eqn:H;
      [|discriminate H].
    destruct (proj2 (provider_errors_are_value_errors rate_limited_world
                       (py "prompt") (State gemini_assistant [])) e st' H)
      as (cause & [_ Hcall] & ->).
    injection Hcall as <-. reflexivity.
Defined.

(** ** The cleaned answer *)

Lemma clean_response_clean s :
  contains fence (clean_response s) = false
  /\ strip (clean_response s) = clean_response s.
Proof.
  unfold clean_response. split;
    [apply strip_fences_clean | apply strip_fences_trimmed].
Qed.

(** X11.  The SQL text [natural_language_to_sql] returns never holds a
    markdown fence and has no white space at either end, whatever the
    provider answered. *)
Theorem natural_language_to_sql_clean W q st sql st' :
  natural_language_to_sql W q st = (inr sql, st') ->
  contains fence sql = false /\ strip sql = sql.
Proof.
  rewrite natural_language_to_sql_unfold.
  destruct (generate_sql_prompt W q st) as [[e|p] st1]; [discriminate|].
  destruct (str_eqb (llm_provider (self st1)) (py "openai")).
  - rewrite generate_sql_with_openai_unfold.
    destruct (openai_model (self st1)); [|discriminate].
    cbv zeta. destruct (chat_completions_create W _); [discriminate|].
    intros H. injection H as <- _. apply clean_response_clean.
  - destruct (str_eqb (llm_provider (self st1)) (py "gemini")); [|discriminate].
    rewrite generate_sql_with_gemini_unfold.
    destruct (gemini_client (self st1)); [|discriminate].
    cbv zeta. destruct (generate_content W _); [discriminate|].
    intros H. injection H as <- _. apply clean_response_clean.
Qed.

Lemma natural_language_to_sql_clean_witness :
  let out := natural_language_to_sql openai_world (py "count rows") test_state in
  let sql :=
    py "SELECT COUNT(*) AS n FROM test_catalog.test_schema.test_table" in
  out = (inr sql, snd out)
  /\ contains fence sql = false /\ strip sql = sql.
Proof.
  intros out sql.
  assert (out = (inr sql, snd out)) as H by (vm_compute; reflexivity).
  split; [exact H|].
  exact (natural_language_to_sql_clean openai_world (py "count rows")
           test_state sql (snd out) H).
Defined.

(** *** White space around a text *)

Lemma lstrip_spaces ws s :
  forallb isspace ws = true -> lstrip (ws ++ s) = lstrip s.
Proof.
  induction ws as [|c ws IH]; simpl; [reflexivity|].
  intros H. apply andb_true_iff in H. destruct H as [Hc Hws].
  rewrite Hc. apply IH. exact Hws.
Qed.

Lemma rstrip_spaces ws s :
  forallb isspace ws = true -> rstrip (s ++ ws) = rstrip s.
Proof.
  intros H. unfold rstrip. rewrite rev_app_distr, lstrip_spaces; [reflexivity|].
  rewrite forallb_forall in *. intros x Hx. apply H. apply in_rev. exact Hx.
Qed.

Lemma lstrip_all_spaces ws : forallb isspace ws = true -> lstrip ws = [].
Proof.
  intros H. rewrite <- (app_nil_r ws). rewrite lstrip_spaces; [reflexivity|].
  exact H.
Qed.

(** A trimmed text is a fixed point of both one-sided trims. *)
Lemma trimmed_both core :
  strip core = core -> lstrip core = core /\ rstrip core = core.
Proof.
  intros H. split.
  - rewrite <- H. unfold strip. apply lstrip_rstrip_lstrip.
  - rewrite <- H. unfold strip. apply rstrip_idem.
Qed.

(** A trimmed text with white space on both sides trims to itself. *)
Lemma strip_core ws1 core ws2 :
  forallb isspace ws1 = true -> forallb isspace ws2 = true ->
  strip core = core ->
  strip (ws1 ++ core ++ ws2) = core.
Proof.
  intros H1 H2 Hc. destruct (trimmed_both core Hc) as [Hl Hr].
  unfold strip. rewrite lstrip_spaces by exact H1.
  destruct core as [|c t].
  - simpl. rewrite lstrip_all_spaces by exact H2. reflexivity.
  - pose proof (lstrip_head (c :: t)) as Hh. rewrite Hl in Hh.
    change ((c :: t) ++ ws2) with (c :: (t ++ ws2)).
    rewrite (lstrip_fixed _ _ Hh).
    change (c :: (t ++ ws2)) with ((c :: t) ++ ws2).
    rewrite rstrip_spaces by exact H2. exact Hr.
Qed.

(** White space added around a text does not change what trimming gives. *)
Lemma strip_pad ws1 s ws2 :
  forallb isspace ws1 = true -> forallb isspace ws2 = true ->
  strip (ws1 ++ s ++ ws2) = strip s.
Proof.
  intros H1 H2.
  destruct (lstrip_split s) as [a [Ha Hsa]].
  destruct (rstrip_split (lstrip s)) as [b [Hb Hsb]].
  assert (s = a ++ strip s ++ b) as Hs.
  { unfold strip. rewrite <- Hb. exact Ha. }
  rewrite Hs at 1.
  replace (ws1 ++ (a ++ strip s ++ b) ++ ws2)
    with ((ws1 ++ a) ++ strip s ++ (b ++ ws2))
    by (repeat rewrite <- app_assoc; reflexivity).
  apply strip_core.
  - rewrite forallb_app, H1, Hsa. reflexivity.
  - rewrite forallb_app, Hsb, H2. reflexivity.
  - apply strip_idem.
Qed.

(** X12.  An answer without a markdown fence is only trimmed: the cleaning
    takes away the white space at both ends and leaves every other
    character of the generated SQL as it is. *)
Theorem clean_response_unfenced s :
  contains fence s = false -> clean_response s = strip s.
Proof.
  intros H. unfold clean_response. apply strip_fences_fixed.
  - eapply contains_false_mono; [apply strip_substring | exact H].
  - apply strip_idem.
Qed.

Lemma clean_response_unfenced_witness :
  let s := nl ++ py "  SELECT `id` FROM t  " ++ nl in
  contains fence s = false
  /\ clean_response s = py "SELECT `id` FROM t".
Proof.
  intros s. split; [reflexivity|].
  rewrite (clean_response_unfenced s eq_refl). reflexivity.
Defined.

Lemma rstrip_snoc c s : isspace c = false -> rstrip (s ++ [c]) = s ++ [c].
Proof.
  intros E. unfold rstrip. rewrite rev_app_distr. simpl. rewrite E.
  simpl. rewrite rev_involutive. reflexivity.
Qed.

(** Characters that cannot open the pattern are copied. *)
Lemma replace_scan_copy p0 p new pre rest :
  forallb (fun c => negb (char_eqb p0 c)) pre = true ->
  replace_scan (p0 :: p) new (pre ++ rest)
  = pre ++ replace_scan (p0 :: p) new rest.
Proof.
  induction pre as [|c pre IH]; simpl; [reflexivity|].
  intros H. apply andb_true_iff in H. destruct H as [Hc Hpre].
  rewrite replace_scan_cons, startswith_cons.
  apply negb_true_iff in Hc. rewrite Hc. simpl. rewrite (IH Hpre).
  reflexivity.
Qed.

Lemma fenced_body_kept body :
  no_backtick body = true ->
  forallb (fun c => negb (char_eqb backtick c)) (nl ++ body ++ nl) = true.
Proof.
  intros H. rewrite !forallb_app. unfold no_backtick in H. rewrite H.
  reflexivity.
Qed.

(** Between its fences a body without backticks comes out as it is. *)
Lemma strip_fences_sql_fenced body :
  no_backtick body = true ->
  strip_fences (py "```sql" ++ nl ++ body ++ nl ++ py "```") = strip body.
Proof.
  intros H. pose proof (fenced_body_kept body H) as Hk.
  unfold strip_fences.
  replace (nl ++ body ++ nl ++ py "```") with ((nl ++ body ++ nl) ++ fence)
    by (repeat rewrite <- app_assoc; reflexivity).
  assert (replace (py "```sql") [] (py "```sql" ++ (nl ++ body ++ nl) ++ fence)
          = (nl ++ body ++ nl) ++ fence) as H1.
  { change (replace (py "```sql") []
              (py "```sql" ++ (nl ++ body ++ nl) ++ fence))
      with (replace_scan (backtick :: py "``sql") []
              (backtick :: py "``sql" ++ (nl ++ body ++ nl) ++ fence)).
    rewrite replace_scan_cons.
    change (backtick :: py "``sql" ++ (nl ++ body ++ nl) ++ fence)
      with ((backtick :: py "``sql") ++ (nl ++ body ++ nl) ++ fence).
    rewrite startswith_app.
    change (skipn (Nat.pred (length (backtick :: py "``sql")))
              (py "``sql" ++ (nl ++ body ++ nl) ++ fence))
      with ((nl ++ body ++ nl) ++ fence).
    rewrite (replace_scan_copy _ _ _ _ _ Hk). reflexivity. }
  rewrite H1.
  change (replace (py "```") [] ((nl ++ body ++ nl) ++ fence))
    with (replace_scan (backtick :: [backtick; backtick]) []
            ((nl ++ body ++ nl) ++ fence)).
  rewrite (replace_scan_copy _ _ _ _ _ Hk).
  change (replace_scan [backtick; backtick; backtick] [] fence) with (@nil char).
  rewrite app_nil_r.
  change (nl ++ body ++ nl) with ([10%N] ++ body ++ [10%N]).
  apply strip_pad; reflexivity.
Qed.

Lemma strip_fences_bare_fenced body :
  no_backtick body = true ->
  strip_fences (py "```" ++ nl ++ body ++ nl ++ py "```") = strip body.
Proof.
  intros H. pose proof (fenced_body_kept body H) as Hk.
  unfold strip_fences.
  replace (nl ++ body ++ nl ++ py "```") with ((nl ++ body ++ nl) ++ fence)
    by (repeat rewrite <- app_assoc; reflexivity).
  assert (replace (py "```sql") [] (py "```" ++ (nl ++ body ++ nl) ++ fence)
          = fence ++ (nl ++ body ++ nl) ++ fence) as H1.
  { change (replace (py "```sql") [] (py "```" ++ (nl ++ body ++ nl) ++ fence))
      with (replace_scan (backtick :: py "``sql") []
              (backtick :: backtick :: backtick
                 :: ([10%N] ++ body ++ nl) ++ fence)).
    rewrite replace_scan_cons.
    change (startswith (backtick :: py "``sql")
              (backtick :: backtick :: backtick
                 :: ([10%N] ++ body ++ nl) ++ fence)) with false.
    cbv iota. rewrite replace_scan_cons.
    change (startswith (backtick :: py "``sql")
              (backtick :: backtick :: ([10%N] ++ body ++ nl) ++ fence))
      with false.
    cbv iota. rewrite replace_scan_cons.
    change (startswith (backtick :: py "``sql")
              (backtick :: ([10%N] ++ body ++ nl) ++ fence)) with false.
    cbv iota.
    change ([10%N] ++ body ++ nl) with (nl ++ body ++ nl).
    rewrite (replace_scan_copy _ _ _ _ _ Hk). reflexivity. }
  rewrite H1.
  change (replace (py "```") [] (fence ++ (nl ++ body ++ nl) ++ fence))
    with (replace_scan (backtick :: [backtick; backtick]) []
            (backtick :: [backtick; backtick] ++ (nl ++ body ++ nl) ++ fence)).
  rewrite replace_scan_cons.
  change (backtick :: [backtick; backtick] ++ (nl ++ body ++ nl) ++ fence)
    with ((backtick :: [backtick; backtick]) ++ (nl ++ body ++ nl) ++ fence).
  rewrite startswith_app.
  change (skipn (Nat.pred (length (backtick :: [backtick; backtick])))
            ([backtick; backtick] ++ (nl ++ body ++ nl) ++ fence))
    with ((nl ++ body ++ nl) ++ fence).
  rewrite (replace_scan_copy _ _ _ _ _ Hk).
  change (replace_scan [backtick; backtick; backtick] [] fence) with (@nil char).
  rewrite app_nil_r. simpl app.
  change (10%N :: body ++ nl) with ([10%N] ++ body ++ [10%N]).
  apply strip_pad; reflexivity.
Qed.

Lemma strip_fenced_text tag body :
  tag = py "```sql" \/ tag = py "```" ->
  strip (tag ++ nl ++ body ++ nl ++ py "```")
  = tag ++ nl ++ body ++ nl ++ py "```".
Proof.
  intros Ht. unfold strip.
  assert (lstrip (tag ++ nl ++ body ++ nl ++ py "```")
          = tag ++ nl ++ body ++ nl ++ py "```") as Hl
    by (destruct Ht as [-> | ->]; reflexivity).
  rewrite Hl.
  replace (tag ++ nl ++ body ++ nl ++ py "```")
    with ((tag ++ nl ++ body ++ nl ++ [backtick; backtick]) ++ [backtick])
    by (repeat rewrite <- app_assoc; reflexivity).
  apply rstrip_snoc. reflexivity.
Qed.

(** X13.  An answer wrapped in a markdown fence, with or without the [sql]
    tag, is unwrapped: when the body between the fence lines holds no
    backtick, the cleaning returns exactly the body, trimmed. *)
Theorem clean_response_fenced body :
  no_backtick body = true ->
  clean_response (py "```sql" ++ nl ++ body ++ nl ++ py "```") = strip body
  /\ clean_response (py "```" ++ nl ++ body ++ nl ++ py "```") = strip body.
Proof.
  intros H. unfold clean_response. split.
  - rewrite strip_fenced_text by (left; reflexivity).
    apply strip_fences_sql_fenced. exact H.
  - rewrite strip_fenced_text by (right; reflexivity).
    apply strip_fences_bare_fenced. exact H.
Qed.

Lemma clean_response_fenced_witness :
  let body := py "SELECT * FROM table" in
  no_backtick body = true
  /\ clean_response (py "```sql" ++ nl ++ body ++ nl ++ py "```") = body
  /\ clean_response (py "```" ++ nl ++ body ++ nl ++ py "```") = body.
Proof.
  intros body. split; [reflexivity|].
  destruct (clean_response_fenced body eq_refl) as [H1 H2].
  rewrite H1, H2. split; reflexivity.
Defined.

(** ** Connection settings *)

Lemma truthy_false_iff o : truthy o = false <-> setting_missing o.
Proof.
  unfold setting_missing. destruct o as [[|c s]|]; simpl; split;
    try tauto; try discriminate; intros [H|H]; discriminate.
Qed.

Lemma connection_ready_false_iff a :
  connection_ready a = false <->
  setting_missing (server_hostname a) \/ setting_missing (http_path a)
  \/ setting_missing (access_token a).
Proof.
  unfold connection_ready. rewrite !andb_false_iff, !truthy_false_iff. tauto.
Qed.

(** X14.  [get_databricks_connection] does not try to connect with an
    incomplete configuration: when the host name, the HTTP path or the
    access token is unset or empty it raises the configuration error and
    makes no call; otherwise it makes exactly one connection call, with the
    three settings, and raises only what that call raises.  It never
    changes the instance. *)
Theorem get_databricks_connection_checks_settings W st :
  self (snd (get_databricks_connection W st)) = self st
  /\ (setting_missing (server_hostname (self st))
      \/ setting_missing (http_path (self st))
      \/ setting_missing (access_token (self st)) ->
      get_databricks_connection W st = (inl settings_incomplete, st))
  /\ (forall host path token,
        server_hostname (self st) = Some host -> host <> [] ->
        http_path (self st) = Some path -> path <> [] ->
        access_token (self st) = Some token -> token <> [] ->
        let h := history st ++ [SqlConnect host path token] in
        get_databricks_connection W st
        = (match sql_connect W h with
           | Some e => inl e
           | None => inr tt
           end, State (self st) h)).
Proof.
  split; [apply get_databricks_connection_self|]. split.
  - intros H. apply connection_ready_false_iff in H.
    rewrite get_databricks_connection_unfold, H. reflexivity.
  - intros host path token Hh Hhn Hp Hpn Ht Htn.
    rewrite get_databricks_connection_unfold.
    unfold connection_ready, connect_event. rewrite Hh, Hp, Ht.
    destruct host; [congruence|]. destruct path; [congruence|].
    destruct token; [congruence|]. simpl.
    destruct (sql_connect W _); reflexivity.
Qed.

Example get_databricks_connection_examples :
  get_databricks_connection openai_world (State empty_path_assistant [])
  = (inl settings_incomplete, State empty_path_assistant [])
  /\ get_databricks_connection openai_world test_state
     = (inr tt,
        State test_assistant
          (history test_state
           ++ [SqlConnect (py "test.databricks.com")
                 (py "/sql/1.0/warehouses/test") (py "test-token")])).
Proof. split; reflexivity. Qed.

(** ** The schema text *)

Lemma schema_lines_ok columns :
  forallb has_two_cells columns = true ->
  exists schema_info,
    schema_lines columns = inr schema_info
    /\ length schema_info = length columns
    /\ Forall2 (fun col line =>
                  exists col_name col_type rest,
                    col = col_name :: col_type :: rest
                    /\ line = column_line col_name col_type)
         columns schema_info.
Proof.
  induction columns as [|col columns IH]; simpl.
  - intros _. exists []. repeat split. constructor.
  - intros H. apply andb_true_iff in H. destruct H as [Hc Hr].
    destruct (IH Hr) as [lines [H1 [H2 H4]]].
    destruct col as [|n [|t rest]]; try discriminate.
    exists (column_line n t :: lines).
    assert (schema_line (n :: t :: rest) = inr (column_line n t)) as Hl
      by reflexivity.
    split; [cbn [schema_lines]; rewrite Hl, H1; reflexivity|].
    split; [simpl; congruence|].
    constructor; [|exact H4]. exists n, t, rest. auto.
Qed.

Lemma schema_lines_short columns :
  forallb has_two_cells columns = false ->
  schema_lines columns = inl (Exn IndexError (py "tuple index out of range")).
Proof.
  induction columns as [|col columns IH]; simpl; [discriminate|].
  intros H. destruct col as [|n [|t rest]]; try reflexivity.
  simpl in H. rewrite (IH H). reflexivity.
Qed.

Lemma get_table_schema_fetch W st :
  truthy (_table_schema (self st)) = false ->
  connection_ready (self st) = true ->
  sql_connect W (history st ++ [connect_event (self st)]) = None ->
  get_table_schema W st =
  let h := history st ++ [connect_event (self st); describe_event (self st)] in
  match describe_answer W (self st) (history st) with
  | inl e => (inl e, State (self st) h)
  | inr rs =>
      match schema_lines (rs_rows rs) with
      | inl e => (inl e, State (self st) h)
      | inr schema_info =>
          (inr (join nl schema_info),
           State (set_table_schema (Some (join nl schema_info)) (self st)) h)
      end
  end.
Proof.
  intros Hc Hr Hs. rewrite get_table_schema_unfold, Hc.
  rewrite get_databricks_connection_unfold, Hr. cbv zeta. rewrite Hs.
  cbn [history self]. unfold describe_answer.
  rewrite <- app_assoc. reflexivity.
Qed.

(** X15.  When the warehouse answers the DESCRIBE with rows of at least
    two cells each, the schema text [get_table_schema] returns and stores
    has one line per row, in the order of the rows, each made of the first
    two cells only: further cells of a row (such as a comment) do not
    show. *)
Theorem get_table_schema_renders W st rs :
  truthy (_table_schema (self st)) = false ->
  connection_ready (self st) = true ->
  sql_connect W (history st ++ [connect_event (self st)]) = None ->
  describe_answer W (self st) (history st) = inr rs ->
  forallb has_two_cells (rs_rows rs) = true ->
  exists schema_info st1,
    get_table_schema W st = (inr (join nl schema_info), st1)
    /\ _table_schema (self st1) = Some (join nl schema_info)
    /\ length schema_info = length (rs_rows rs)
    /\ Forall2 (fun col line =>
                  exists col_name col_type rest,
                    col = col_name :: col_type :: rest
                    /\ line = column_line col_name col_type)
         (rs_rows rs) schema_info.
Proof.
  intros Hc Hr Hs Ha Hrows.
  destruct (schema_lines_ok _ Hrows) as [lines [H1 [H2 H4]]].
  exists lines. eexists. rewrite (get_table_schema_fetch _ _ Hc Hr Hs).
  cbv zeta. rewrite Ha, H1. repeat split; assumption.
Qed.

Lemma get_table_schema_renders_witness :
  let rs := ResultSet [py "col_name"; py "data_type"; py "comment"]
              two_columns in
  let lines := [py "  - col1: string"; py "  - col2: int"] in
  describe_answer openai_world test_assistant (history test_state) = inr rs
  /\ fst (get_table_schema openai_world test_state) = inr (join nl lines)
  /\ exists schema_info st1,
       get_table_schema openai_world test_state
       = (inr (join nl schema_info), st1)
       /\ length schema_info = 2.
Proof.
  intros rs lines.
  assert (describe_answer openai_world test_assistant (history test_state)
          = inr rs) as Ha by reflexivity.
  split; [exact Ha|]. split; [vm_compute; reflexivity|].
  destruct (get_table_schema_renders openai_world test_state rs
              eq_refl eq_refl eq_refl Ha eq_refl)
    as [info [st1 [H1 [_ [H3 _]]]]].
  exists info, st1. auto.
Defined.

(** X16.  When a row of the DESCRIBE answer has fewer than two cells,
    [get_table_schema] raises [IndexError] after the statement was sent, and
    stores nothing: the instance is as it was, so the next call asks the
    warehouse again. *)
Theorem get_table_schema_short_row W st rs :
  truthy (_table_schema (self st)) = false ->
  connection_ready (self st) = true ->
  sql_connect W (history st ++ [connect_event (self st)]) = None ->
  describe_answer W (self st) (history st) = inr rs ->
  forallb has_two_cells (rs_rows rs) = false ->
  get_table_schema W st
  = (inl (Exn IndexError (py "tuple index out of range")),
     State (self st)
       (history st ++ [connect_event (self st); describe_event (self st)])).
Proof.
  intros Hc Hr Hs Ha Hrows.
  rewrite (get_table_schema_fetch _ _ Hc Hr Hs). cbv zeta.
  rewrite Ha, (schema_lines_short _ Hrows). reflexivity.
Qed.

Lemma get_table_schema_short_row_witness :
  let out := get_table_schema short_row_world test_state in
  fst out = inl (Exn IndexError (py "tuple index out of range"))
  /\ self (snd out) = test_assistant
  /\ describe_calls (history (snd out)) = 1
  /\ describe_calls
       (history (snd (get_table_schema short_row_world (snd out)))) = 2.
Proof.
  intros out.
  assert (out = (inl (Exn IndexError (py "tuple index out of range")),
                 State (self test_state)
                   (history test_state
                    ++ [connect_event (self test_state);
                        describe_event (self test_state)]))) as H.
  { apply (get_table_schema_short_row short_row_world test_state
             (ResultSet [py "col_name"; py "data_type"; py "comment"]
                [[VStr (py "col1"); VStr (py "string")]; [VStr (py "col2")]]));
      reflexivity. }
  rewrite H. repeat split; vm_compute; reflexivity.
Defined.

(** X17.  A schema that cannot be fetched is not cached.  With nothing in
    the cache, [get_table_schema] raises, and leaves the instance as it was,
    in each of these cases:
    - the host name, the HTTP path or the access token is unset or empty:
      it raises the configuration error and makes no call;
    - the warehouse refuses the connection: it raises that error after the
      one connection call, and sends no statement;
    - the warehouse refuses the DESCRIBE: it raises after the connection
      call and the statement.
    In the last case the cursor and the connection are released on the way
    out, which is not followed here and may raise in its turn: the statement
    says that an error is raised, not which one reaches the caller. *)
Theorem get_table_schema_failure W st :
  truthy (_table_schema (self st)) = false ->
  (setting_missing (server_hostname (self st))
   \/ setting_missing (http_path (self st))
   \/ setting_missing (access_token (self st)) ->
   get_table_schema W st
   = (inl (Exn ValueError
             (py "Databricks configuration incomplete. Check environment variables.")),
      st))
  /\ (forall e,
        connection_ready (self st) = true ->
        sql_connect W (history st ++ [connect_event (self st)]) = Some e ->
        get_table_schema W st
        = (inl e, State (self st) (history st ++ [connect_event (self st)])))
  /\ (forall e,
        connection_ready (self st) = true ->
        sql_connect W (history st ++ [connect_event (self st)]) = None ->
        describe_answer W (self st) (history st) = inl e ->
        exists e',
          get_table_schema W st
          = (inl e',
             State (self st)
               (history st
                ++ [connect_event (self st); describe_event (self st)]))).
Proof.
  intros Hc. split; [|split].
  - intros H. apply connection_ready_false_iff in H.
    rewrite get_table_schema_unfold, Hc, get_databricks_connection_unfold, H.
    reflexivity.
  - intros e Hr Hs.
    rewrite get_table_schema_unfold, Hc, get_databricks_connection_unfold, Hr.
    cbv zeta. rewrite Hs. reflexivity.
  - intros e Hr Hs Ha. exists e.
    rewrite (get_table_schema_fetch _ _ Hc Hr Hs). cbv zeta. rewrite Ha.
    reflexivity.
Qed.

Lemma get_table_schema_failure_witness :
  get_table_schema unconfigured_world unconfigured_state
  = (inl (Exn ValueError
            (py "Databricks configuration incomplete. Check environment variables.")),
     unconfigured_state)
  /\ get_table_schema unreachable_world test_state
     = (inl (Exn OtherException (py "connection refused")),
        State test_assistant
          (history test_state
           ++ [SqlConnect (py "test.databricks.com")
                 (py "/sql/1.0/warehouses/test") (py "test-token")]))
  /\ exists e',
       get_table_schema missing_table_world test_state
       = (inl e',
          State test_assistant
            (history test_state
             ++ [SqlConnect (py "test.databricks.com")
                   (py "/sql/1.0/warehouses/test") (py "test-token");
                 CursorExecute
                   (py "DESCRIBE TABLE test_catalog.test_schema.test_table")])).
Proof.
  split; [|split].
  - apply (proj1 (get_table_schema_failure unconfigured_world
                    unconfigured_state eq_refl)).
    left. left. reflexivity.
  - etransitivity.
    + apply (proj1 (proj2 (get_table_schema_failure unreachable_world
                             test_state eq_refl))
               (Exn OtherException (py "connection refused")));
        reflexivity.
    + reflexivity.
  - destruct (proj2 (proj2 (get_table_schema_failure missing_table_world
                              test_state eq_refl))
                (Exn OtherException (py "TABLE_OR_VIEW_NOT_FOUND"))
                eq_refl eq_refl eq_refl) as [e' H].
    exists e'. rewrite H. reflexivity.
Defined.

(** ** The constructor *)

(** X18.  Construction succeeds in two cases only: the selected provider is
    [openai] and OPENAI_API_KEY is set and not empty, or it is [gemini] and
    GEMINI_API_KEY is set and not empty.  Nothing else is checked: neither
    the warehouse settings nor the table names. *)
Theorem init_succeeds_iff W arg h :
  (exists a h', init W arg h = (inr a, h')) <->
  (select_provider W arg = py "openai"
   /\ truthy (getenv W "OPENAI_API_KEY") = true)
  \/ (select_provider W arg = py "gemini"
      /\ truthy (getenv W "GEMINI_API_KEY") = true).
Proof.
  unfold init.
  destruct (str_eqb (select_provider W arg) (py "openai")) eqn:E1.
  - apply str_eqb_eq in E1. rewrite E1.
    destruct (truthy (getenv W "OPENAI_API_KEY")); simpl; split.
    + auto.
    + intros _. eauto.
    + intros [a [h' H]]. discriminate.
    + intros [[_ H]|[H _]]; discriminate.
  - destruct (str_eqb (select_provider W arg) (py "gemini")) eqn:E2.
    + apply str_eqb_eq in E2. rewrite E2.
      destruct (truthy (getenv W "GEMINI_API_KEY")); simpl; split.
      * auto.
      * intros _. eauto.
      * intros [a [h' H]]. discriminate.
      * intros [[H _]|[_ H]]; discriminate.
    + split.
      * intros [a [h' H]]. discriminate.
      * intros [[H _]|[H _]]; rewrite H, str_eqb_refl in *; discriminate.
Qed.

(** X19.  What a successful construction gives: an instance with an empty
    schema cache, the selected provider, the six warehouse and table
    settings as the environment has them (unset ones stay [None]), and the
    attribute its provider's adapter needs, the model being [gpt-4] or
    [gemini-pro] when the environment names none; the only calls made are
    the settings of the provider's client, none over the network. *)
Theorem init_result W arg h a h' :
  init W arg h = (inr a, h') ->
  dispatchable a
  /\ _table_schema a = None
  /\ llm_provider a = select_provider W arg
  /\ server_hostname a = getenv W "DATABRICKS_SERVER_HOSTNAME"
  /\ http_path a = getenv W "DATABRICKS_HTTP_PATH"
  /\ access_token a = getenv W "DATABRICKS_ACCESS_TOKEN"
  /\ catalog_name a = getenv W "CATALOG_NAME"
  /\ schema_name a = getenv W "SCHEMA_NAME"
  /\ table_name a = getenv W "TABLE_NAME"
  /\ (llm_provider a = py "openai" ->
      openai_model a = Some (getenv_default W "OPENAI_MODEL" "gpt-4")
      /\ truthy (openai_api_key a) = true
      /\ h' = h ++ [OpenAISetKey (format_opt (openai_api_key a))])
  /\ (llm_provider a = py "gemini" ->
      gemini_model a = Some (getenv_default W "GEMINI_MODEL" "gemini-pro")
      /\ truthy (gemini_api_key a) = true
      /\ h' = h ++ [GenaiConfigure (format_opt (gemini_api_key a));
                    GenaiModel (getenv_default W "GEMINI_MODEL" "gemini-pro")]).
Proof.
  unfold init.
  destruct (str_eqb (select_provider W arg) (py "openai")) eqn:E1.
  - apply str_eqb_eq in E1.
    destruct (truthy (getenv W "OPENAI_API_KEY")) eqn:Hk; simpl;
      [|discriminate].
    intros H. injection H as <- <-. cbn [llm_provider _table_schema
      server_hostname http_path access_token catalog_name schema_name
      table_name openai_model openai_api_key gemini_model gemini_api_key].
    split; [left; split; [exact E1 | discriminate]|].
    do 8 (split; [reflexivity|]). split.
    + intros _. repeat split. exact Hk.
    + intros Hg. rewrite E1 in Hg. vm_compute in Hg. discriminate.
  - destruct (str_eqb (select_provider W arg) (py "gemini")) eqn:E2;
      [|discriminate].
    apply str_eqb_eq in E2.
    destruct (truthy (getenv W "GEMINI_API_KEY")) eqn:Hk; simpl;
      [|discriminate].
    intros H. injection H as <- <-. cbn [llm_provider _table_schema
      server_hostname http_path access_token catalog_name schema_name
      table_name openai_model openai_api_key gemini_model gemini_api_key].
    split; [right; split; [exact E2 | discriminate]|].
    do 8 (split; [reflexivity|]). split.
    + intros Hg. rewrite E2 in Hg. vm_compute in Hg. discriminate.
    + intros _. repeat split. exact Hk.
Qed.

Lemma init_result_witness :
  init gemini_world (Some (py "gemini")) [] =
  (inr gemini_assistant,
   [GenaiConfigure (py "test-key"); GenaiModel (py "gemini-pro")])
  /\ dispatchable gemini_assistant
  /\ _table_schema gemini_assistant = None.
Proof.
  assert (init gemini_world (Some (py "gemini")) [] =
          (inr gemini_assistant,
           [GenaiConfigure (py "test-key"); GenaiModel (py "gemini-pro")]))
    as H by (vm_compute; reflexivity).
  split; [exact H|].
  destruct (init_result gemini_world (Some (py "gemini")) [] _ _ H)
    as [Hd [Hc _]].
  split; assumption.
Defined.

(** X20.  The provider argument wins over the environment when it is a
    non-empty string; an argument that is [None] or empty falls back to
    LLM_PROVIDER and, when that is unset, to [openai].  An LLM_PROVIDER that
    is set but empty is not replaced by the default: construction then
    raises the unsupported-provider error with an empty name. *)
Theorem select_provider_precedence W arg :
  (forall p, arg = Some p -> p <> [] -> select_provider W arg = p)
  /\ (setting_missing arg ->
      select_provider W arg
      = match getenv W "LLM_PROVIDER" with
        | Some v => v
        | None => py "openai"
        end)
  /\ (setting_missing arg -> getenv W "LLM_PROVIDER" = Some [] ->
      forall h, init W arg h = (inl (unsupported_provider []), h)).
Proof.
  assert (setting_missing arg ->
          select_provider W arg
          = match getenv W "LLM_PROVIDER" with
            | Some v => v
            | None => py "openai"
            end) as Hmiss.
  { intros H. apply truthy_false_iff in H. unfold select_provider.
    rewrite H. reflexivity. }
  split; [|split; [exact Hmiss|]].
  - intros p -> Hp. unfold select_provider. destruct p; [congruence|].
    reflexivity.
  - intros H He h. unfold init. rewrite (Hmiss H), He. reflexivity.
Qed.

Example select_provider_examples :
  select_provider gemini_world (Some (py "gemini")) = py "gemini"
  /\ select_provider gemini_world (Some []) = py "openai"
  /\ select_provider gemini_world None = py "openai"
  /\ select_provider openai_world None = py "openai"
  /\ init empty_provider_world None []
     = (inl (Exn ValueError (py "Unsupported LLM provider: ")), []).
Proof. repeat split. Qed.

(** A successful provider dispatch needs nothing but the settings. *)
Lemma dispatchable_same_settings a b :
  same_settings a b -> dispatchable a -> dispatchable b.
Proof. intros [c ->] H. exact H. Qed.

(** X21.  On an instance the constructor built, or any instance with a
    known provider and its adapter's attribute, [natural_language_to_sql]
    fails only because the schema fetch failed (that error is raised as it
    is) or because the one call to the instance's own provider failed (that
    error is raised wrapped): the unsupported-provider error cannot
    occur. *)
Theorem natural_language_to_sql_failure W q st e st' :
  dispatchable (self st) ->
  natural_language_to_sql W q st = (inl e, st') ->
  get_table_schema W st = (inl e, st')
  \/ (llm_provider (self st) = py "openai"
      /\ exists cause,
           chat_completions_create W (history st') = inl cause
           /\ e = openai_error cause)
  \/ (llm_provider (self st) = py "gemini"
      /\ exists cause,
           generate_content W (history st') = inl cause
           /\ e = gemini_error cause).
Proof.
  intros Hd. rewrite natural_language_to_sql_unfold, generate_sql_prompt_unfold.
  pose proof (get_table_schema_settings W st) as Hs.
  destruct (get_table_schema W st) as [[e0|t] st1]; simpl in Hs.
  - intros H. injection H as <- <-. auto.
  - pose proof (dispatchable_same_settings _ _ Hs Hd) as Hd1.
    destruct Hs as [c Hc].
    assert (llm_provider (self st1) = llm_provider (self st)) as Hp
      by (rewrite Hc; reflexivity).
    destruct Hd1 as [[Ho Hm]|[Hg Hm]].
    + rewrite Ho, str_eqb_refl, generate_sql_with_openai_unfold.
      destruct (openai_model (self st1)); [|congruence].
      cbv zeta. destruct (chat_completions_create W _) as [cause|x] eqn:Hc';
        [|discriminate].
      intros H. injection H as <- <-. right. left.
      split; [congruence|]. exists cause. auto.
    + rewrite Hg. change (str_eqb (py "gemini") (py "openai")) with false.
      rewrite str_eqb_refl, generate_sql_with_gemini_unfold.
      destruct (gemini_client (self st1)); [|congruence].
      cbv zeta. destruct (generate_content W _) as [cause|x] eqn:Hc';
        [|discriminate].
      intros H. injection H as <- <-. right. right.
      split; [congruence|]. exists cause. auto.
Qed.

Lemma natural_language_to_sql_failure_witness :
  let out := natural_language_to_sql rate_limited_world (py "count rows")
               test_state in
  dispatchable (self test_state)
  /\ fst out
     = inl (Exn ValueError
              (py "OpenAI rate limit exceeded. Please try again later: Error code: 429"))
  /\ (get_table_schema rate_limited_world test_state
      = (inl (Exn ValueError
                (py "OpenAI rate limit exceeded. Please try again later: Error code: 429")),
         snd out)
      \/ (llm_provider (self test_state) = py "openai"
          /\ exists cause,
               chat_completions_create rate_limited_world (history (snd out))
               = inl cause
               /\ Exn ValueError
                    (py "OpenAI rate limit exceeded. Please try again later: Error code: 429")
                  = openai_error cause)
      \/ (llm_provider (self test_state) = py "gemini"
          /\ exists cause,
               generate_content rate_limited_world (history (snd out))
               = inl cause
               /\ Exn ValueError
                    (py "OpenAI rate limit exceeded. Please try again later: Error code: 429")
                  = gemini_error cause)).
Proof.
  intros out.
  assert (dispatchable (self test_state)) as Hd
    by (left; split; [reflexivity | discriminate]).
  assert (out = (inl (Exn ValueError
                        (py "OpenAI rate limit exceeded. Please try again later: Error code: 429")),
                 snd out)) as H by (vm_compute; reflexivity).
  split; [exact Hd|]. split; [rewrite H; reflexivity|].
  exact (natural_language_to_sql_failure rate_limited_world (py "count rows")
           test_state _ _ Hd H).
Defined.

(** ** Rows as dictionaries *)

Lemma str_eqb_sym a b : str_eqb a b = str_eqb b a.
Proof.
  destruct (str_eqb a b) eqn:E1; destruct (str_eqb b a) eqn:E2;
    try reflexivity.
  - apply str_eqb_eq in E1. subst. rewrite str_eqb_refl in E2. discriminate.
  - apply str_eqb_eq in E2. subst. rewrite str_eqb_refl in E1. discriminate.
Qed.

Lemma get_set_item {V} k k' (v : V) d :
  PyDict.get k' (PyDict.set_item k v d)
  = if str_eqb k' k then Some v else PyDict.get k' d.
Proof.
  induction d as [|[x y] d IH]; simpl.
  - reflexivity.
  - destruct (str_eqb k x) eqn:E; simpl.
    + apply str_eqb_eq in E. subst x.
      destruct (str_eqb k' k); reflexivity.
    + rewrite IH. destruct (str_eqb k' x) eqn:E'; [|reflexivity].
      apply str_eqb_eq in E'. subst x.
      rewrite str_eqb_sym, E. reflexivity.
Qed.

Lemma get_app {V} k (a b : PyDict.dict V) :
  PyDict.get k (a ++ b)
  = match PyDict.get k a with
    | Some v => Some v
    | None => PyDict.get k b
    end.
Proof.
  induction a as [|[x y] a IH]; simpl; [reflexivity|].
  destruct (str_eqb k x); [reflexivity | exact IH].
Qed.

Lemma keys_set_item {V} k (v : V) d :
  PyDict.keys (PyDict.set_item k v d)
  = if existsb (str_eqb k) (PyDict.keys d)
    then PyDict.keys d
    else PyDict.keys d ++ [k].
Proof.
  unfold PyDict.keys. induction d as [|[x y] d IH]; simpl; [reflexivity|].
  destruct (str_eqb k x); simpl; [reflexivity|].
  rewrite IH. destruct (existsb (str_eqb k) (map fst d)); reflexivity.
Qed.

Lemma existsb_str_eqb_In k l : existsb (str_eqb k) l = true <-> In k l.
Proof.
  rewrite existsb_exists. split.
  - intros [x [Hx E]]. apply str_eqb_eq in E. subst. exact Hx.
  - intros H. exists k. split; [exact H | apply str_eqb_refl].
Qed.

Lemma keys_set_item_nodup {V} k (v : V) d :
  NoDup (PyDict.keys d) -> NoDup (PyDict.keys (PyDict.set_item k v d)).
Proof.
  intros H. rewrite keys_set_item.
  destruct (existsb (str_eqb k) (PyDict.keys d)) eqn:E; [exact H|].
  apply NoDup_app; [exact H | repeat constructor; intros [] |].
  intros x Hx [Hk|[]]. subst x.
  assert (existsb (str_eqb k) (PyDict.keys d) = true) as Ht
    by (apply existsb_str_eqb_In; exact Hx).
  congruence.
Qed.

Lemma fold_set_item_spec {V} (pairs : list (str * V)) acc :
  let d := fold_left (fun d kv => PyDict.set_item (fst kv) (snd kv) d)
             pairs acc in
  (NoDup (PyDict.keys acc) -> NoDup (PyDict.keys d))
  /\ (forall k, PyDict.get k d
                = match PyDict.get k (rev pairs) with
                  | Some v => Some v
                  | None => PyDict.get k acc
                  end)
  /\ (forall k, In k (PyDict.keys d) ->
                In k (PyDict.keys acc) \/ In k (map fst pairs)).
Proof.
  revert acc. induction pairs as [|[x y] pairs IH]; intros acc; simpl.
  - repeat split; auto.
  - destruct (IH (PyDict.set_item x y acc)) as [H1 [H2 H3]].
    simpl in H1, H2, H3. split; [|split].
    + intros Hn. apply H1. apply keys_set_item_nodup. exact Hn.
    + intros k. rewrite H2, get_app, get_set_item. simpl.
      destruct (PyDict.get k (rev pairs)); [reflexivity|].
      destruct (str_eqb k x); reflexivity.
    + intros k Hk. destruct (H3 k Hk) as [Ha|Hp]; [|auto].
      rewrite keys_set_item in Ha.
      destruct (existsb (str_eqb x) (PyDict.keys acc)); [auto|].
      apply in_app_or in Ha. destruct Ha as [Ha|[<-|[]]]; auto.
Qed.

Lemma fold_set_item_distinct {V} (pairs : list (str * V)) acc :
  NoDup (PyDict.keys acc ++ map fst pairs) ->
  fold_left (fun d kv => PyDict.set_item (fst kv) (snd kv) d) pairs acc
  = acc ++ pairs.
Proof.
  revert acc. induction pairs as [|[x y] pairs IH]; intros acc; simpl.
  - intros _. symmetry. apply app_nil_r.
  - intros Hn.
    assert (PyDict.set_item x y acc = acc ++ [(x, y)]) as Hs.
    { apply NoDup_remove_2 in Hn.
      assert (~ In x (PyDict.keys acc)) as Hx
        by (intros Hin; apply Hn; apply in_or_app; auto).
      clear - Hx. induction acc as [|[a b] acc IHa]; simpl; [reflexivity|].
      destruct (str_eqb x a) eqn:E.
      - apply str_eqb_eq in E. subst a. exfalso. apply Hx. simpl. auto.
      - rewrite IHa; [reflexivity|]. intros Hin. apply Hx. simpl. auto. }
    rewrite Hs, IH.
    + rewrite <- app_assoc. reflexivity.
    + unfold PyDict.keys in *. rewrite map_app, <- app_assoc. simpl.
      exact Hn.
Qed.

(** X22.  With column names that are all different, every result row of
    [execute_sql] is the sequence of its cells under their column names, in
    the order of the columns and cut to the shorter of the two: the cell at
    the position of a column is what the dictionary holds under that
    column's name. *)
Theorem row_dict_distinct columns row :
  NoDup columns ->
  row_dict columns row = combine columns row
  /\ PyDict.keys (row_dict columns row) = firstn (length row) columns
  /\ (forall i c v,
        nth_error columns i = Some c -> nth_error row i = Some v ->
        PyDict.get c (row_dict columns row) = Some v).
Proof.
  intros Hn.
  assert (map fst (combine columns row) = firstn (length row) columns) as Hk.
  { clear Hn. revert row. induction columns as [|c cs IH]; intros [|v row];
      simpl; try reflexivity. rewrite IH. reflexivity. }
  assert (row_dict columns row = combine columns row) as Hd.
  { unfold row_dict, PyDict.of_pairs.
    rewrite fold_set_item_distinct; [reflexivity|].
    simpl. rewrite Hk. clear Hk. revert row.
    induction Hn as [|c cs Hc Hn IH]; intros row.
    - destruct row; constructor.
    - destruct row as [|v row]; simpl; [constructor|].
      constructor; [|apply IH].
      intros Hin. apply Hc. revert Hin. clear.
      revert row. induction cs as [|x cs IH]; intros [|v row]; simpl;
        try tauto. intros [H|H]; [auto|]. right. eapply IH. exact H. }
  split; [exact Hd|]. split; [rewrite Hd; exact Hk|].
  rewrite Hd. clear Hd Hk. revert row.
  induction Hn as [|c0 cs Hc Hn IH]; intros row i c v Hi Hv.
  - destruct i; discriminate.
  - destruct row as [|v0 row]; [destruct i; discriminate|].
    destruct i as [|i]; simpl in *.
    + injection Hi as <-. injection Hv as <-. rewrite str_eqb_refl.
      reflexivity.
    + destruct (str_eqb c c0) eqn:E.
      * apply str_eqb_eq in E. subst c0. exfalso. apply Hc.
        eapply nth_error_In. exact Hi.
      * eapply IH; eassumption.
Qed.

Lemma row_dict_distinct_witness :
  let columns := [py "id"; py "name"; py "qty"] in
  let row := [VInt 7; VStr (py "bolt"); VInt 30] in
  NoDup columns
  /\ row_dict columns row
     = [(py "id", VInt 7); (py "name", VStr (py "bolt")); (py "qty", VInt 30)]
  /\ PyDict.get (py "name") (row_dict columns row) = Some (VStr (py "bolt")).
Proof.
  intros columns row.
  assert (NoDup columns) as Hn.
  { repeat constructor; simpl; intros H;
      repeat (destruct H as [H|H]; [discriminate|]); exact H. }
  destruct (row_dict_distinct columns row Hn) as [H1 [_ H3]].
  split; [exact Hn|]. split; [rewrite H1; reflexivity|].
  apply (H3 1 (py "name") (VStr (py "bolt"))); reflexivity.
Defined.

(** X23.  Whatever the column names, a result row never holds a name
    twice; every name it holds is a column name; and when a name occurs
    several times among the columns, the value kept for it is the cell of
    its last occurrence. *)
Theorem row_dict_repeated_columns columns row :
  NoDup (PyDict.keys (row_dict columns row))
  /\ (forall c, In c (PyDict.keys (row_dict columns row)) -> In c columns)
  /\ (forall c, PyDict.get c (row_dict columns row)
                = PyDict.get c (rev (combine columns row))).
Proof.
  unfold row_dict, PyDict.of_pairs.
  destruct (fold_set_item_spec (combine columns row) []) as [H1 [H2 H3]].
  split; [apply H1; constructor|]. split.
  - intros c Hc. destruct (H3 c Hc) as [[]|H].
    apply in_map_iff in H. destruct H as [[x y] [<- Hin]].
    apply in_combine_l in Hin. exact Hin.
  - intros c. rewrite H2.
    destruct (PyDict.get c (rev (combine columns row))); reflexivity.
Qed.

Example row_dict_repeated_example :
  row_dict [py "a"; py "b"; py "a"] [VInt 1; VInt 2; VInt 3]
  = [(py "a", VInt 3); (py "b", VInt 2)].
Proof. reflexivity. Qed.

(** ** The interactive loop *)

Lemma isspace_range c : isspace c = true -> (c <= 32 \/ 133 <= c)%N.
Proof.
  unfold isspace. intros H.
  repeat (rewrite ?orb_true_iff, ?andb_true_iff, ?N.leb_le, ?N.eqb_eq in H).
  lia.
Qed.

(** A character that lower-cases to a letter is no white space. *)
Lemma letter_no_space c :
  (97 <= ascii_lower c <= 122)%N -> isspace c = false.
Proof.
  intros H. destruct (isspace c) eqn:E; [|reflexivity].
  apply isspace_range in E. unfold ascii_lower in H.
  destruct ((65 <=? c) && (c <=? 90))%N eqn:Hc.
  - apply andb_true_iff in Hc. destruct Hc as [H1 H2].
    apply N.leb_le in H1, H2. lia.
  - lia.
Qed.

Lemma strip_no_space w :
  forallb (fun c => negb (isspace c)) w = true -> strip w = w.
Proof.
  intros H.
  assert (forall v, forallb (fun c => negb (isspace c)) v = true ->
                    lstrip v = v) as Hl.
  { intros [|c v]; simpl; [reflexivity|]. intros Hv.
    apply andb_true_iff in Hv. destruct Hv as [Hc _].
    apply negb_true_iff in Hc. rewrite Hc. reflexivity. }
  unfold strip, rstrip. rewrite (Hl w H), Hl; [apply rev_involutive|].
  rewrite forallb_forall in *. intros x Hx. apply H. apply in_rev. exact Hx.
Qed.

Lemma exit_word_letters w :
  In (map ascii_lower w) exit_words ->
  forallb (fun c => negb (isspace c)) w = true.
Proof.
  intros Hin. apply forallb_forall. intros c Hc.
  apply negb_true_iff. apply letter_no_space.
  assert (In (ascii_lower c) (map ascii_lower w)) as Hl
    by (apply in_map; exact Hc).
  unfold exit_words in Hin. cbn in Hin.
  destruct Hin as [H|[H|[H|[]]]]; rewrite <- H in Hl; cbn in Hl;
    repeat (destruct Hl as [<-|Hl]; [lia|]); contradiction.
Qed.

(** X24.  The words [exit], [quit] and [q], typed in any letter case and
    with any white space around them, end the session at once: the loop
    says goodbye and returns without a call to a provider or to the
    warehouse, leaving the instance as it is and the rest of the input
    unread. *)
Theorem interactive_exit W R ws1 w ws2 rest st out :
  forallb isspace ws1 = true ->
  forallb isspace ws2 = true ->
  forallb is_ascii w = true ->
  In (map ascii_lower w) exit_words ->
  interactive W R ((ws1 ++ w ++ ws2) :: rest) st out
  = (inr tt, st, Console rest (out ++ [question_prompt; py "Goodbye!"])).
Proof.
  intros H1 H2 Ha Hin.
  assert (strip (ws1 ++ w ++ ws2) = w) as Hs.
  { rewrite strip_pad by assumption. apply strip_no_space.
    apply exit_word_letters. exact Hin. }
  cbn [interactive]. rewrite Hs. unfold lower. rewrite Ha.
  assert (existsb (str_eqb (map ascii_lower w)) exit_words = true) as He
    by (apply existsb_str_eqb_In; exact Hin).
  rewrite He, <- app_assoc. reflexivity.
Qed.

Lemma interactive_exit_witness :
  let line := py "  QuIt " ++ nl in
  interactive openai_world plain_runtime [line; py "count rows"] test_state []
  = (inr tt, test_state,
     Console [py "count rows"] [question_prompt; py "Goodbye!"]).
Proof.
  intros line.
  apply (interactive_exit openai_world plain_runtime (py "  ") (py "QuIt")
           (py " " ++ nl) [py "count rows"] test_state []);
    try reflexivity.
  unfold exit_words. cbn. tauto.
Defined.

(** X25.  A line that is empty or white space only is no question: the
    loop asks again, with no call made and nothing changed but the prompt
    written once more. *)
Theorem interactive_blank W R line rest st out :
  forallb isspace line = true ->
  interactive W R (line :: rest) st out
  = interactive W R rest st (out ++ [question_prompt]).
Proof.
  intros H.
  assert (strip line = []) as Hs.
  { unfold strip. rewrite (lstrip_all_spaces _ H). reflexivity. }
  cbn [interactive]. rewrite Hs. reflexivity.
Qed.

Lemma interactive_blank_witness :
  interactive openai_world plain_runtime [py "   "; py "q"] test_state []
  = (inr tt, test_state,
     Console [] [question_prompt; question_prompt; py "Goodbye!"]).
Proof.
  etransitivity.
  - apply (interactive_blank openai_world plain_runtime (py "   ") [py "q"]
             test_state []). reflexivity.
  - reflexivity.
Defined.

(** The loop relates the state it starts in to the state it ends in by any
    relation that is reflexive and transitive and holds across a query
    without execution, provided it also holds across a query with execution
    wherever a line answers yes. *)
Section Loop.

Variables (W : World) (R : Runtime).

Variable related : state -> state -> Prop.

Hypothesis related_refl : forall st, related st st.

Hypothesis related_trans :
  forall st1 st2 st3, related st1 st2 -> related st2 st3 -> related st1 st3.

Hypothesis related_plain :
  forall q st, related st (snd (query W q false st)).

Lemma run_examples_related queries : forall i st out,
  related st (fst (run_examples W R i queries st out)).
Proof.
  induction queries as [|q queries IH]; intros i st out; simpl;
    [apply related_refl|].
  pose proof (related_plain q st) as Hq.
  destruct (query W q false st) as [[e|result] st1]; simpl in Hq.
  - eapply related_trans; [exact Hq | apply IH].
  - destruct (getitem (py "sql_query") result);
      (eapply related_trans; [exact Hq | apply IH]).
Qed.

Lemma interactive_related lines :
  (forall line, In line lines -> says_yes R line = true ->
     forall q st, related st (snd (query W q true st))) ->
  forall st out, related st (snd (fst (interactive W R lines st out))).
Proof.
  remember (length lines) as n eqn:Hn. revert lines Hn.
  induction n as [n IH] using lt_wf_ind. intros lines Hn Hyes st out.
  destruct lines as [|line rest]; [apply related_refl|].
  assert (forall st' out', related st'
            (snd (fst (interactive W R rest st' out')))) as IHrest.
  { intros st' out'. apply (IH (length rest)); [subst n; simpl; lia | reflexivity |].
    intros l Hl. apply Hyes. right. exact Hl. }
  cbn [interactive].
  destruct (existsb (str_eqb (lower R (strip line))) exit_words);
    [apply related_refl|].
  destruct (strip line) as [|c u]; [apply IHrest|].
  pose proof (related_plain (c :: u) st) as Hq.
  destruct (query W (c :: u) false st) as [[e|result] st1]; simpl in Hq;
    [eapply related_trans; [exact Hq | apply IHrest]|].
  destruct (getitem (py "sql_query") result) as [e|sql];
    [eapply related_trans; [exact Hq | apply IHrest]|].
  destruct rest as [|answer rest'];
    [eapply related_trans; [exact Hq | apply IHrest]|].
  assert (forall st' out', related st'
            (snd (fst (interactive W R rest' st' out')))) as IHrest'.
  { intros st' out'.
    apply (IH (length rest')); [subst n; simpl; lia | reflexivity |].
    intros l Hl. apply Hyes. right. right. exact Hl. }
  destruct (str_eqb (lower R (strip answer)) (py "y")) eqn:Hy;
    [|eapply related_trans; [exact Hq | apply IHrest']].
  assert (related st1 (snd (query W (c :: u) true st1))) as Hq2
    by (apply (Hyes answer); [right; left; reflexivity | exact Hy]).
  destruct (query W (c :: u) true st1) as [[e|result2] st2]; simpl in Hq2.
  - eapply related_trans; [exact Hq|].
    eapply related_trans; [exact Hq2 | apply IHrest'].
  - destruct (report R result2 _) as [[e|x] out3];
      (eapply related_trans; [exact Hq|];
       eapply related_trans; [exact Hq2 | apply IHrest']).
Qed.

End Loop.

Lemma init_history W arg h :
  exists added,
    snd (init W arg h) = h ++ added
    /\ forallb (fun e => negb (is_statement e)) added = true.
Proof.
  destruct (init_no_network W arg h) as [added [H1 H2]].
  exists added. split; [exact H1|].
  rewrite forallb_forall in *. intros e He. specialize (H2 e He).
  destruct e; simpl in *; congruence.
Qed.

(** The calls of a whole run of [main], for a kind of call as in the
    generation and a run in which every answer of yes leads to allowed calls
    only. *)
Lemma main_history allowed W R h lines :
  (forall a cache e, allowed (set_table_schema cache a) e = allowed a e) ->
  (forall a e, is_statement e = false -> allowed a e = true) ->
  (forall a, allowed a (describe_event a) = true) ->
  (forall line, In line lines -> says_yes R line = true ->
     forall q st, footprint_by allowed st (snd (query W q true st))) ->
  match init W None h with
  | (inl e, h1) => snd (fst (main W R h lines)) = h
  | (inr a, h1) =>
      exists added,
        snd (fst (main W R h lines)) = h1 ++ added
        /\ forallb (allowed a) added = true
  end.
Proof.
  intros Hset Hother Hdesc Hyes. unfold main.
  destruct (init_history W None h) as [added0 [Hh0 _]].
  destruct (init W None h) as [[e|a] h1] eqn:Hi; simpl in Hh0.
  - simpl. unfold init in Hi.
    destruct (str_eqb (select_provider W None) (py "openai")).
    + destruct (negb (truthy (getenv W "OPENAI_API_KEY")));
        inversion Hi; reflexivity.
    + destruct (str_eqb (select_provider W None) (py "gemini")).
      * destruct (negb (truthy (getenv W "GEMINI_API_KEY")));
          inversion Hi; reflexivity.
      * inversion Hi. reflexivity.
  - set (rel := footprint_by allowed).
    assert (forall q st, rel st (snd (query W q false st))) as Hplain.
    { intros q st. unfold rel. rewrite query_unfold.
      pose proof (natural_language_to_sql_footprint allowed Hset Hother
                    Hdesc W q st) as H.
      destruct (natural_language_to_sql W q st) as [[e|sql] st1]; exact H. }
    pose proof (run_examples_related W R rel (footprint_by_refl allowed)
                  (footprint_by_trans allowed Hset) Hplain example_queries 1
                  (State a h1)) as Hex.
    match goal with
    | |- context [run_examples W R 1 example_queries (State a h1) ?o] =>
        specialize (Hex o);
        destruct (run_examples W R 1 example_queries (State a h1) o)
          as [st1 out2]
    end.
    simpl in Hex.
    match goal with
    | |- context [interactive W R lines st1 ?o] =>
        pose proof (interactive_related W R rel (footprint_by_refl allowed)
                      (footprint_by_trans allowed Hset) Hplain lines Hyes
                      st1 o) as Hin;
        destruct (interactive W R lines st1 o) as [[res st2] c]
    end.
    simpl in Hin. simpl.
    destruct (footprint_by_trans allowed Hset _ _ _ Hex Hin)
      as [_ [added [Hh Hp]]].
    exists added. simpl in Hh, Hp. auto.
Qed.

(** X26.  Whatever is typed, a run of [main] only adds calls to the
    history, and every statement it has a cursor execute is the DESCRIBE of
    the configured table or a statement that passed the gate. *)
Theorem main_executes_only_validated W R h lines :
  exists added,
    snd (fst (main W R h lines)) = h ++ added
    /\ forall op, In (CursorExecute op) added ->
         (exists a h1, init W None h = (inr a, h1)
                       /\ op = describe_statement a)
         \/ validate_sql_query (unicode_upper W) op = inr true.
Proof.
  set (up := unicode_upper W).
  pose proof (main_history (permitted up) W R h lines
                (permitted_settings up) (permitted_other up)
                (permitted_describe up)
                (fun _ _ _ q st => query_footprint W q true st)) as H.
  destruct (init_history W None h) as [added0 [Hh0 Hs0]].
  destruct (init W None h) as [[e|a] h1]; simpl in Hh0.
  - exists []. rewrite app_nil_r. split; [exact H|]. intros op [].
  - destruct H as [added [Hh Hp]]. exists (added0 ++ added).
    rewrite Hh, Hh0, app_assoc. split; [reflexivity|].
    intros op Hin. apply in_app_or in Hin. destruct Hin as [Hin|Hin].
    + rewrite forallb_forall in Hs0. specialize (Hs0 _ Hin). discriminate.
    + rewrite forallb_forall in Hp. specialize (Hp _ Hin).
      unfold permitted in Hp. apply orb_true_iff in Hp.
      destruct Hp as [Hp|Hp].
      * left. exists a. eexists. split; [reflexivity|].
        apply str_eqb_eq. exact Hp.
      * right. unfold accepted in Hp. fold up.
        destruct (validate_sql_query up op) as [e|b] eqn:Hv; [discriminate|].
        apply (validate_returns_iff _ _ _) in Hv. destruct Hv as [-> _].
        reflexivity.
Qed.

(** X27.  [main] executes a generated statement only after a line that
    answers [y]: in a run in which no line reads [y] (case and surrounding
    white space apart), the only statement sent to the warehouse is the
    DESCRIBE of the configured table. *)
Theorem main_asks_before_executing W R h lines :
  existsb (says_yes R) lines = false ->
  exists added,
    snd (fst (main W R h lines)) = h ++ added
    /\ forall op, In (CursorExecute op) added ->
         exists a h1, init W None h = (inr a, h1)
                      /\ op = describe_statement a.
Proof.
  intros Hno.
  assert (forall line, In line lines -> says_yes R line = true ->
            forall q st, footprint_by quiet st (snd (query W q true st)))
    as Hyes.
  { intros line Hin Hy.
    assert (existsb (says_yes R) lines = true) as Ht
      by (apply existsb_exists; eauto).
    congruence. }
  pose proof (main_history quiet W R h lines quiet_settings quiet_other
                quiet_describe Hyes) as H.
  destruct (init_history W None h) as [added0 [Hh0 Hs0]].
  destruct (init W None h) as [[e|a] h1]; simpl in Hh0.
  - exists []. rewrite app_nil_r. split; [exact H|]. intros op [].
  - destruct H as [added [Hh Hp]]. exists (added0 ++ added).
    rewrite Hh, Hh0, app_assoc. split; [reflexivity|].
    intros op Hin. apply in_app_or in Hin. destruct Hin as [Hin|Hin].
    + rewrite forallb_forall in Hs0. specialize (Hs0 _ Hin). discriminate.
    + rewrite forallb_forall in Hp. specialize (Hp _ Hin).
      exists a. eexists. split; [reflexivity|]. apply str_eqb_eq. exact Hp.
Qed.

Lemma main_asks_before_executing_witness :
  let lines := [py "count rows"; py "n"; py "count rows"; py "yes"; py "q"] in
  existsb (says_yes plain_runtime) lines = false
  /\ exists added,
       snd (fst (main openai_world plain_runtime [] lines)) = [] ++ added
       /\ forall op, In (CursorExecute op) added ->
            exists a h1, init openai_world None [] = (inr a, h1)
                         /\ op = describe_statement a.
Proof.
  intros lines. split; [reflexivity|].
  exact (main_asks_before_executing openai_world plain_runtime [] lines
           eq_refl).
Defined.

Lemma interactive_ends W R lines : forall st out,
  fst (fst (interactive W R lines st out)) = inr tt
  \/ (fst (fst (interactive W R lines st out)) = inl eof_error
      /\ stdin (snd (interactive W R lines st out)) = []).
Proof.
  remember (length lines) as n eqn:Hn. revert lines Hn.
  induction n as [n IH] using lt_wf_ind. intros lines Hn st out.
  destruct lines as [|line rest]; [right; split; reflexivity|].
  assert (forall st' out',
            fst (fst (interactive W R rest st' out')) = inr tt
            \/ (fst (fst (interactive W R rest st' out')) = inl eof_error
                /\ stdin (snd (interactive W R rest st' out')) = []))
    as IHrest.
  { intros st' out'.
    apply (IH (length rest)); [subst n; simpl; lia | reflexivity]. }
  cbn [interactive].
  destruct (existsb (str_eqb (lower R (strip line))) exit_words);
    [left; reflexivity|].
  destruct (strip line) as [|c u]; [apply IHrest|].
  destruct (query W (c :: u) false st) as [[e|result] st1]; [apply IHrest|].
  destruct (getitem (py "sql_query") result) as [e|sql]; [apply IHrest|].
  destruct rest as [|answer rest']; [apply IHrest|].
  assert (forall st' out',
            fst (fst (interactive W R rest' st' out')) = inr tt
            \/ (fst (fst (interactive W R rest' st' out')) = inl eof_error
                /\ stdin (snd (interactive W R rest' st' out')) = []))
    as IHrest'.
  { intros st' out'.
    apply (IH (length rest')); [subst n; simpl; lia | reflexivity]. }
  destruct (str_eqb (lower R (strip answer)) (py "y")); [|apply IHrest'].
  destruct (query W (c :: u) true st1) as [[e|result2] st2]; [apply IHrest'|].
  destruct (report R result2 _) as [[e|x] out3]; apply IHrest'.
Qed.

(** X28.  [main] lets no error of the assistant escape: whatever the
    outside world answers and whatever is typed, it either returns (after
    an exit word, or at once when the assistant cannot be built, in which
    case it has read nothing and called nothing) or raises the end-of-input
    error of [input()] once every line has been read. *)
Theorem main_ends W R h lines :
  (fst (fst (main W R h lines)) = inr tt
   \/ (fst (fst (main W R h lines)) = inl eof_error
       /\ stdin (snd (main W R h lines)) = []))
  /\ (forall e h1, init W None h = (inl e, h1) ->
        fst (main W R h lines) = (inr tt, h)
        /\ stdin (snd (main W R h lines)) = lines).
Proof.
  split.
  - unfold main. destruct (init W None h) as [[e|a] h1]; [left; reflexivity|].
    destruct (run_examples W R 1 example_queries (State a h1) _)
      as [st1 out2].
    match goal with
    | |- context [interactive W R lines st1 ?o] =>
        pose proof (interactive_ends W R lines st1 o) as H;
        destruct (interactive W R lines st1 o) as [[res st2] c]
    end.
    exact H.
  - intros e h1 Hi. unfold main. rewrite Hi. simpl.
    assert (h1 = h) as ->.
    { unfold init in Hi.
      destruct (str_eqb (select_provider W None) (py "openai")).
      - destruct (negb (truthy (getenv W "OPENAI_API_KEY")));
          inversion Hi; reflexivity.
      - destruct (str_eqb (select_provider W None) (py "gemini")).
        + destruct (negb (truthy (getenv W "GEMINI_API_KEY")));
            inversion Hi; reflexivity.
        + inversion Hi. reflexivity. }
    auto.
Qed.

Example main_examples :
  fst (main keyless_world plain_runtime [] [py "count rows"]) = (inr tt, [])
  /\ stdout (snd (main keyless_world plain_runtime [] [py "count rows"]))
     = [py "Supply Chain Data Assistant"; repeat_str (py "=") 50;
        cross_mark
        ++ py " Error initializing assistant: OPENAI_API_KEY not found in environment variables"]
  /\ fst (fst (main openai_world plain_runtime [] [py "count rows"; py "n"]))
     = inl eof_error
  /\ fst (fst (main openai_world plain_runtime []
                 [py "count rows"; py "n"; py "EXIT"; py "unread"]))
     = inr tt
  /\ stdin (snd (main openai_world plain_runtime []
                   [py "count rows"; py "n"; py "EXIT"; py "unread"]))
     = [py "unread"].
Proof. vm_compute. repeat split. Qed.

(** ** A query is generated again before it is executed *)

Lemma provider_calls_snoc h e :
  provider_calls (h ++ [e])
  = if is_provider_call e then S (provider_calls h) else provider_calls h.
Proof.
  unfold provider_calls. rewrite filter_app, length_app. simpl.
  destruct (is_provider_call e); simpl; lia.
Qed.

(** With the schema in the cache, a generation that succeeds has made one
    provider call, has left the instance as it was, and shows that the
    instance can be served. *)
Lemma natural_language_to_sql_cached_ok W q st sql st1 :
  truthy (_table_schema (self st)) = true ->
  natural_language_to_sql W q st = (inr sql, st1) ->
  self st1 = self st
  /\ provider_calls (history st1) = S (provider_calls (history st))
  /\ dispatchable (self st).
Proof.
  intros Hc. rewrite natural_language_to_sql_unfold.
  rewrite generate_sql_prompt_unfold, (get_table_schema_cached _ _ Hc).
  destruct (str_eqb (llm_provider (self st)) (py "openai")) eqn:E1.
  - apply str_eqb_eq in E1. rewrite generate_sql_with_openai_unfold.
    destruct (openai_model (self st)) eqn:Hm; [|discriminate].
    cbv zeta. destruct (chat_completions_create W _); [discriminate|].
    intros H. injection H as _ <-. cbn [self history].
    rewrite provider_calls_snoc. repeat split.
    left. split; [exact E1 | congruence].
  - destruct (str_eqb (llm_provider (self st)) (py "gemini")) eqn:E2;
      [|discriminate].
    apply str_eqb_eq in E2. rewrite generate_sql_with_gemini_unfold.
    destruct (gemini_client (self st)) eqn:Hm; [|discriminate].
    cbv zeta. destruct (generate_content W _); [discriminate|].
    intros H. injection H as _ <-. cbn [self history].
    rewrite provider_calls_snoc. repeat split.
    right. split; [exact E2 | congruence].
Qed.

(** With the schema in the cache, a generation on an instance that can be
    served makes one provider call, whether it succeeds or not. *)
Lemma natural_language_to_sql_cached_call W q st :
  truthy (_table_schema (self st)) = true ->
  dispatchable (self st) ->
  provider_calls (history (snd (natural_language_to_sql W q st)))
  = S (provider_calls (history st)).
Proof.
  intros Hc Hd. rewrite natural_language_to_sql_unfold.
  rewrite generate_sql_prompt_unfold, (get_table_schema_cached _ _ Hc).
  destruct Hd as [[Hp Hm]|[Hp Hm]]; rewrite Hp.
  - rewrite str_eqb_refl, generate_sql_with_openai_unfold.
    destruct (openai_model (self st)); [|congruence].
    cbv zeta. destruct (chat_completions_create W _);
      cbn [snd history]; rewrite provider_calls_snoc; reflexivity.
  - change (str_eqb (py "gemini") (py "openai")) with false.
    rewrite str_eqb_refl, generate_sql_with_gemini_unfold.
    destruct (gemini_client (self st)); [|congruence].
    cbv zeta. destruct (generate_content W _);
      cbn [snd history]; rewrite provider_calls_snoc; reflexivity.
Qed.

Lemma execute_sql_provider_calls W s st :
  provider_calls (history (snd (execute_sql W s st)))
  = provider_calls (history st).
Proof.
  rewrite execute_sql_unfold.
  destruct (validate_sql_query (unicode_upper W) s); [reflexivity|].
  unfold run_verbatim. rewrite get_databricks_connection_unfold.
  destruct (connection_ready (self st)); [|reflexivity].
  cbv zeta. destruct (sql_connect W _).
  - cbn [snd history]. rewrite provider_calls_snoc. reflexivity.
  - cbn [history self].
    destruct (cursor_run W _); cbn [snd history];
      rewrite !provider_calls_snoc; reflexivity.
Qed.

(** X29.  When the user answers [y], the loop does not execute the SQL it
    has just shown: it runs [query] once more, with execution, so the
    provider is asked a second time and the statement that is validated and
    executed is the one generated by that second call. *)
Theorem interactive_generates_twice W R q_line answer st out result st1 :
  truthy (_table_schema (self st)) = true ->
  strip q_line <> [] ->
  existsb (str_eqb (lower R (strip q_line))) exit_words = false ->
  query W (strip q_line) false st = (inr result, st1) ->
  says_yes R answer = true ->
  snd (fst (interactive W R [q_line; answer] st out))
  = snd (query W (strip q_line) true st1)
  /\ provider_calls
       (history (snd (fst (interactive W R [q_line; answer] st out))))
     = provider_calls (history st) + 2.
Proof.
  intros Hc Hne Hex Hq Hy.
  assert (snd (fst (interactive W R [q_line; answer] st out))
          = snd (query W (strip q_line) true st1)) as Hst.
  { cbn [interactive]. rewrite Hex.
    destruct (strip q_line) as [|c u] eqn:Hs; [congruence|].
    rewrite Hq.
    assert (exists sql, result = envelope_plain (c :: u) sql) as [sql ->].
    { rewrite query_unfold in Hq.
      destruct (natural_language_to_sql W (c :: u) st) as [[e|sql] st'];
        [discriminate|]. injection Hq as <- _. eauto. }
    change (getitem (py "sql_query") (envelope_plain (c :: u) sql))
      with (@inr exn field (FStr sql)).
    unfold says_yes in Hy. rewrite Hy.
    destruct (query W (c :: u) true st1) as [[e|result2] st2];
      [reflexivity|].
    destruct (report R result2 _) as [[e|x] out3]; reflexivity. }
  split; [exact Hst|]. rewrite Hst.
  rewrite query_unfold in Hq.
  destruct (natural_language_to_sql W (strip q_line) st) as [[e|sql] st']
    eqn:Hg; [discriminate|].
  injection Hq as _ <-.
  destruct (natural_language_to_sql_cached_ok _ _ _ _ _ Hc Hg)
    as [Hself [Hcalls Hd]].
  assert (provider_calls (history (snd (query W (strip q_line) true st')))
          = S (provider_calls (history st'))) as H2.
  { rewrite query_unfold.
    pose proof (natural_language_to_sql_cached_call W (strip q_line) st')
      as Hcall.
    rewrite Hself in Hcall. specialize (Hcall Hc Hd).
    destruct (natural_language_to_sql W (strip q_line) st')
      as [[e|sql2] st2]; [exact Hcall|].
    simpl in Hcall.
    pose proof (execute_sql_provider_calls W sql2 st2) as He.
    destruct (execute_sql W sql2 st2) as [[e|rows] st3]; simpl in *;
      congruence. }
  rewrite H2, Hcalls. lia.
Qed.

Lemma interactive_generates_twice_witness :
  let run := interactive fickle_world plain_runtime [py "count rows"; py "y"]
               cached_state [] in
  truthy (_table_schema (self cached_state)) = true
  /\ fst (query fickle_world (py "count rows") false cached_state)
     = inr (envelope_plain (py "count rows") (py "SELECT 1"))
  /\ stdout (snd run)
     = [question_prompt;
        nl ++ py "Generated SQL:" ++ nl ++ py "SELECT 1";
        execute_prompt;
        nl ++ py "Results: 1 rows returned";
        py "<row>";
        question_prompt]
  /\ In (CursorExecute (py "SELECT 2")) (history (snd (fst run)))
  /\ provider_calls (history (snd (fst run)))
     = provider_calls (history cached_state) + 2.
Proof.
  intros run.
  split; [reflexivity|]. split; [vm_compute; reflexivity|].
  split; [vm_compute; reflexivity|].
  split; [vm_compute; tauto|].
  refine (proj2 (interactive_generates_twice fickle_world plain_runtime
                   (py "count rows") (py "y") cached_state []
                   (envelope_plain (py "count rows") (py "SELECT 1"))
                   (snd (query fickle_world (py "count rows") false
                           cached_state))
                   eq_refl _ eq_refl _ eq_refl)).
  - vm_compute. discriminate.
  - vm_compute. reflexivity.
Defined.
